(** * Black Orchid: the proxy handler's registry, collision renaming and reloads

    A shallow embedding of [ProxyHandler] from [black_orchid.py]:
    module discovery and validation, loading, the collision-aware
    [_register_tool], dispatch ([use_proxy_tool]), the full reload
    ([reload_all_modules]) and the single-module reload ([reload_module]).

    Python's dictionaries keep insertion order and the handler lists their
    keys ([list(self.registry.keys())]), so they are modelled as ordered
    association lists ([PyDict]).  The file system and the interpreter's
    import machinery are a [World] record of observations; module objects
    live in a store so that the in-place re-execution of a module is seen
    through every reference to it. *)

From Stdlib Require Import String Ascii List Bool Arith Lia DecimalString.
Import ListNotations.
Open Scope string_scope.

(** ** Strings *)

Module PyStr.

(** [s.startswith(p)] *)
Definition startswith (s p : string) : bool := String.prefix p s.

(** [sub in s] *)
Fixpoint contains (sub s : string) : bool :=
  String.prefix sub s ||
  match s with
  | EmptyString => false
  | String _ s' => contains sub s'
  end.

Definition is_upper (c : ascii) : bool :=
  let n := nat_of_ascii c in ((65 <=? n) && (n <=? 90))%nat.

Definition is_lower (c : ascii) : bool :=
  let n := nat_of_ascii c in ((97 <=? n) && (n <=? 122))%nat.

Fixpoint any_char (p : ascii -> bool) (s : string) : bool :=
  match s with
  | EmptyString => false
  | String c s' => p c || any_char p s'
  end.

(** [s.islower()] for a string of ASCII characters: no uppercase letter
    and at least one lowercase one.  For other text the answer depends on
    the Unicode character database and is an observation of the world
    ([str_islower] below); the scripted worlds, whose names are ASCII,
    answer with this function. *)
Definition islower_ascii (s : string) : bool :=
  negb (any_char is_upper s) && any_char is_lower s.

Definition lower_char (c : ascii) : ascii :=
  if is_upper c then ascii_of_nat (nat_of_ascii c + 32) else c.

(** [s.lower()] for a string of ASCII characters; for other text see
    [str_lower] below. *)
Fixpoint lower_ascii (s : string) : string :=
  match s with
  | EmptyString => EmptyString
  | String c s' => String (lower_char c) (lower_ascii s')
  end.

(** [s.endswith(p)] *)
Definition endswith (s p : string) : bool :=
  let n := String.length s in
  let m := String.length p in
  (m <=? n)%nat && (String.substring (n - m) m s =? p).

(** [repr] of a string without quotes or escapes in it. *)
Definition repr (s : string) : string := "'" ++ s ++ "'".

(** [repr] of a list of strings: ['a', 'b']. *)
Definition repr_list (l : list string) : string :=
  "[" ++ String.concat ", " (map repr l) ++ "]".

End PyStr.

(** ** Paths ([pathlib.Path], absolute) as their components *)

Definition path := list string.

Module PyPath.

Fixpoint is_prefix (d p : path) : bool :=
  match d, p with
  | [], _ => true
  | x :: d', y :: p' => (x =? y) && is_prefix d' p'
  | _ :: _, [] => false
  end.

(** [p.is_relative_to(d)] *)
Definition is_relative_to (p d : path) : bool := is_prefix d p.

(** [d / name] *)
Definition joinpath (d : path) (name : string) : path := (d ++ [name])%list.

(** [p.name] *)
Definition name (p : path) : string := last p "".

(** Splits the reversed characters of a file name at its last dot:
    the reversed suffix letters and the reversed rest. *)
Fixpoint split_dot (r : list ascii) : option (list ascii * list ascii) :=
  match r with
  | [] => None
  | c :: r' =>
      if (c =? ".")%char then Some ([], r')
      else match split_dot r' with
           | Some (suf, rest) => Some (c :: suf, rest)
           | None => None
           end
  end.

(** The stem of a file name: with [i = name.rfind('.')], [name[:i]]
    when [0 < i < len(name) - 1], the whole name otherwise. *)
Definition stem_of_name (nm : string) : string :=
  match split_dot (rev (list_ascii_of_string nm)) with
  | Some (_ :: _, (_ :: _) as rest) => string_of_list_ascii (rev rest)
  | _ => nm
  end.

(** [p.stem] *)
Definition stem (p : path) : string := stem_of_name (name p).

End PyPath.

(** ** Insertion-ordered dictionaries with string keys *)

Module PyDict.
Section Dict.
Context {V : Type}.

Definition t := list (string * V).

Definition empty : t := [].

(** [d.get(k)] *)
Fixpoint get (d : t) (k : string) : option V :=
  match d with
  | [] => None
  | (k', v) :: d' => if k' =? k then Some v else get d' k
  end.

(** [k in d] *)
Definition mem (d : t) (k : string) : bool :=
  match get d k with Some _ => true | None => false end.

(** [list(d.keys())] *)
Definition keys (d : t) : list string := map fst d.

(** [d[k] = v]: an existing key keeps its place, a new one goes last. *)
Fixpoint setitem (d : t) (k : string) (v : V) : t :=
  match d with
  | [] => [(k, v)]
  | (k', v') :: d' =>
      if k' =? k then (k', v) :: d' else (k', v') :: setitem d' k v
  end.

(** [del d[k]] on a dictionary that has [k]; the keys of a dictionary are
    unique, so one pair goes. *)
Fixpoint delitem (d : t) (k : string) : t :=
  match d with
  | [] => []
  | (k', v') :: d' =>
      if k' =? k then delitem d' k else (k', v') :: delitem d' k
  end.

(** [d[k] = f(d[k])], the in-place update of the value under [k]. *)
Definition modify (d : t) (k : string) (f : V -> V) : t :=
  match get d k with
  | Some v => setitem d k (f v)
  | None => d
  end.

End Dict.
Arguments t : clear implicits.
End PyDict.

(** ** Python values, exceptions and module objects *)

(** An object bound to a top-level name of a module: its identity, whether
    it can be called, and its [__doc__]. *)
Record pyobj := PyObj {
  obj_id : nat;
  obj_callable : bool;
  obj_doc : option string }.

(** An exception: its class name, its single message argument, and
    whether its class derives from [Exception], as every class does but
    [SystemExit], [KeyboardInterrupt], [GeneratorExit] and the classes
    derived from [BaseException] alone.  An [except Exception] clause
    catches the former only. *)
Record exn := MkExn {
  exc_type : string;
  exc_arg : string;
  exc_is_exception : bool }.

(** An exception of a class that derives from [Exception]. *)
Definition Exn (class_name message : string) : exn :=
  MkExn class_name message true.

(** [str(e)]: the message, which [KeyError] shows quoted. *)
Definition py_str (e : exn) : string :=
  if exc_type e =? "KeyError" then PyStr.repr (exc_arg e) else exc_arg e.

Inductive outcome (A : Type) : Type :=
| Ret (a : A)
| Raise (e : exn).
Arguments Ret {A} a.
Arguments Raise {A} e.

(** A module object: the name of its spec, its [__file__] and its
    namespace ([__dict__]). *)
Record module_obj := {
  mod_name : string;
  mod_file : path;
  mod_ns : PyDict.t pyobj }.

(** References to module objects. *)
Definition addr := nat.

(** ** The registry *)

(** A value of [self.registry]. *)
Record ToolEntry := {
  function : pyobj;
  docstring : option string;
  source_module : string;
  original_name : string;
  had_collision : bool }.

(** A value of [self._name_tracker]: the list of (module, tool name)
    pairs of one original name.  The handler creates it with one pair and
    only appends to it or assigns its index 0, so it is never empty. *)
Record history := {
  hist_first : string * string;
  hist_rest : list (string * string) }.

Record ProxyHandler := {
  valid_dirs : list path;
  registry : PyDict.t ToolEntry;
  _name_tracker : PyDict.t history;
  rejected_modules : list (path * string);
  raw_modules : list path;
  okmods : list path;
  loaded_mods : PyDict.t addr }.

Definition with_registry (h : ProxyHandler) (r : PyDict.t ToolEntry) : ProxyHandler :=
  {| valid_dirs := valid_dirs h; registry := r;
     _name_tracker := _name_tracker h;
     rejected_modules := rejected_modules h; raw_modules := raw_modules h;
     okmods := okmods h; loaded_mods := loaded_mods h |}.

Definition with_tracker (h : ProxyHandler) (t : PyDict.t history) : ProxyHandler :=
  {| valid_dirs := valid_dirs h; registry := registry h;
     _name_tracker := t;
     rejected_modules := rejected_modules h; raw_modules := raw_modules h;
     okmods := okmods h; loaded_mods := loaded_mods h |}.

Definition with_rejected (h : ProxyHandler) (r : list (path * string)) : ProxyHandler :=
  {| valid_dirs := valid_dirs h; registry := registry h;
     _name_tracker := _name_tracker h;
     rejected_modules := r; raw_modules := raw_modules h;
     okmods := okmods h; loaded_mods := loaded_mods h |}.

Definition with_raw_modules (h : ProxyHandler) (r : list path) : ProxyHandler :=
  {| valid_dirs := valid_dirs h; registry := registry h;
     _name_tracker := _name_tracker h;
     rejected_modules := rejected_modules h; raw_modules := r;
     okmods := okmods h; loaded_mods := loaded_mods h |}.

Definition with_okmods (h : ProxyHandler) (o : list path) : ProxyHandler :=
  {| valid_dirs := valid_dirs h; registry := registry h;
     _name_tracker := _name_tracker h;
     rejected_modules := rejected_modules h; raw_modules := raw_modules h;
     okmods := o; loaded_mods := loaded_mods h |}.

Definition with_loaded_mods (h : ProxyHandler) (l : PyDict.t addr) : ProxyHandler :=
  {| valid_dirs := valid_dirs h; registry := registry h;
     _name_tracker := _name_tracker h;
     rejected_modules := rejected_modules h; raw_modules := raw_modules h;
     okmods := okmods h; loaded_mods := l |}.

(** [f"{original_name}_{module_name}"] *)
Definition suffixed (original_name module_name : string) : string :=
  original_name ++ "_" ++ module_name.

Definition new_entry (fn : pyobj) (module_name original_name : string)
  (collision : bool) : ToolEntry :=
  {| function := fn;
     docstring := obj_doc fn;
     source_module := module_name;
     original_name := original_name;
     had_collision := collision |}.

(** [entry["had_collision"] = True] *)
Definition mark_collision (e : ToolEntry) : ToolEntry :=
  {| function := function e;
     docstring := docstring e;
     source_module := source_module e;
     original_name := original_name e;
     had_collision := true |}.

(** The retroactive renaming of the first occupant of [original_name],
    done only when the first pair still carries the bare name and the
    bare key is still in the registry. *)
Definition rename_first (original_name : string) (hist : history)
  (h : ProxyHandler) : ProxyHandler :=
  let '(first_module, first_tool_name) := hist_first hist in
  if (first_tool_name =? original_name)
     && PyDict.mem (registry h) original_name
  then
    let new_first_name := suffixed original_name first_module in
    match PyDict.get (registry h) original_name with
    | Some popped =>
        let reg1 := PyDict.delitem (registry h) original_name in
        let reg2 := PyDict.setitem reg1 new_first_name popped in
        let reg3 := PyDict.modify reg2 new_first_name mark_collision in
        let hist' := {| hist_first := (first_module, new_first_name);
                        hist_rest := hist_rest hist |} in
        with_tracker (with_registry h reg3)
          (PyDict.setitem (_name_tracker h) original_name hist')
    | None => h
    end
  else h.

(** [ProxyHandler._register_tool] *)
Definition _register_tool (original_name module_name : string)
  (fn : pyobj) (h : ProxyHandler) : ProxyHandler :=
  match PyDict.get (_name_tracker h) original_name with
  | Some hist =>
      let h1 := rename_first original_name hist h in
      let new_tool_name := suffixed original_name module_name in
      let h2 := with_registry h1
                  (PyDict.setitem (registry h1) new_tool_name
                     (new_entry fn module_name original_name true)) in
      with_tracker h2
        (PyDict.modify (_name_tracker h2) original_name
           (fun t => {| hist_first := hist_first t;
                        hist_rest := (hist_rest t ++ [(module_name, new_tool_name)])%list |}))
  | None =>
      let h1 := with_registry h
                  (PyDict.setitem (registry h) original_name
                     (new_entry fn module_name original_name false)) in
      with_tracker h1
        (PyDict.setitem (_name_tracker h1) original_name
           {| hist_first := (module_name, original_name); hist_rest := [] |})
  end.

(** A call of [_register_tool] with its three arguments. *)
Record reg_call := {
  rc_name : string;
  rc_module : string;
  rc_fn : pyobj }.

(** A sequence of [_register_tool] calls, in order. *)
Definition register_calls (l : list reg_call) (h : ProxyHandler) : ProxyHandler :=
  fold_left (fun h c => _register_tool (rc_name c) (rc_module c) (rc_fn c) h) l h.

(** The handler before any registration. *)
Definition empty_handler (dirs : list path) : ProxyHandler :=
  {| valid_dirs := dirs; registry := []; _name_tracker := [];
     rejected_modules := []; raw_modules := []; okmods := [];
     loaded_mods := [] |}.

(** [list(self.registry.keys())] of the tools of one module: the keys of
    [{tool_id: info for tool_id, info in self.registry.items()
      if info["source_module"] == module_name}]. *)
Definition tools_of (module_name : string) (reg : PyDict.t ToolEntry) : list string :=
  PyDict.keys (filter (fun p => source_module (snd p) =? module_name) reg).

(** [ProxyHandler.list_tools] *)
Definition list_tools (h : ProxyHandler) : PyDict.t (option string) :=
  map (fun p => (fst p, docstring (snd p))) (registry h).

(** ** The world: file system, import machinery and callables *)

(** What [open(mod_path).read()] followed by [ast.parse] does. *)
Inductive read_result :=
| SourceOk
| SyntaxErrorRaised
| ReadFailed (detail : string).

(** The interpreter's store of module objects and [sys.modules]. *)
Record Interp := {
  heap : addr -> module_obj;
  next_addr : addr;
  sys_modules : PyDict.t addr }.

Definition kwargs := list (string * pyobj).

(** The handler together with the interpreter it runs in. *)
Record Runtime := {
  hdl : ProxyHandler;
  py : Interp }.

Record World := {
  (** [Path(__file__).parent.resolve()] *)
  base_dir : path;
  (** [Path.resolve()]: the absolute path with symbolic links followed *)
  resolve : path -> path;
  (** [Path.exists()] *)
  path_exists : path -> bool;
  (** the entries of a directory, in the order [glob] meets them *)
  listdir : path -> list string;
  (** what [glob.glob(str(d / "*.py"))] returns for a directory [d] whose
      own path holds a pattern character, so that the directory part is
      matched as a pattern too *)
  glob_magic : path -> list path;
  (** reading a file as UTF-8 text and parsing it *)
  read_and_parse : path -> read_result;
  (** whether [spec_from_file_location] yields a spec with a loader *)
  has_loader : path -> bool;
  (** running the code of a file in a namespace: the namespace as the run
      left it, and the exception that ended it, if any *)
  run_code : path -> PyDict.t pyobj -> PyDict.t pyobj * option exn;
  (** the import system's search for a top-level module name
      ([sys.meta_path] over [sys.path]), as [importlib.reload] does it *)
  find_spec : string -> option path;
  (** calling the object of that identity with keyword arguments: what the
      call returns or raises (a [TypeError] for an object that cannot be
      called), and the handler and the interpreter as the call leaves
      them *)
  call_function : nat -> kwargs -> Runtime -> outcome pyobj * Runtime;
  (** [str.islower()], which follows the Unicode character database *)
  str_islower : string -> bool;
  (** [str.lower()], which follows the Unicode character database *)
  str_lower : string -> string;
  (** [traceback.format_exception(type(e), e, e.__traceback__)] joined: the
      frames of the stack at the raise and the line of the exception *)
  format_exception : exn -> string }.

(** ** Discovery and validation *)

(** The characters that make a path a pattern ([glob.has_magic]). *)
Definition is_magic (c : ascii) : bool :=
  ((c =? "*") || (c =? "?") || (c =? "["))%char.

Definition has_magic (d : path) : bool := existsb (PyStr.any_char is_magic) d.

(** [glob.glob(str(valid_dir / "*.py"))].  When the path of the directory
    holds no pattern character, the entries of the directory that end in
    [.py] and have no leading dot, each joined to the directory; otherwise
    the directory part is matched as a pattern and the result is the
    world's. *)
Definition glob_py (w : World) (valid_dir : path) : list path :=
  if has_magic valid_dir then glob_magic w valid_dir
  else
    map (PyPath.joinpath valid_dir)
      (filter (fun n => PyStr.endswith n ".py" && negb (PyStr.startswith n "."))
         (listdir w valid_dir)).

(** [for valid_dir in self.valid_dirs: self.raw_modules.extend(glob...)] *)
Definition discover (w : World) (dirs : list path) : list path :=
  flat_map (glob_py w) dirs.

(** [any(mod_path.is_relative_to(valid_dir) for valid_dir in self.valid_dirs)] *)
Definition is_valid_path (dirs : list path) (mod_path : path) : bool :=
  existsb (PyPath.is_relative_to mod_path) dirs.

Definition reject (h : ProxyHandler) (p : path) (reason : string) : ProxyHandler :=
  with_rejected h (rejected_modules h ++ [(p, reason)])%list.

(** One turn of the loop [for mod in self.raw_modules]; [raw] is the
    source's [mod]. *)
Definition validate_one (w : World) (h : ProxyHandler) (raw : path) : ProxyHandler :=
  let mod_path := resolve w raw in
  if negb (is_valid_path (valid_dirs h) mod_path) then
    reject h raw "path_traversal_attempt"
  else if PyPath.stem mod_path =? "toolset" then h
  else
    match read_and_parse w mod_path with
    | SourceOk => with_okmods h (okmods h ++ [mod_path])%list
    | SyntaxErrorRaised => reject h raw "syntax_error"
    | ReadFailed e => reject h raw ("read_error: " ++ e)
    end.

Definition validate_all (w : World) (h : ProxyHandler) : ProxyHandler :=
  fold_left (validate_one w) (raw_modules h) h.

(** ** Loading *)

Definition set_heap (i : Interp) (a : addr) (m : module_obj) : Interp :=
  {| heap := fun b => if Nat.eqb b a then m else heap i b;
     next_addr := next_addr i;
     sys_modules := sys_modules i |}.

Definition set_sys_module (i : Interp) (name : string) (a : addr) : Interp :=
  {| heap := heap i;
     next_addr := next_addr i;
     sys_modules := PyDict.setitem (sys_modules i) name a |}.

(** A new module object in the store. *)
Definition alloc (m : module_obj) (i : Interp) : addr * Interp :=
  (next_addr i,
   {| heap := fun b => if Nat.eqb b (next_addr i) then m else heap i b;
      next_addr := S (next_addr i);
      sys_modules := sys_modules i |}).

(** An attribute that the import machinery sets on every module. *)
Definition module_attr : pyobj := PyObj 0 false None.

(** [module_from_spec(spec)]: a module whose namespace holds the import
    attributes only. *)
Definition module_from_spec (name : string) (origin : path) : module_obj :=
  {| mod_name := name;
     mod_file := origin;
     mod_ns := [("__name__", module_attr); ("__doc__", module_attr);
                ("__package__", module_attr); ("__loader__", module_attr);
                ("__spec__", module_attr); ("__file__", module_attr);
                ("__cached__", module_attr)] |}.

(** [spec.loader.exec_module(module)] for the loader of [file]: the code
    runs in the namespace of the module object itself, which keeps what
    the run bound even when the run is ended by an exception. *)
Definition exec_module (w : World) (file : path) (a : addr) (i : Interp)
  : outcome unit * Interp :=
  let m := heap i a in
  let (ns', err) := run_code w file (mod_ns m) in
  let i' := set_heap i a {| mod_name := mod_name m; mod_file := mod_file m;
                            mod_ns := ns' |} in
  match err with
  | None => (Ret tt, i')
  | Some e => (Raise e, i')
  end.

Fixpoint insert_sorted (x : string) (l : list string) : list string :=
  match l with
  | [] => [x]
  | y :: l' => if (x <=? y) then x :: l else y :: insert_sorted x l'
  end.

(** [sorted(names)] *)
Definition sorted (l : list string) : list string :=
  fold_right insert_sorted [] l.

(** [dir(tmod)] for a module that defines no [__dir__] of its own: the
    names of the module's namespace, sorted. *)
Definition dir (ns : PyDict.t pyobj) : list string := sorted (PyDict.keys ns).

(** The filter of [__init__] and of [reload_all_modules]:
    ["__" not in x and x.islower() and not x.startswith('_')]. *)
Definition eligible (w : World) (x : string) : bool :=
  negb (PyStr.contains "__" x) && str_islower w x && negb (PyStr.startswith x "_").

(** The filter of [reload_module]: ["__" not in x and x.islower()]. *)
Definition eligible_on_reload (w : World) (x : string) : bool :=
  negb (PyStr.contains "__" x) && str_islower w x.

(** [for fn_name in clean_list: self._register_tool(fn_name, mod_name,
    getattr(tmod, fn_name))]; the names come from [dir(tmod)] of a module
    without [__dir__] or [__getattr__] of its own, so [getattr] finds each
    of them in the namespace. *)
Definition register_module (clean_list : list string) (mod_name : string)
  (ns : PyDict.t pyobj) (h : ProxyHandler) : ProxyHandler :=
  fold_left
    (fun h fn_name =>
       match PyDict.get ns fn_name with
       | Some fn => _register_tool fn_name mod_name fn h
       | None => h
       end)
    clean_list h.

(** The import of a file as a new module:
    [spec_from_file_location], [module_from_spec],
    [sys.modules[mod_name] = tmod], [spec.loader.exec_module(tmod)].
    [Ret None] stands for the [continue] taken when there is no spec. *)
Definition fresh_import (w : World) (mod_name : string) (mod_path : path)
  (i : Interp) : outcome (option addr) * Interp :=
  if negb (has_loader w mod_path) then (Ret None, i)
  else
    let (tmod, i1) := alloc (module_from_spec mod_name mod_path) i in
    let i2 := set_sys_module i1 mod_name tmod in
    match exec_module w mod_path tmod i2 with
    | (Ret _, i3) => (Ret (Some tmod), i3)
    | (Raise e, i3) => (Raise e, i3)
    end.

Definition set_loaded (h : ProxyHandler) (mod_name : string) (tmod : addr) : ProxyHandler :=
  with_loaded_mods h (PyDict.setitem (loaded_mods h) mod_name tmod).

(** One turn of the loading loop of [__init__].  Its [except Exception]
    logs the failure and goes on to the next module; an exception of a
    class outside [Exception] is not caught and leaves the loop. *)
Definition load_one (w : World) (rt : Runtime) (mod_path : path)
  : outcome unit * Runtime :=
  let mod_name := PyPath.stem mod_path in
  match fresh_import w mod_name mod_path (py rt) with
  | (Ret None, i) => (Ret tt, {| hdl := hdl rt; py := i |})
  | (Ret (Some tmod), i) =>
      let h1 := set_loaded (hdl rt) mod_name tmod in
      let ns := mod_ns (heap i tmod) in
      let clean_list := filter (eligible w) (dir ns) in
      (Ret tt, {| hdl := register_module clean_list mod_name ns h1; py := i |})
  | (Raise e, i) =>
      if exc_is_exception e then
        (Ret tt,
         {| hdl := reject (hdl rt) mod_path ("import_error: " ++ py_str e);
            py := i |})
      else (Raise e, {| hdl := hdl rt; py := i |})
  end.

(** [for mod_path in self.okmods] of [__init__]. *)
Fixpoint load_loop (w : World) (mods : list path) (rt : Runtime)
  : outcome unit * Runtime :=
  match mods with
  | [] => (Ret tt, rt)
  | mod_path :: rest =>
      match load_one w rt mod_path with
      | (Ret _, rt') => load_loop w rest rt'
      | (Raise e, rt') => (Raise e, rt')
      end
  end.

(** [self.valid_dirs]: the resolved [modules/], and the resolved
    [private/modules/] when it exists. *)
Definition startup_dirs (w : World) : list path :=
  let modules_dir := PyPath.joinpath (base_dir w) "modules" in
  let private_modules_dir :=
    PyPath.joinpath (PyPath.joinpath (base_dir w) "private") "modules" in
  (resolve w modules_dir ::
   (if path_exists w private_modules_dir
    then [resolve w private_modules_dir] else []))%list.

(** The run of [ProxyHandler.__init__]: whether it returns or is left by
    an exception, and the handler and the interpreter at that point. *)
Definition construct (w : World) (i : Interp) : outcome unit * Runtime :=
  let h0 := empty_handler (startup_dirs w) in
  let h1 := with_raw_modules h0 (discover w (valid_dirs h0)) in
  let h2 := validate_all w h1 in
  load_loop w (okmods h2) {| hdl := h2; py := i |}.

(** [ProxyHandler.__init__]: the handler and the interpreter as the
    constructor leaves them.  When [construct] ends in [Raise], this is the
    state at the point where the exception left the loading loop. *)
Definition __init__ (w : World) (i : Interp) : Runtime := snd (construct w i).

(** ** Full reload *)

(** [importlib.reload(module)]: the module's name is searched anew by the
    import system; the spec found is executed in the module object itself,
    whose [__file__] becomes the origin of that spec. *)
Definition importlib_reload (w : World) (a : addr) (i : Interp)
  : outcome addr * Interp :=
  let m := heap i a in
  let name := mod_name m in
  match PyDict.get (sys_modules i) name with
  | Some b =>
      if Nat.eqb b a then
        match find_spec w name with
        | None =>
            (Raise (Exn "ModuleNotFoundError"
                      ("spec not found for the module " ++ PyStr.repr name)), i)
        | Some origin =>
            let i1 := set_heap i a {| mod_name := name; mod_file := origin;
                                      mod_ns := mod_ns m |} in
            match exec_module w origin a i1 with
            | (Ret _, i2) => (Ret a, i2)
            | (Raise e, i2) => (Raise e, i2)
            end
        end
      else (Raise (Exn "ImportError" ("module " ++ name ++ " not in sys.modules")), i)
  | None => (Raise (Exn "ImportError" ("module " ++ name ++ " not in sys.modules")), i)
  end.

(** The body of [for mod_path in self.okmods] in [reload_all_modules] up
    to the binding of [tmod]: nothing here is inside a [try] except the
    call of [reload], whose [except Exception] falls back to a fresh
    import. *)
Definition load_for_reload (w : World) (mod_name : string) (mod_path : path)
  (i : Interp) : outcome (option addr) * Interp :=
  match PyDict.get (sys_modules i) mod_name with
  | Some a =>
      match importlib_reload w a i with
      | (Ret tmod, i1) => (Ret (Some tmod), i1)
      | (Raise e, i1) =>
          if exc_is_exception e then fresh_import w mod_name mod_path i1
          else (Raise e, i1)
      end
  | None => fresh_import w mod_name mod_path i
  end.

(** One turn of the loading loop of [reload_all_modules]. *)
Definition reload_one (w : World) (rt : Runtime) (mod_path : path)
  : outcome unit * Runtime :=
  let mod_name := PyPath.stem mod_path in
  match load_for_reload w mod_name mod_path (py rt) with
  | (Ret None, i) => (Ret tt, {| hdl := hdl rt; py := i |})
  | (Ret (Some tmod), i) =>
      let h1 := set_loaded (hdl rt) mod_name tmod in
      let ns := mod_ns (heap i tmod) in
      let clean_list := filter (eligible w) (dir ns) in
      (Ret tt, {| hdl := register_module clean_list mod_name ns h1; py := i |})
  | (Raise e, i) => (Raise e, {| hdl := hdl rt; py := i |})
  end.

(** The loading loop of [reload_all_modules]: an exception leaves it. *)
Fixpoint reload_loop (w : World) (mods : list path) (rt : Runtime)
  : outcome unit * Runtime :=
  match mods with
  | [] => (Ret tt, rt)
  | mod_path :: rest =>
      match reload_one w rt mod_path with
      | (Ret _, rt') => reload_loop w rest rt'
      | (Raise e, rt') => (Raise e, rt')
      end
  end.

Definition str_of_nat (n : nat) : string := NilEmpty.string_of_uint (Nat.to_uint n).

(** The four [clear()] calls that open [reload_all_modules]. *)
Definition clear_all (h : ProxyHandler) : ProxyHandler :=
  {| valid_dirs := valid_dirs h; registry := []; _name_tracker := [];
     rejected_modules := []; raw_modules := raw_modules h;
     okmods := okmods h; loaded_mods := [] |}.

(** [ProxyHandler.reload_all_modules] *)
Definition reload_all_modules (w : World) (rt : Runtime) : outcome string * Runtime :=
  let h0 := clear_all (hdl rt) in
  let h1 := with_raw_modules h0 (discover w (valid_dirs h0)) in
  let h2 := validate_all w (with_okmods h1 []) in
  match reload_loop w (okmods h2) {| hdl := h2; py := py rt |} with
  | (Ret _, rt') =>
      let num_tools := List.length (registry (hdl rt')) in
      let num_modules := List.length (loaded_mods (hdl rt')) in
      (Ret ("Loaded " ++ str_of_nat num_tools ++ " tools from "
              ++ str_of_nat num_modules ++ " modules"), rt')
  | (Raise e, rt') => (Raise e, rt')
  end.

(** ** Single-module reload *)

(** How a call of [reload_module] ends: with one of the three
    dictionaries it returns, or, without a report, by an exception that its
    [except Exception] does not catch. *)
Inductive reload_report :=
| NotLoaded (error : string)
| Reloaded (reloaded : string) (tools_added tools_removed : list string)
    (suggestion : option string)
| ReloadFailed (error traceback note : string)
| NoReport (escaped : exn).

(** [list(a - b)] for two sets of names.  Python leaves the order of the
    list open; here it is the order of [a]. *)
Definition set_minus (a b : list string) : list string :=
  filter (fun k => negb (existsb (String.eqb k) b)) a.

(** The first [valid_dir / f"{module_name}.py"] that exists. *)
Definition find_module_file (w : World) (dirs : list path) (module_name : string)
  : option path :=
  find (path_exists w)
    (map (fun valid_dir => PyPath.joinpath valid_dir (module_name ++ ".py")) dirs).

(** [for tool_id in old_tool_names: del self.registry[tool_id]] *)
Definition remove_tools (old_tool_names : list string) (reg : PyDict.t ToolEntry)
  : PyDict.t ToolEntry :=
  fold_left (fun r tool_id => PyDict.delitem r tool_id) old_tool_names reg.

(** The body of the [try] of [reload_module]. *)
Definition reload_attempt (w : World) (module_name : string) (tmod : addr)
  (old_tool_names : list string) (rt : Runtime)
  : outcome (list string * list string) * Runtime :=
  match find_module_file w (valid_dirs (hdl rt)) module_name with
  | None =>
      (Raise (Exn "FileNotFoundError"
                ("Module file for '" ++ module_name ++ "' not found")), rt)
  | Some mod_path =>
      if negb (has_loader w mod_path) then
        (Raise (Exn "ImportError"
                  ("Could not create spec for '" ++ module_name ++ "'")), rt)
      else
        match exec_module w mod_path tmod (py rt) with
        | (Raise e, i) => (Raise e, {| hdl := hdl rt; py := i |})
        | (Ret _, i) =>
            let h1 := with_registry (hdl rt)
                        (remove_tools old_tool_names (registry (hdl rt))) in
            let ns := mod_ns (heap i tmod) in
            let clean_list := filter (eligible_on_reload w) (dir ns) in
            let h2 := register_module clean_list module_name ns h1 in
            let new_tool_names := tools_of module_name (registry h2) in
            (Ret (set_minus new_tool_names old_tool_names,
                  set_minus old_tool_names new_tool_names),
             {| hdl := h2; py := i |})
        end
  end.

(** [ProxyHandler.reload_module] *)
Definition reload_module (w : World) (module_name : string) (rt : Runtime)
  : reload_report * Runtime :=
  match PyDict.get (loaded_mods (hdl rt)) module_name with
  | None =>
      (NotLoaded ("Module '" ++ module_name ++ "' not currently loaded"), rt)
  | Some tmod =>
      let old_tool_names := tools_of module_name (registry (hdl rt)) in
      match reload_attempt w module_name tmod old_tool_names rt with
      | (Ret (tools_added, tools_removed), rt') =>
          (Reloaded module_name tools_added tools_removed
             (match tools_added, tools_removed with
              | [], [] => None
              | _, _ => Some "Consider reload_all() to rebuild collision detection"
              end),
           rt')
      | (Raise e, rt') =>
          if exc_is_exception e then
            (ReloadFailed ("Failed to reload '" ++ module_name ++ "'")
               (format_exception w e)
               "Old version of module is still loaded",
             rt')
          else (NoReport e, rt')
      end
  end.

(** ** Dispatch *)

(** [ProxyHandler.use_proxy_tool]: the lookup, and the call of
    [proxy_fn] with the dictionary unpacked as keyword arguments. *)
Definition use_proxy_tool (w : World) (tool_id : string) (kw : kwargs)
  (rt : Runtime) : outcome pyobj * Runtime :=
  match PyDict.get (registry (hdl rt)) tool_id with
  | None =>
      (Raise (Exn "KeyError"
                ("Tool '" ++ tool_id ++ "' not found in registry. Available tools: "
                   ++ PyStr.repr_list (PyDict.keys (registry (hdl rt))))),
       rt)
  | Some info => call_function w (obj_id (function info)) kw rt
  end.

(** ** Predicates used to state properties *)

(** Every entry of the registry satisfies [Q]. *)
Definition reg_all (Q : ToolEntry -> Prop) (h : ProxyHandler) : Prop :=
  forall key e, In (key, e) (registry h) -> Q e.

(** Every name the tracker has seen satisfies [P]. *)
Definition tracked_all (P : string -> Prop) (h : ProxyHandler) : Prop :=
  forall x, In x (PyDict.keys (_name_tracker h)) -> P x.

(** What one candidate adds to [self.okmods]. *)
Definition accepted_of (w : World) (dirs : list path) (raw : path) : list path :=
  let mod_path := resolve w raw in
  if negb (is_valid_path dirs mod_path) then []
  else if PyPath.stem mod_path =? "toolset" then []
  else match read_and_parse w mod_path with
       | SourceOk => [mod_path]
       | _ => []
       end.

(** What one candidate adds to [self.rejected_modules]. *)
Definition rejection_of (w : World) (dirs : list path) (raw : path)
  : list (path * string) :=
  let mod_path := resolve w raw in
  if negb (is_valid_path dirs mod_path) then [(raw, "path_traversal_attempt")]
  else if PyPath.stem mod_path =? "toolset" then []
  else match read_and_parse w mod_path with
       | SourceOk => []
       | SyntaxErrorRaised => [(raw, "syntax_error")]
       | ReadFailed e => [(raw, "read_error: " ++ e)]
       end.

(** No registered tool, and no name ever tracked, has a double underscore
    in its original name. *)
Definition dunder_free (h : ProxyHandler) : Prop :=
  reg_all (fun e => PyStr.contains "__" (original_name e) = false) h /\
  tracked_all (fun x => PyStr.contains "__" x = false) h.

(** The error [use_proxy_tool] raises for an unknown tool id. *)
Definition not_found_error (tool_id : string) (known : list string) : exn :=
  Exn "KeyError"
    ("Tool '" ++ tool_id ++ "' not found in registry. Available tools: "
       ++ PyStr.repr_list known).

(** ** Scripted worlds for concrete runs *)

(** The code of a module file, statement by statement: a top-level binding
    ([def], [import], an assignment), a [del], or a [raise]. *)
Inductive stmt :=
| Bind (name : string) (value : pyobj)
| Del (name : string)
| RaiseStmt (e : exn).

Fixpoint run_stmts (prog : list stmt) (ns : PyDict.t pyobj)
  : PyDict.t pyobj * option exn :=
  match prog with
  | [] => (ns, None)
  | Bind x v :: rest => run_stmts rest (PyDict.setitem ns x v)
  | Del x :: rest => run_stmts rest (PyDict.delitem ns x)
  | RaiseStmt e :: _ => (ns, Some e)
  end.

Definition path_eqb (p q : path) : bool :=
  if list_eq_dec string_dec p q then true else false.

Definition app_dir : path := ["srv"; "black_orchid"].
Definition modules_dir : path := ["srv"; "black_orchid"; "modules"].

(** The text of a traceback with no frame line. *)
Definition bare_traceback (e : exn) : string :=
  "Traceback (most recent call last):" ++ exc_type e ++ ": " ++ py_str e.

(** A world with no symbolic links and no private directory: the files
    [names] lie in [modules/], each with the code [prog] gives it; the
    import system finds none of them by name; every call returns the same
    object and changes nothing; all text is ASCII. *)
Definition scripted_world (names : list string) (prog : path -> list stmt) : World :=
  {| base_dir := app_dir;
     resolve := fun p => p;
     path_exists := fun p => existsb (fun n => path_eqb p (PyPath.joinpath modules_dir n)) names;
     listdir := fun d => if path_eqb d modules_dir then names else [];
     glob_magic := fun _ => [];
     read_and_parse := fun _ => SourceOk;
     has_loader := fun _ => true;
     run_code := fun p ns => run_stmts (prog p) ns;
     find_spec := fun _ => None;
     call_function := fun _ _ rt => (Ret (PyObj 0 false None), rt);
     str_islower := PyStr.islower_ascii;
     str_lower := PyStr.lower_ascii;
     format_exception := bare_traceback |}.

(** The same world with other symbolic links. *)
Definition with_resolve (w : World) (r : path -> path) : World :=
  {| base_dir := base_dir w; resolve := r; path_exists := path_exists w;
     listdir := listdir w; glob_magic := glob_magic w;
     read_and_parse := read_and_parse w;
     has_loader := has_loader w; run_code := run_code w;
     find_spec := find_spec w; call_function := call_function w;
     str_islower := str_islower w; str_lower := str_lower w;
     format_exception := format_exception w |}.

(** The same world with another import search. *)
Definition with_find_spec (w : World) (f : string -> option path) : World :=
  {| base_dir := base_dir w; resolve := resolve w; path_exists := path_exists w;
     listdir := listdir w; glob_magic := glob_magic w;
     read_and_parse := read_and_parse w;
     has_loader := has_loader w; run_code := run_code w;
     find_spec := f; call_function := call_function w;
     str_islower := str_islower w; str_lower := str_lower w;
     format_exception := format_exception w |}.

(** The same world with other callables. *)
Definition with_call_function (w : World)
  (c : nat -> kwargs -> Runtime -> outcome pyobj * Runtime) : World :=
  {| base_dir := base_dir w; resolve := resolve w; path_exists := path_exists w;
     listdir := listdir w; glob_magic := glob_magic w;
     read_and_parse := read_and_parse w;
     has_loader := has_loader w; run_code := run_code w;
     find_spec := find_spec w; call_function := c;
     str_islower := str_islower w; str_lower := str_lower w;
     format_exception := format_exception w |}.

(** An interpreter that has imported nothing yet. *)
Definition fresh_interp : Interp :=
  {| heap := fun _ => module_from_spec "" [];
     next_addr := 0;
     sys_modules := [] |}.

Definition fn (id : nat) (doc : string) : pyobj := PyObj id true (Some doc).
Definition data (id : nat) : pyobj := PyObj id false None.

(** [modules/alpha.py] binds an imported module, two functions, a private
    helper and a function with a double underscore in its name;
    [modules/beta.py] binds one function of the same name as alpha's. *)
Definition two_modules_prog (p : path) : list stmt :=
  if PyPath.name p =? "alpha.py" then
    [Bind "yaml" (data 1); Bind "_helper" (fn 2 "helper");
     Bind "foo" (fn 3 "alpha foo"); Bind "bar" (fn 4 "alpha bar");
     Bind "my__tool" (fn 5 "tool")]
  else if PyPath.name p =? "beta.py" then [Bind "foo" (fn 6 "beta foo")]
  else [].

Definition two_modules : World :=
  scripted_world ["alpha.py"; "beta.py"] two_modules_prog.

(** The fields of the handler that registration never writes. *)
Definition same_frame (h h' : ProxyHandler) : Prop :=
  valid_dirs h' = valid_dirs h /\
  rejected_modules h' = rejected_modules h /\
  raw_modules h' = raw_modules h /\
  okmods h' = okmods h /\
  loaded_mods h' = loaded_mods h.

(** The tool comes from one of the module files [mods]. *)
Definition from_modules (mods : list path) (e : ToolEntry) : Prop :=
  exists p, In p mods /\ source_module e = PyPath.stem p.

(** Every loaded module is a cell of the store whose file is one of the
    accepted paths. *)
Definition loaded_from (mods : list path) (rt : Runtime) : Prop :=
  forall name a,
    In (name, a) (loaded_mods (hdl rt)) ->
    a < next_addr (py rt) /\ In (mod_file (heap (py rt) a)) mods.

(** [modules/relay.py] defines two tools that reach into the handler:
    [relay] dispatches to the tool id [missing] through the handler's own
    [use_proxy_tool], and [reset] empties the registry. *)
Definition relay_files : World :=
  scripted_world ["relay.py"]
    (fun p => if PyPath.name p =? "relay.py"
              then [Bind "relay" (fn 7 "call another tool");
                    Bind "reset" (fn 8 "forget all tools")]
              else []).

Definition relay_tools : World :=
  with_call_function relay_files
    (fun id kw rt =>
       if Nat.eqb id 7 then use_proxy_tool relay_files "missing" [] rt
       else if Nat.eqb id 8 then
         (Ret (PyObj 0 false None),
          {| hdl := with_registry (hdl rt) []; py := py rt |})
       else (Ret (PyObj 0 false None), rt)).

(** [modules/bad.py] raises while it is executed; [modules/good.py] binds
    one function. *)
Definition one_bad_module_prog (p : path) : list stmt :=
  if PyPath.name p =? "bad.py" then [RaiseStmt (Exn "RuntimeError" "boom")]
  else if PyPath.name p =? "good.py" then [Bind "hello" (fn 1 "says hello")]
  else [].

Definition one_bad_module : World :=
  scripted_world ["bad.py"; "good.py"] one_bad_module_prog.

(** [modules/json.py] binds one function; the import system finds the
    name [json] in the standard library, outside the module roots. *)
Definition stdlib_json : path := ["usr"; "lib"; "python3"; "json"; "__init__.py"].

Definition shadowed_json_prog (p : path) : list stmt :=
  if path_eqb p stdlib_json then
    [Bind "dumps" (fn 10 "stdlib dumps"); Bind "loads" (fn 11 "stdlib loads")]
  else if PyPath.name p =? "json.py" then [Bind "pretty" (fn 1 "pretty printer")]
  else [].

Definition shadowed_json : World :=
  with_find_spec (scripted_world ["json.py"] shadowed_json_prog)
    (fun name => if name =? "json" then Some stdlib_json else None).

(** The same directory after [modules/json.py] has been edited: it now
    binds [compact] and no longer [pretty]. *)
Definition json_edited_prog (p : path) : list stmt :=
  if path_eqb p stdlib_json then
    [Bind "dumps" (fn 10 "stdlib dumps"); Bind "loads" (fn 11 "stdlib loads")]
  else if PyPath.name p =? "json.py" then [Bind "compact" (fn 2 "compact printer")]
  else [].

Definition json_edited : World :=
  with_find_spec (scripted_world ["json.py"] json_edited_prog)
    (fun name => if name =? "json" then Some stdlib_json else None).

(** Module files whose names meet the suffixed form of another name:
    [beta.py] and [delta.py] each define [foo_alpha], [gamma.py] and
    [alpha.py] each define [foo].  The directory lists them in the order
    beta, gamma, alpha, and then delta. *)
Definition suffix_clash_prog (p : path) : list stmt :=
  if PyPath.name p =? "beta.py" then [Bind "foo_alpha" (fn 1 "beta foo_alpha")]
  else if PyPath.name p =? "gamma.py" then [Bind "foo" (fn 2 "gamma foo")]
  else if PyPath.name p =? "alpha.py" then [Bind "foo" (fn 3 "alpha foo")]
  else if PyPath.name p =? "delta.py" then [Bind "foo_alpha" (fn 4 "delta foo_alpha")]
  else [].

Definition suffix_clash_three : World :=
  scripted_world ["beta.py"; "gamma.py"; "alpha.py"] suffix_clash_prog.

Definition suffix_clash : World :=
  scripted_world ["beta.py"; "gamma.py"; "alpha.py"; "delta.py"] suffix_clash_prog.

(** [modules/toolset.py] is a symbolic link to a file of the same name
    outside the module roots. *)
Definition toolset_link : World :=
  with_resolve (scripted_world ["toolset.py"] (fun _ => []))
    (fun p => if path_eqb p (PyPath.joinpath modules_dir "toolset.py")
              then ["opt"; "shared"; "toolset.py"] else p).

(** [modules/toolset.py] is a plain file beside [modules/alpha.py]. *)
Definition toolset_plain : World :=
  scripted_world ["toolset.py"; "alpha.py"] two_modules_prog.

(** [modules/alpha.py] as first loaded, and after an edit that rebinds
    [foo] and then raises. *)
Definition alpha_v1 : World :=
  scripted_world ["alpha.py"]
    (fun p => if PyPath.name p =? "alpha.py"
              then [Bind "foo" (fn 3 "old foo"); Bind "bar" (fn 4 "old bar")]
              else []).

Definition alpha_broken : World :=
  scripted_world ["alpha.py"]
    (fun p => if PyPath.name p =? "alpha.py"
              then [Bind "foo" (fn 30 "new foo");
                    RaiseStmt (Exn "RuntimeError" "boom")]
              else []).


(** What the re-registration of a reloaded module writes when no renaming
    fires: the suffixed key of each name, in order. *)
Definition fresh_entries (names : list string) (m : string) (ns : PyDict.t pyobj)
  (r : PyDict.t ToolEntry) : PyDict.t ToolEntry :=
  fold_left
    (fun r x =>
       match PyDict.get ns x with
       | Some f => PyDict.setitem r (suffixed x m) (new_entry f m x true)
       | None => r
       end)
    names r.


(** The same world with other file contents for the parser. *)
Definition with_read_and_parse (w : World) (r : path -> read_result) : World :=
  {| base_dir := base_dir w; resolve := resolve w; path_exists := path_exists w;
     listdir := listdir w; glob_magic := glob_magic w;
     read_and_parse := r;
     has_loader := has_loader w; run_code := run_code w;
     find_spec := find_spec w; call_function := call_function w;
     str_islower := str_islower w; str_lower := str_lower w;
     format_exception := format_exception w |}.

(** [modules/broken.py] does not parse; [modules/good.py] does. *)
Definition one_syntax_error : World :=
  with_read_and_parse (scripted_world ["broken.py"; "good.py"] one_bad_module_prog)
    (fun p => if PyPath.name p =? "broken.py" then SyntaxErrorRaised else SourceOk).

(** ** Consistency of the registry with the tracker and the module table *)

(** A tool whose collision flag is off is registered under its bare name. *)
Definition bare_unless_flagged (h : ProxyHandler) : Prop :=
  forall key e, PyDict.get (registry h) key = Some e ->
                had_collision e = false -> key = original_name e.

(** The tracker knows the original name of every registered tool. *)
Definition names_tracked (h : ProxyHandler) : Prop :=
  forall key e, In (key, e) (registry h) ->
                In (original_name e) (PyDict.keys (_name_tracker h)).

(** The module of every registered tool is in the loaded-module table. *)
Definition sources_loaded (h : ProxyHandler) : Prop :=
  forall key e, In (key, e) (registry h) ->
                In (source_module e) (PyDict.keys (loaded_mods h)).

(** The history of [x] in [h'] continues its history in [h]: same first
    module, a first tool name that is kept once it is suffixed, and later
    pairs only appended. *)
Definition history_continues (h h' : ProxyHandler) (x : string) : Prop :=
  forall hist, PyDict.get (_name_tracker h) x = Some hist ->
    exists hist',
      PyDict.get (_name_tracker h') x = Some hist' /\
      fst (hist_first hist') = fst (hist_first hist) /\
      (snd (hist_first hist) <> x -> hist_first hist' = hist_first hist) /\
      exists later, hist_rest hist' = (hist_rest hist ++ later)%list.

(** A tool of [m] is bound to the object the namespace [ns] holds under
    its name, which passes the reload filter. *)
Definition bound_in_namespace (w : World) (m : string) (ns : PyDict.t pyobj)
  (e : ToolEntry) : Prop :=
  source_module e = m ->
  PyDict.get ns (original_name e) = Some (function e) /\
  eligible_on_reload w (original_name e) = true /\
  docstring e = obj_doc (function e).

(** ** Reasons in the rejection log *)

(** The reasons the validation loop writes. *)
Definition validation_reason (r : string) : Prop :=
  r = "path_traversal_attempt" \/ r = "syntax_error" \/
  exists detail, r = "read_error: " ++ detail.

(** The reason the loading loop of [__init__] writes. *)
Definition import_reason (r : string) : Prop :=
  exists e, r = "import_error: " ++ py_str e.

(** ** The interpreter's module table *)

(** Every entry of [sys.modules] is a module object of the store that
    carries the name it is filed under. *)
Definition sys_modules_named (i : Interp) : Prop :=
  Forall (fun p => snd p < next_addr i /\ mod_name (heap i (snd p)) = fst p)
    (sys_modules i).

(** What the first execution of the file [p] as the module [name] leaves
    in the module's namespace, and the exception that ended it. *)
Definition import_namespace (w : World) (name : string) (p : path)
  : PyDict.t pyobj * option exn :=
  run_code w p (mod_ns (module_from_spec name p)).

(** Two handlers with the same tools, histories, logs and module names;
    the module objects may differ. *)
Definition same_tools (h1 h2 : ProxyHandler) : Prop :=
  registry h1 = registry h2 /\
  _name_tracker h1 = _name_tracker h2 /\
  rejected_modules h1 = rejected_modules h2 /\
  okmods h1 = okmods h2 /\
  raw_modules h1 = raw_modules h2 /\
  valid_dirs h1 = valid_dirs h2 /\
  PyDict.keys (loaded_mods h1) = PyDict.keys (loaded_mods h2).

(** ** More string methods *)

Module PyText.

Definition is_digit (c : ascii) : bool :=
  let n := nat_of_ascii c in ((48 <=? n) && (n <=? 57))%nat.

(** [c in s] for a character *)
Definition has_char (c : ascii) (s : string) : bool :=
  PyStr.any_char (fun x => (x =? c)%char) s.

(** [s.split(sep, maxsplit=1)] for a separator of one character *)
Fixpoint split_once (sep : ascii) (s : string) : list string :=
  match s with
  | EmptyString => [EmptyString]
  | String c s' =>
      if (c =? sep)%char then [EmptyString; s']
      else match split_once sep s' with
           | piece :: rest => String c piece :: rest
           | [] => [String c EmptyString]
           end
  end.

(** [s.split(sep)] for a separator of one character *)
Fixpoint split (sep : ascii) (s : string) : list string :=
  match s with
  | EmptyString => [EmptyString]
  | String c s' =>
      if (c =? sep)%char then EmptyString :: split sep s'
      else match split sep s' with
           | piece :: rest => String c piece :: rest
           | [] => [String c EmptyString]
           end
  end.

(** [s.replace(a, b)] for two single characters *)
Fixpoint replace (a b : ascii) (s : string) : string :=
  match s with
  | EmptyString => EmptyString
  | String c s' => String (if (c =? a)%char then b else c) (replace a b s')
  end.

End PyText.

(** ** The server's tools over the handler *)

(** [list_proxy_tools] *)
Definition list_proxy_tools (rt : Runtime) : PyDict.t (option string) :=
  list_tools (hdl rt).

(** [search_for_proxy_tool] *)
Definition search_for_proxy_tool (w : World) (search_term : string) (rt : Runtime)
  : PyDict.t (option string) :=
  let all_tools := list_tools (hdl rt) in
  fold_left
    (fun matches item =>
       let '(tool_name, docstring) := item in
       if PyStr.contains (str_lower w search_term) (str_lower w tool_name)
       then PyDict.setitem matches tool_name docstring
       else matches)
    all_tools [].

(** [list_rejected_modules] *)
Definition list_rejected_modules (rt : Runtime) : list (path * string) :=
  rejected_modules (hdl rt).

(** [modules/alpha.py] of [alpha_v1] replaced, after startup, by a symbolic
    link to a file outside the module roots that binds one function. *)
Definition alpha_linked_away : World :=
  with_resolve
    (scripted_world ["alpha.py"]
       (fun p => if PyPath.name p =? "alpha.py"
                 then [Bind "foo" (fn 40 "foreign foo")]
                 else []))
    (fun p => if path_eqb p (PyPath.joinpath modules_dir "alpha.py")
              then ["opt"; "elsewhere"; "alpha.py"] else p).

(** ** The clock *)

(** A naive [datetime], as [datetime.now()] returns it. *)
Record datetime := {
  year : nat;
  month : nat;
  day : nat;
  hour : nat;
  minute : nat;
  second : nat;
  microsecond : nat }.

Fixpoint zeros (k : nat) : string :=
  match k with
  | O => EmptyString
  | S k' => String "0" (zeros k')
  end.

(** ["%0{width}d" % n] *)
Definition zero_pad (width n : nat) : string :=
  let s := str_of_nat n in zeros (width - String.length s) ++ s.

(** ["%04d-%02d-%02d" % (year, month, day)] *)
Definition date_part (dt : datetime) : string :=
  zero_pad 4 (year dt) ++ "-" ++ zero_pad 2 (month dt) ++ "-" ++ zero_pad 2 (day dt).

(** ["%02d:%02d:%02d" % (hour, minute, second)] *)
Definition time_part (dt : datetime) : string :=
  zero_pad 2 (hour dt) ++ ":" ++ zero_pad 2 (minute dt) ++ ":"
    ++ zero_pad 2 (second dt).

(** [str(dt)]: the ISO format with a space between date and time; the
    fraction is written only when the microseconds are not zero. *)
Definition datetime_str (dt : datetime) : string :=
  date_part dt ++ " " ++ time_part dt
    ++ (if (microsecond dt =? 0)%nat then ""
        else "." ++ zero_pad 6 (microsecond dt)).

(** [l[i]] *)
Definition index {A} (l : list A) (i : nat) : outcome A :=
  match nth_error l i with
  | Some x => Ret x
  | None => Raise (Exn "IndexError" "list index out of range")
  end.

(** [check_time], on the reading of the clock. *)
Definition check_time (now : datetime) : outcome string :=
  match index (PyText.split_once "." (datetime_str now)) 0 with
  | Raise e => Raise e
  | Ret whole =>
      let dt_string := PyText.split " " whole in
      match index dt_string 0 with
      | Raise e => Raise e
      | Ret d =>
          match index dt_string 1 with
          | Raise e => Raise e
          | Ret t => Ret (d ++ "_" ++ PyText.replace ":" "-" t)
          end
      end
  end.

(** ** Configuration values ([modules/config_manager.py]) *)

(** A key of a YAML mapping: a string, or a scalar of another type, which
    no dotted path names. *)
Inductive ykey :=
| KStr (s : string)
| KOther (n : nat).

(** A value loaded from YAML, as a tree: every nested dictionary and list
    is in one place only.  Data in which one dictionary object is reachable
    by two paths (a YAML alias) is outside this type. *)
#[warnings="-register-all"]
Inductive yvalue :=
| YNull
| YBool (b : bool)
| YNum (n : nat)
| YStr (s : string)
| YList (l : list yvalue)
| YDict (d : list (ykey * yvalue)).

Definition ydict := list (ykey * yvalue).

Definition ykey_is (k : ykey) (s : string) : bool :=
  match k with
  | KStr s' => s' =? s
  | KOther _ => false
  end.

(** [current[key]] for a string [key], [None] when [key not in current] *)
Fixpoint yget (d : ydict) (key : string) : option yvalue :=
  match d with
  | [] => None
  | (k, v) :: d' => if ykey_is k key then Some v else yget d' key
  end.

(** [current[key] = value] for a string [key] *)
Fixpoint yset (d : ydict) (key : string) (value : yvalue) : ydict :=
  match d with
  | [] => [(KStr key, value)]
  | (k, v) :: d' =>
      if ykey_is k key then (k, value) :: d' else (k, v) :: yset d' key value
  end.

(** The loop of [_get_nested_value] over the keys that are left. *)
Fixpoint get_loop (key_path : string) (current : yvalue) (keys : list string)
  : outcome yvalue :=
  match keys with
  | [] => Ret current
  | key :: rest =>
      match current with
      | YDict d =>
          match yget d key with
          | None =>
              Raise (Exn "KeyError" ("Key '" ++ key_path ++ "' not found in config"))
          | Some v => get_loop key_path v rest
          end
      | _ =>
          Raise (Exn "KeyError"
                   ("Cannot access '" ++ key ++ "' - parent is not a dict"))
      end
  end.

(** [_get_nested_value] *)
Definition _get_nested_value (data : yvalue) (key_path : string) : outcome yvalue :=
  get_loop key_path data (PyText.split "." key_path).

(** The loop of [_set_nested_value] over [keys[:-1]] and the final
    assignment, on the dictionary [current]; the dictionary is returned as
    the call leaves it, also when the call raises. *)
Fixpoint set_loop (key_path : string) (current : ydict) (keys : list string)
  (final : string) (value : yvalue) : outcome unit * ydict :=
  match keys with
  | [] => (Ret tt, yset current final value)
  | key :: rest =>
      match yget current key with
      | None =>
          let (r, sub) := set_loop key_path [] rest final value in
          (r, yset current key (YDict sub))
      | Some (YDict sub) =>
          let (r, sub') := set_loop key_path sub rest final value in
          (r, yset current key (YDict sub'))
      | Some _ =>
          (Raise (Exn "ValueError"
                    ("Cannot set '" ++ key_path ++ "' - '" ++ key
                       ++ "' exists but is not a dict")),
           current)
      end
  end.

(** [_set_nested_value] on a dictionary none of whose nested dictionaries
    is shared between two places. *)
Definition _set_nested_value (data : ydict) (key_path : string) (value : yvalue)
  : outcome unit * ydict :=
  let keys := PyText.split "." key_path in
  set_loop key_path data (removelast keys) (last keys "") value.

(** Two lists of keys part ways: after a common start they continue with
    different keys. *)
Definition diverge (p q : list string) : Prop :=
  exists common a b p' q',
    a <> b /\ p = (common ++ a :: p')%list /\ q = (common ++ b :: q')%list.

(** ** The overview ([explain_black_orchid]) *)

Module PyStrip.

(** The whitespace that [str.strip()] removes, among the ASCII characters. *)
Definition is_space (c : ascii) : bool :=
  let n := nat_of_ascii c in
  (((9 <=? n) && (n <=? 13)) || ((28 <=? n) && (n <=? 32)))%nat.

Fixpoint lstrip (s : string) : string :=
  match s with
  | EmptyString => EmptyString
  | String c s' => if is_space c then lstrip s' else s
  end.

Fixpoint rstrip (s : string) : string :=
  match s with
  | EmptyString => EmptyString
  | String c s' =>
      match rstrip s' with
      | EmptyString => if is_space c then EmptyString else String c EmptyString
      | r => String c r
      end
  end.

(** [s.strip()] *)
Definition strip (s : string) : string := rstrip (lstrip s).

End PyStrip.

(** [any(x in tool_name for x in patterns)] *)
Definition any_in (patterns : list string) (tool_name : string) : bool :=
  existsb (fun x => PyStr.contains x tool_name) patterns.

(** The chain of tests that sorts a tool into a category by its name. *)
Definition category_of (tool_name : string) : string :=
  if any_in ["remember"; "recall"; "forget"; "memory"; "list_memories";
             "clear_all_memories"] tool_name then "memory"
  else if any_in ["idea"; "save_idea"; "get_ideas"; "list_categories"] tool_name
  then "ideas"
  else if any_in ["session"; "load_start_here"; "load_working_preferences"]
            tool_name then "session"
  else if any_in ["story"; "add_to_story"; "load_story"] tool_name then "story"
  else if any_in ["preference"; "get_preference"; "save_working_preference"]
            tool_name then "preferences"
  else if any_in ["time"; "reload"; "check_time"] tool_name then "system"
  else "uncategorized".

(** A row of [tool_list]. *)
Record tool_row := {
  row_name : string;
  row_category : string;
  row_module : string;
  row_description : string }.

(** A value of [module_info]. *)
Record module_row := {
  mi_docstring : string;
  mi_tools : list string }.

(** What the loop over the registry collects. *)
Record overview := {
  tool_list : list tool_row;
  tool_categories : PyDict.t (list string);
  module_info : PyDict.t module_row }.

(** The first line of a tool's description. *)
Definition first_line (doc : option string) : string :=
  match doc with
  | None => "No description"
  | Some EmptyString => "No description"
  | Some d => hd EmptyString (PyText.split "010" (PyStrip.strip d))
  end.

Definition overview_start : overview :=
  {| tool_list := [];
     tool_categories :=
       [("memory", []); ("ideas", []); ("session", []); ("story", []);
        ("preferences", []); ("system", []); ("uncategorized", [])];
     module_info := [] |}.

Section Overview.

(** The [__doc__] of a module object. *)
Variable module_doc : module_obj -> option string.

(** [module.__doc__ if module and module.__doc__ else "No module docstring"] *)
Definition module_docstring (rt : Runtime) (module_name : string) : string :=
  match PyDict.get (loaded_mods (hdl rt)) module_name with
  | Some a =>
      match module_doc (heap (py rt) a) with
      | Some (String c d) => String c d
      | _ => "No module docstring"
      end
  | None => "No module docstring"
  end.

(** One turn of [for tool_name, info in proxy_handler.registry.items()]. *)
Definition collect_one (rt : Runtime) (acc : overview)
  (item : string * ToolEntry) : overview :=
  let '(tool_name, info) := item in
  let module_name := source_module info in
  let category := category_of tool_name in
  let info0 :=
    if PyDict.mem (module_info acc) module_name then module_info acc
    else PyDict.setitem (module_info acc) module_name
           {| mi_docstring := module_docstring rt module_name;
              mi_tools := [] |} in
  {| tool_list :=
       (tool_list acc ++
        [{| row_name := tool_name; row_category := category;
            row_module := module_name;
            row_description := first_line (docstring info) |}])%list;
     tool_categories :=
       PyDict.modify (tool_categories acc) category
         (fun tools => (tools ++ [tool_name])%list);
     module_info :=
       PyDict.modify info0 module_name
         (fun r => {| mi_docstring := mi_docstring r;
                      mi_tools := (mi_tools r ++ [tool_name])%list |}) |}.

(** The data [explain_black_orchid] collects before it writes its text. *)
Definition explain_collect (rt : Runtime) : overview :=
  fold_left (collect_one rt) (registry (hdl rt)) overview_start.

End Overview.

(** The tools that [module_info] lists under [m], if it has [m]. *)
Definition listed_under (info : PyDict.t module_row) (m : string)
  : option (list string) :=
  option_map mi_tools (PyDict.get info m).

(** ** The registry against the module objects *)

(** The tool is bound to the object its module's namespace holds under the
    tool's original name. *)
Definition bound_to_module (rt : Runtime) (e : ToolEntry) : Prop :=
  exists a,
    PyDict.get (loaded_mods (hdl rt)) (source_module e) = Some a /\
    a < next_addr (py rt) /\
    mod_name (heap (py rt) a) = source_module e /\
    PyDict.get (mod_ns (heap (py rt) a)) (original_name e) = Some (function e).

(** Every tool is bound to its module, and every source module is one of
    [seen]. *)
Definition bound_within (seen : list string) (rt : Runtime) : Prop :=
  forall key e, In (key, e) (registry (hdl rt)) ->
                bound_to_module rt e /\ In (source_module e) seen.


(** ** Failures of a single-module reload *)


(** ** Registration passes *)

(** * Facts *)

(** ** Strings and paths *)

Section StrFacts.
Import PyStr.

Lemma length_append (a b : string) :
  String.length (a ++ b) = String.length a + String.length b.
Proof. induction a as [|c a IH]; simpl; [reflexivity | now rewrite IH]. Qed.

Lemma append_longer (a b : string) : b <> "" -> a ++ b <> a.
Proof.
  intros Hb Heq.
  assert (H : String.length (a ++ b) = String.length a) by now rewrite Heq.
  rewrite length_append in H.
  destruct b as [|c b]; [now apply Hb | simpl in H; lia].
Qed.


Lemma append_assoc (a b c : string) : (a ++ b) ++ c = a ++ (b ++ c).
Proof. induction a as [|x a IH]; simpl; [reflexivity | now rewrite IH]. Qed.

End StrFacts.

Section PathFacts.
Import PyPath.

Lemma is_prefix_refl (p : path) : is_prefix p p = true.
Proof. induction p as [|x p IH]; simpl; [reflexivity|]. now rewrite String.eqb_refl. Qed.

Lemma is_prefix_app (d q : path) : is_prefix d (d ++ q)%list = true.
Proof. induction d as [|x d IH]; simpl; [reflexivity|]. now rewrite String.eqb_refl. Qed.

End PathFacts.

(** ** Dictionaries *)

Section DictFacts.
Import PyDict.
Context {V : Type}.
Implicit Types d : PyDict.t V.

Lemma get_setitem d k v k' :
  get (setitem d k v) k' = if k =? k' then Some v else get d k'.
Proof.
  induction d as [|[k0 v0] d IH]; simpl.
  - reflexivity.
  - destruct (String.eqb_spec k0 k) as [->|Hne]; simpl.
    + destruct (String.eqb_spec k k'); reflexivity.
    + rewrite IH. destruct (String.eqb_spec k0 k') as [->|Hne'].
      * destruct (String.eqb_spec k k'); [congruence | reflexivity].
      * reflexivity.
Qed.

Lemma get_delitem d k k' :
  get (delitem d k) k' = if k =? k' then None else get d k'.
Proof.
  induction d as [|[k0 v0] d IH]; simpl.
  - destruct (k =? k'); reflexivity.
  - destruct (String.eqb_spec k0 k) as [->|Hne]; simpl.
    + rewrite IH. destruct (String.eqb_spec k k'); reflexivity.
    + rewrite IH. destruct (String.eqb_spec k0 k') as [->|Hne'].
      * destruct (String.eqb_spec k k'); [congruence | reflexivity].
      * reflexivity.
Qed.

Lemma get_modify d k f k' :
  get (modify d k f) k' =
  if k =? k' then option_map f (get d k) else get d k'.
Proof.
  unfold modify. destruct (get d k) as [v|] eqn:E.
  - rewrite get_setitem. destruct (String.eqb_spec k k'); reflexivity.
  - destruct (String.eqb_spec k k') as [<-|]; [now rewrite E | reflexivity].
Qed.

Lemma in_keys_get d k : In k (keys d) <-> get d k <> None.
Proof.
  induction d as [|[k0 v0] d IH]; simpl.
  - split; [tauto | congruence].
  - destruct (String.eqb_spec k0 k) as [->|Hne].
    + split; [congruence | auto].
    + rewrite <- IH. split; [intros [H|H]; [congruence | exact H] | auto].
Qed.

Lemma mem_in_keys d k : mem d k = true <-> In k (keys d).
Proof.
  rewrite in_keys_get. unfold mem.
  destruct (get d k); split; congruence.
Qed.

Lemma get_some_in d k v : get d k = Some v -> In (k, v) d.
Proof.
  induction d as [|[k0 v0] d IH]; simpl; [congruence|].
  destruct (String.eqb_spec k0 k) as [->|Hne].
  - intros [= ->]. now left.
  - intros H. right. auto.
Qed.

Lemma in_get_some d k v : In (k, v) d -> exists v', get d k = Some v'.
Proof.
  induction d as [|[k0 v0] d IH]; simpl; [tauto|].
  intros [[= -> ->]|H].
  - rewrite String.eqb_refl. eauto.
  - destruct (k0 =? k); eauto.
Qed.

Lemma keys_setitem d k v k' :
  In k' (keys (setitem d k v)) <-> k' = k \/ In k' (keys d).
Proof.
  rewrite !in_keys_get, get_setitem.
  destruct (String.eqb_spec k k') as [->|Hne].
  - split; [auto | congruence].
  - split; [auto | intros [H|H]; [congruence | exact H]].
Qed.

Lemma keys_delitem d k k' :
  In k' (keys (delitem d k)) <-> k' <> k /\ In k' (keys d).
Proof.
  rewrite !in_keys_get, get_delitem.
  destruct (String.eqb_spec k k') as [->|Hne].
  - split; [congruence | intros [H _]; congruence].
  - split; [intros H; split; [congruence | exact H] | tauto].
Qed.

Lemma in_delitem d k p : In p (delitem d k) <-> In p d /\ fst p <> k.
Proof.
  induction d as [|[k0 v0] d IH]; simpl.
  - tauto.
  - destruct (String.eqb_spec k0 k) as [->|Hne]; simpl; rewrite IH.
    + split.
      * intros [H1 H2]. auto.
      * intros [[<-|H1] H2]; [simpl in H2; congruence | auto].
    + split.
      * intros [<-|[H1 H2]]; simpl; auto.
      * intros [[<-|H1] H2]; auto.
Qed.

Lemma in_setitem d k v p :
  In p (setitem d k v) -> p = (k, v) \/ In p d.
Proof.
  induction d as [|[k0 v0] d IH]; simpl.
  - intros [<-|[]]. now left.
  - destruct (String.eqb_spec k0 k) as [->|Hne]; simpl.
    + intros [<-|H]; auto.
    + intros [<-|H]; auto. destruct (IH H); auto.
Qed.

End DictFacts.

(** ** Facts about [_register_tool] *)

Section RegisterFacts.

Lemma suffixed_neq (n m : string) : suffixed n m <> n.
Proof. unfold suffixed. apply append_longer. discriminate. Qed.

Lemma suffixed_eqb (n m : string) : (suffixed n m =? n) = false.
Proof. apply String.eqb_neq, suffixed_neq. Qed.

Lemma suffixed_inj (n a b : string) : suffixed n a = suffixed n b -> a = b.
Proof.
  unfold suffixed. induction n as [|c n IH]; simpl.
  - now intros [= ->].
  - intros [= H]. auto.
Qed.


Lemma keys_modify {V} (d : PyDict.t V) k f k' :
  In k' (PyDict.keys (PyDict.modify d k f)) <-> In k' (PyDict.keys d).
Proof.
  rewrite !in_keys_get, get_modify.
  destruct (String.eqb_spec k k') as [->|Hne]; [|tauto].
  destruct (PyDict.get d k'); simpl; split; congruence.
Qed.

(** When the renaming does not fire nothing changes. *)
Lemma rename_first_idle n hist h :
  (snd (hist_first hist) =? n) && PyDict.mem (registry h) n = false ->
  rename_first n hist h = h.
Proof.
  unfold rename_first. destruct (hist_first hist) as [fm ft]; simpl.
  now intros ->.
Qed.

(** When it fires the bare entry moves to the suffixed key and is flagged. *)
Lemma rename_first_fires n hist h e :
  snd (hist_first hist) = n ->
  PyDict.get (registry h) n = Some e ->
  let fm := fst (hist_first hist) in
  (forall k, PyDict.get (registry (rename_first n hist h)) k =
             if suffixed n fm =? k then Some (mark_collision e)
             else if n =? k then None else PyDict.get (registry h) k) /\
  _name_tracker (rename_first n hist h) =
    PyDict.setitem (_name_tracker h) n
      {| hist_first := (fm, suffixed n fm); hist_rest := hist_rest hist |}.
Proof.
  unfold rename_first. destruct (hist_first hist) as [fm ft]; simpl.
  intros -> He. unfold PyDict.mem. rewrite He, String.eqb_refl. simpl.
  split; [|reflexivity].
  intros k. rewrite get_modify, !get_setitem, String.eqb_refl,
    get_delitem. simpl.
  destruct (suffixed n fm =? k); reflexivity.
Qed.

Lemma rename_first_tracker_other n hist h k :
  k <> n ->
  PyDict.get (_name_tracker (rename_first n hist h)) k =
  PyDict.get (_name_tracker h) k.
Proof.
  intros Hne. unfold rename_first. destruct (hist_first hist) as [fm ft].
  destruct ((ft =? n) && PyDict.mem (registry h) n); [|reflexivity].
  destruct (PyDict.get (registry h) n); [|reflexivity].
  simpl. rewrite get_setitem.
  destruct (String.eqb_spec n k); [congruence | reflexivity].
Qed.

Lemma rename_first_keeps_key n hist h k :
  k <> n ->
  In k (PyDict.keys (registry h)) ->
  In k (PyDict.keys (registry (rename_first n hist h))).
Proof.
  intros Hne Hin. unfold rename_first. destruct (hist_first hist) as [fm ft].
  destruct ((ft =? n) && PyDict.mem (registry h) n); [|assumption].
  destruct (PyDict.get (registry h) n); [|assumption].
  simpl. apply keys_modify, keys_setitem. right.
  apply keys_delitem. auto.
Qed.

(** Registering another name leaves the history of [n] alone. *)
Lemma register_tracker_other m M f h n :
  m <> n ->
  PyDict.get (_name_tracker (_register_tool m M f h)) n =
  PyDict.get (_name_tracker h) n.
Proof.
  intros Hne. unfold _register_tool.
  destruct (PyDict.get (_name_tracker h) m) as [hist|]; simpl.
  - rewrite get_modify.
    destruct (String.eqb_spec m n); [congruence|].
    now apply rename_first_tracker_other; auto.
  - rewrite get_setitem.
    destruct (String.eqb_spec m n); [congruence | reflexivity].
Qed.

(** Registering another name never removes the key [n]. *)
Lemma register_keeps_key m M f h n :
  m <> n ->
  In n (PyDict.keys (registry h)) ->
  In n (PyDict.keys (registry (_register_tool m M f h))).
Proof.
  intros Hne Hin. unfold _register_tool.
  destruct (PyDict.get (_name_tracker h) m) as [hist|]; simpl.
  - apply keys_setitem. right. apply rename_first_keeps_key; auto.
  - apply keys_setitem. now right.
Qed.

Lemma register_calls_tracker_other l h n :
  Forall (fun c => rc_name c <> n) l ->
  PyDict.get (_name_tracker (register_calls l h)) n =
  PyDict.get (_name_tracker h) n.
Proof.
  intros HF. revert h. induction HF as [|c l Hc HF IH]; intros h; simpl.
  - reflexivity.
  - unfold register_calls in IH. rewrite IH.
    now apply register_tracker_other.
Qed.

Lemma register_calls_keeps_key l h n :
  Forall (fun c => rc_name c <> n) l ->
  In n (PyDict.keys (registry h)) ->
  In n (PyDict.keys (registry (register_calls l h))).
Proof.
  intros HF. revert h. induction HF as [|c l Hc HF IH]; intros h Hin; simpl.
  - assumption.
  - apply IH. now apply register_keeps_key.
Qed.

(** The first sighting of a name. *)
Lemma register_first_sighting n M f h :
  PyDict.get (_name_tracker h) n = None ->
  registry (_register_tool n M f h) =
    PyDict.setitem (registry h) n (new_entry f M n false) /\
  _name_tracker (_register_tool n M f h) =
    PyDict.setitem (_name_tracker h) n
      {| hist_first := (M, n); hist_rest := [] |}.
Proof. intros H. unfold _register_tool. rewrite H. simpl. auto. Qed.

(** A repeat sighting whose first occupant already lost the bare name, or
    whose bare key is gone: only the suffixed key is written. *)
Lemma register_repeat_idle n M f h hist :
  PyDict.get (_name_tracker h) n = Some hist ->
  (snd (hist_first hist) =? n) && PyDict.mem (registry h) n = false ->
  registry (_register_tool n M f h) =
    PyDict.setitem (registry h) (suffixed n M) (new_entry f M n true) /\
  _name_tracker (_register_tool n M f h) =
    PyDict.setitem (_name_tracker h) n
      {| hist_first := hist_first hist;
         hist_rest := (hist_rest hist ++ [(M, suffixed n M)])%list |}.
Proof.
  intros Ht Hidle. unfold _register_tool. rewrite Ht.
  rewrite (rename_first_idle _ _ _ Hidle). simpl.
  split; [reflexivity|]. unfold PyDict.modify. now rewrite Ht.
Qed.

End RegisterFacts.

(** ** The collision sequence: first, second and third registrant *)

Section CollisionSequence.

Variables (h : ProxyHandler) (n A B C : string) (f g k : pyobj).
Variables (l2 l3 : list reg_call).

Let s1 := _register_tool n A f h.
Let s2 := register_calls l2 s1.
Let s3 := _register_tool n B g s2.
Let s4 := register_calls l3 s3.
Let s5 := _register_tool n C k s4.

Hypothesis first_sighting : PyDict.get (_name_tracker h) n = None.
Hypothesis l2_other : Forall (fun c => rc_name c <> n) l2.
Hypothesis l3_other : Forall (fun c => rc_name c <> n) l3.

Lemma seq_tracker_s2 :
  PyDict.get (_name_tracker s2) n =
  Some {| hist_first := (A, n); hist_rest := [] |}.
Proof.
  unfold s2. rewrite register_calls_tracker_other by assumption.
  unfold s1. destruct (register_first_sighting n A f h first_sighting) as [_ ->].
  now rewrite get_setitem, String.eqb_refl.
Qed.

Lemma seq_bare_s2 : In n (PyDict.keys (registry s2)).
Proof.
  unfold s2. apply register_calls_keeps_key; [assumption|].
  unfold s1. destruct (register_first_sighting n A f h first_sighting) as [-> _].
  apply keys_setitem. now left.
Qed.

Lemma seq_registry_s3 e :
  PyDict.get (registry s2) n = Some e ->
  forall key,
    PyDict.get (registry s3) key =
    if suffixed n B =? key then Some (new_entry g B n true)
    else if suffixed n A =? key then Some (mark_collision e)
    else if n =? key then None
    else PyDict.get (registry s2) key.
Proof.
  intros He key. unfold s3, _register_tool. rewrite seq_tracker_s2. simpl.
  rewrite get_setitem.
  destruct (rename_first_fires n {| hist_first := (A, n); hist_rest := [] |}
              s2 e eq_refl He) as [Hreg _].
  simpl in Hreg. now rewrite Hreg.
Qed.

Lemma seq_bare_entry_s2 : exists e, PyDict.get (registry s2) n = Some e.
Proof.
  pose proof (proj1 (in_keys_get _ _) seq_bare_s2) as H.
  destruct (PyDict.get (registry s2) n) as [e|]; [eauto | congruence].
Qed.

Lemma seq_tracker_s3 :
  PyDict.get (_name_tracker s3) n =
  Some {| hist_first := (A, suffixed n A); hist_rest := [(B, suffixed n B)] |}.
Proof.
  destruct seq_bare_entry_s2 as [e He].
  unfold s3, _register_tool. rewrite seq_tracker_s2. simpl.
  destruct (rename_first_fires n {| hist_first := (A, n); hist_rest := [] |}
              s2 e eq_refl He) as [_ Htr].
  simpl in Htr. rewrite get_modify, String.eqb_refl, Htr, get_setitem,
    String.eqb_refl. reflexivity.
Qed.

Lemma seq_tracker_s4 :
  PyDict.get (_name_tracker s4) n =
  Some {| hist_first := (A, suffixed n A); hist_rest := [(B, suffixed n B)] |}.
Proof.
  unfold s4. rewrite register_calls_tracker_other by assumption.
  apply seq_tracker_s3.
Qed.

Lemma seq_registry_s5 :
  registry s5 =
  PyDict.setitem (registry s4) (suffixed n C) (new_entry k C n true).
Proof.
  unfold s5.
  destruct (register_repeat_idle n C k s4 _ seq_tracker_s4) as [H _];
    [|exact H].
  simpl. now rewrite suffixed_eqb.
Qed.

End CollisionSequence.

(** X23.  Let no module have claimed the original name [n] yet.  The
    first module [A] to register [n] gets the bare key.  Whatever other
    names are registered in between, the second module [B] to register [n]
    moves the entry then found under the bare key to [n_A] (the entry of
    [A] itself when nothing was registered in between), flags it, and is
    itself registered as [n_B]; right after that call both suffixed keys
    exist and the bare key does not.  A third module [C] is registered
    directly as [n_C]: that call writes the key [n_C] and nothing else, so
    every other key of the registry keeps its place and its entry. *)
Theorem collision_first_second_third
  (h : ProxyHandler) (n A B C : string) (f g k : pyobj)
  (l2 l3 : list reg_call) :
  PyDict.get (_name_tracker h) n = None ->
  Forall (fun c => rc_name c <> n) l2 ->
  Forall (fun c => rc_name c <> n) l3 ->
  let s1 := _register_tool n A f h in
  let s2 := register_calls l2 s1 in
  let s3 := _register_tool n B g s2 in
  let s4 := register_calls l3 s3 in
  let s5 := _register_tool n C k s4 in
  (* the first registrant holds the bare name until the second comes *)
  PyDict.get (registry s1) n = Some (new_entry f A n false) /\
  In n (PyDict.keys (registry s2)) /\
  (* the second registration: both keys suffixed, the bare key gone *)
  (exists e, PyDict.get (registry s2) n = Some e /\
             (A <> B ->
              PyDict.get (registry s3) (suffixed n A) = Some (mark_collision e))) /\
  (l2 = [] -> A <> B ->
   PyDict.get (registry s3) (suffixed n A) = Some (new_entry f A n true)) /\
  PyDict.get (registry s3) (suffixed n B) = Some (new_entry g B n true) /\
  In (suffixed n A) (PyDict.keys (registry s3)) /\
  In (suffixed n B) (PyDict.keys (registry s3)) /\
  ~ In n (PyDict.keys (registry s3)) /\
  (* the third registration writes its own suffixed key only *)
  registry s5 =
    PyDict.setitem (registry s4) (suffixed n C) (new_entry k C n true) /\
  (forall key, In key (PyDict.keys (registry s4)) ->
               In key (PyDict.keys (registry s5))) /\
  (forall key, key <> suffixed n C ->
               PyDict.get (registry s5) key = PyDict.get (registry s4) key) /\
  (l3 = [] ->
   In (suffixed n A) (PyDict.keys (registry s5)) /\
   In (suffixed n B) (PyDict.keys (registry s5)) /\
   ~ In n (PyDict.keys (registry s5))).
Proof.
  intros Hfirst Hl2 Hl3 s1 s2 s3 s4 s5.
  destruct (seq_bare_entry_s2 h n A f l2 Hfirst Hl2) as [e He].
  fold s1 s2 in He.
  pose proof (seq_registry_s3 h n A B f g l2 Hfirst Hl2 e He) as H3.
  fold s1 s2 s3 in H3.
  pose proof (seq_registry_s5 h n A B C f g k l2 l3 Hfirst Hl2 Hl3) as H5.
  fold s1 s2 s3 s4 s5 in H5.
  assert (HnB : (suffixed n B =? n) = false) by apply suffixed_eqb.
  assert (HnA : (suffixed n A =? n) = false) by apply suffixed_eqb.
  assert (HAB : A <> B -> (suffixed n B =? suffixed n A) = false).
  { intros Hne. apply String.eqb_neq. intros Heq.
    apply Hne. symmetry. now apply suffixed_inj with n. }
  assert (HkA : In (suffixed n A) (PyDict.keys (registry s3))).
  { apply in_keys_get. rewrite H3, String.eqb_refl.
    destruct (suffixed n B =? suffixed n A); discriminate. }
  assert (HkB : In (suffixed n B) (PyDict.keys (registry s3))).
  { apply in_keys_get. rewrite H3, String.eqb_refl. discriminate. }
  assert (Hkn : ~ In n (PyDict.keys (registry s3))).
  { rewrite in_keys_get, H3, HnB, HnA, String.eqb_refl. tauto. }
  assert (Hkeep : forall key, In key (PyDict.keys (registry s4)) ->
                              In key (PyDict.keys (registry s5))).
  { intros key Hin. rewrite H5. apply keys_setitem. now right. }
  repeat split.
  - unfold s1. destruct (register_first_sighting n A f h Hfirst) as [-> _].
    now rewrite get_setitem, String.eqb_refl.
  - apply (seq_bare_s2 h n A f l2 Hfirst Hl2).
  - exists e. split; [exact He|]. intros Hne.
    now rewrite H3, (HAB Hne), String.eqb_refl.
  - intros -> Hne. rewrite H3, (HAB Hne), String.eqb_refl.
    unfold s2 in He. simpl in He. unfold s1 in He.
    destruct (register_first_sighting n A f h Hfirst) as [Hr _].
    rewrite Hr, get_setitem, String.eqb_refl in He.
    now injection He as <-.
  - now rewrite H3, String.eqb_refl.
  - exact HkA.
  - exact HkB.
  - exact Hkn.
  - exact H5.
  - exact Hkeep.
  - intros key Hne. rewrite H5, get_setitem.
    destruct (String.eqb_spec (suffixed n C) key); [congruence | reflexivity].
  - apply Hkeep. subst l3. exact HkA.
  - apply Hkeep. subst l3. exact HkB.
  - subst l3. simpl in s4. unfold s4 in H5. rewrite H5.
    intros Hin. apply keys_setitem in Hin. destruct Hin as [Heq|Hin].
    + symmetry in Heq. now apply suffixed_neq in Heq.
    + now apply Hkn.
Qed.

(** Two modules, then a third, each binding [foo], with an unrelated
    registration in between. *)
Lemma collision_first_second_third_witness :
  PyDict.get (_name_tracker (empty_handler [])) "foo" = None /\
  PyDict.keys
    (registry
       (_register_tool "foo" "gamma" (fn 3 "c")
          (_register_tool "foo" "beta" (fn 2 "b")
             (register_calls
                [{| rc_name := "bar"; rc_module := "alpha"; rc_fn := fn 4 "d" |}]
                (_register_tool "foo" "alpha" (fn 1 "a") (empty_handler []))))))
  = ["bar"; "foo_alpha"; "foo_beta"; "foo_gamma"].
Proof.
  split; [reflexivity|].
  assert (Hl2 : Forall (fun c => rc_name c <> "foo")
                  [{| rc_name := "bar"; rc_module := "alpha"; rc_fn := fn 4 "d" |}])
    by (repeat constructor; simpl; discriminate).
  pose proof (collision_first_second_third (empty_handler []) "foo"
                "alpha" "beta" "gamma" (fn 1 "a") (fn 2 "b") (fn 3 "c")
                [{| rc_name := "bar"; rc_module := "alpha"; rc_fn := fn 4 "d" |}]
                [] eq_refl Hl2 (Forall_nil _)) as H.
  cbv zeta in H.
  destruct H as (_ & _ & _ & _ & _ & _ & _ & _ & H5 & _).
  exact (eq_trans (f_equal PyDict.keys H5) eq_refl).
Defined.

(** C2.  A suffixed key can be the bare name of another tool, and
    [_register_tool] does not look for that.  With [beta.py] defining
    [foo_alpha], then [gamma.py] and [alpha.py] each defining [foo],
    startup stores alpha's [foo] under [foo_alpha], over the tool of
    [beta], the first and only module to register the name [foo_alpha]:
    no entry of [beta] is left.  When [delta.py] then registers
    [foo_alpha] as the second module to do so, the entry moved to
    [foo_alpha_beta] is alpha's [foo], and the key [foo_alpha] that the
    second module of [foo] was registered under is gone. *)
Theorem suffixed_key_overwrites_bare_tool :
  PyDict.keys (loaded_mods (hdl (__init__ suffix_clash_three fresh_interp))) =
    ["beta"; "gamma"; "alpha"] /\
  _name_tracker (hdl (__init__ suffix_clash_three fresh_interp)) =
    [("foo_alpha", {| hist_first := ("beta", "foo_alpha"); hist_rest := [] |});
     ("foo", {| hist_first := ("gamma", "foo_gamma");
                hist_rest := [("alpha", "foo_alpha")] |})] /\
  registry (hdl (__init__ suffix_clash_three fresh_interp)) =
    [("foo_alpha", new_entry (fn 3 "alpha foo") "alpha" "foo" true);
     ("foo_gamma", new_entry (fn 2 "gamma foo") "gamma" "foo" true)] /\
  (forall key e,
     In (key, e) (registry (hdl (__init__ suffix_clash_three fresh_interp))) ->
     source_module e <> "beta") /\
  PyDict.keys (loaded_mods (hdl (__init__ suffix_clash fresh_interp))) =
    ["beta"; "gamma"; "alpha"; "delta"] /\
  registry (hdl (__init__ suffix_clash fresh_interp)) =
    [("foo_gamma", new_entry (fn 2 "gamma foo") "gamma" "foo" true);
     ("foo_alpha_beta", new_entry (fn 3 "alpha foo") "alpha" "foo" true);
     ("foo_alpha_delta", new_entry (fn 4 "delta foo_alpha") "delta" "foo_alpha" true)] /\
  PyDict.get (registry (hdl (__init__ suffix_clash fresh_interp)))
    (suffixed "foo" "alpha") = None /\
  (forall key e,
     In (key, e) (registry (hdl (__init__ suffix_clash fresh_interp))) ->
     source_module e <> "beta").
Proof.
  assert (H3 : registry (hdl (__init__ suffix_clash_three fresh_interp)) =
    [("foo_alpha", new_entry (fn 3 "alpha foo") "alpha" "foo" true);
     ("foo_gamma", new_entry (fn 2 "gamma foo") "gamma" "foo" true)])
    by (vm_compute; reflexivity).
  assert (H4 : registry (hdl (__init__ suffix_clash fresh_interp)) =
    [("foo_gamma", new_entry (fn 2 "gamma foo") "gamma" "foo" true);
     ("foo_alpha_beta", new_entry (fn 3 "alpha foo") "alpha" "foo" true);
     ("foo_alpha_delta", new_entry (fn 4 "delta foo_alpha") "delta" "foo_alpha" true)])
    by (vm_compute; reflexivity).
  split; [vm_compute; reflexivity|]. split; [vm_compute; reflexivity|].
  split; [exact H3|]. split.
  { intros key e Hin. rewrite H3 in Hin. simpl in Hin.
    destruct Hin as [[= _ <-]|[[= _ <-]|[]]]; simpl; discriminate. }
  split; [vm_compute; reflexivity|]. split; [exact H4|]. split.
  { rewrite H4. vm_compute. reflexivity. }
  intros key e Hin. rewrite H4 in Hin. simpl in Hin.
  destruct Hin as [[= _ <-]|[[= _ <-]|[[= _ <-]|[]]]]; simpl; discriminate.
Qed.

(** ** Entry-wise invariants of the registry and of the name tracker *)

Section EntryInvariants.

Lemma in_modify {V} (d : PyDict.t V) k f p :
  In p (PyDict.modify d k f) ->
  In p d \/ exists v, In (k, v) d /\ p = (k, f v).
Proof.
  unfold PyDict.modify. destruct (PyDict.get d k) as [v|] eqn:E; [|auto].
  intros H. apply in_setitem in H. destruct H as [->|H]; [|auto].
  right. exists v. split; [now apply get_some_in | reflexivity].
Qed.

Variable Q : ToolEntry -> Prop.
Hypothesis Q_mark : forall e, Q e -> Q (mark_collision e).

Lemma rename_first_reg_all n hist h :
  reg_all Q h -> reg_all Q (rename_first n hist h).
Proof.
  intros Hall. unfold rename_first. destruct (hist_first hist) as [fm ft].
  destruct ((ft =? n) && PyDict.mem (registry h) n); [|assumption].
  destruct (PyDict.get (registry h) n) as [popped|] eqn:E; [|assumption].
  intros key e. simpl. intros H.
  assert (Hpop : Q popped) by (eapply Hall; apply get_some_in; eassumption).
  assert (Hstep : forall p, In p (PyDict.setitem (PyDict.delitem (registry h) n)
                                    (suffixed n fm) popped) -> Q (snd p)).
  { intros p Hp. apply in_setitem in Hp. destruct Hp as [->|Hp]; [exact Hpop|].
    apply in_delitem in Hp. destruct p as [k0 e0]. eapply Hall. apply Hp. }
  apply in_modify in H. destruct H as [H|[v [Hv [= _ ->]]]].
  - apply (Hstep _ H).
  - apply Q_mark. apply (Hstep _ Hv).
Qed.

Lemma register_reg_all n M fn h :
  (forall c, Q (new_entry fn M n c)) ->
  reg_all Q h -> reg_all Q (_register_tool n M fn h).
Proof.
  intros Hnew Hall. unfold _register_tool.
  destruct (PyDict.get (_name_tracker h) n) as [hist|].
  - intros key e. simpl. intros H. apply in_setitem in H.
    destruct H as [[= _ ->]|H]; [apply Hnew|].
    eapply rename_first_reg_all; eassumption.
  - intros key e. simpl. intros H. apply in_setitem in H.
    destruct H as [[= _ ->]|H]; [apply Hnew|]. eapply Hall; eassumption.
Qed.

Lemma register_module_reg_all names M ns h :
  (forall n fn c, In n names -> Q (new_entry fn M n c)) ->
  reg_all Q h -> reg_all Q (register_module names M ns h).
Proof.
  unfold register_module. revert h.
  induction names as [|n names IH]; intros h Hnew Hall; simpl; [assumption|].
  apply IH; [intros; apply Hnew; now right|].
  destruct (PyDict.get ns n); [|assumption].
  apply register_reg_all; [intros; apply Hnew; now left | assumption].
Qed.

Lemma remove_tools_subset old (reg : PyDict.t ToolEntry) p :
  In p (remove_tools old reg) -> In p reg.
Proof.
  unfold remove_tools. revert reg.
  induction old as [|k old IH]; intros reg; simpl; [auto|].
  intros H. apply IH in H. now apply in_delitem in H.
Qed.

End EntryInvariants.

Section TrackerInvariants.

Variable P : string -> Prop.

Lemma rename_first_tracker_keys n hist h x :
  In x (PyDict.keys (_name_tracker (rename_first n hist h))) ->
  x = n \/ In x (PyDict.keys (_name_tracker h)).
Proof.
  unfold rename_first. destruct (hist_first hist) as [fm ft].
  destruct ((ft =? n) && PyDict.mem (registry h) n); [|auto].
  destruct (PyDict.get (registry h) n); [|auto].
  simpl. intros H. now apply keys_setitem in H.
Qed.

Lemma register_tracker_keys n M fn h x :
  In x (PyDict.keys (_name_tracker (_register_tool n M fn h))) ->
  x = n \/ In x (PyDict.keys (_name_tracker h)).
Proof.
  unfold _register_tool.
  destruct (PyDict.get (_name_tracker h) n) as [hist|]; simpl; intros H.
  - apply keys_modify in H. now apply rename_first_tracker_keys in H.
  - now apply keys_setitem in H.
Qed.

Lemma register_tracked_all n M fn h :
  P n -> tracked_all P h -> tracked_all P (_register_tool n M fn h).
Proof.
  intros Hn Hall x Hx. apply register_tracker_keys in Hx.
  destruct Hx as [->|Hx]; auto.
Qed.

Lemma register_module_tracked_all names M ns h :
  (forall n, In n names -> P n) ->
  tracked_all P h -> tracked_all P (register_module names M ns h).
Proof.
  unfold register_module. revert h.
  induction names as [|n names IH]; intros h Hnames Hall; simpl; [assumption|].
  apply IH; [intros; apply Hnames; now right|].
  destruct (PyDict.get ns n); [|assumption].
  apply register_tracked_all; [apply Hnames; now left | assumption].
Qed.

End TrackerInvariants.

(** ** The validation loop *)

Section Validation.

Variable w : World.

Lemma validate_one_shape h raw :
  validate_one w h raw =
  with_okmods
    (with_rejected h (rejected_modules h ++ rejection_of w (valid_dirs h) raw)%list)
    (okmods h ++ accepted_of w (valid_dirs h) raw)%list.
Proof.
  unfold validate_one, rejection_of, accepted_of, reject, with_okmods, with_rejected.
  destruct h as [dirs reg tr rej raws ok lm]; simpl.
  destruct (negb (is_valid_path dirs (resolve w raw))); simpl.
  - now rewrite app_nil_r.
  - destruct (PyPath.stem (resolve w raw) =? "toolset"); simpl.
    + now rewrite !app_nil_r.
    + destruct (read_and_parse w (resolve w raw)); simpl;
        now rewrite ?app_nil_r.
Qed.

Lemma validate_loop_shape raws h :
  fold_left (validate_one w) raws h =
  with_okmods
    (with_rejected h
       (rejected_modules h ++ flat_map (rejection_of w (valid_dirs h)) raws)%list)
    (okmods h ++ flat_map (accepted_of w (valid_dirs h)) raws)%list.
Proof.
  revert h. induction raws as [|raw raws IH]; intros h; simpl.
  - destruct h; unfold with_okmods, with_rejected; simpl. now rewrite !app_nil_r.
  - rewrite IH, validate_one_shape. unfold with_okmods, with_rejected; simpl.
    now rewrite <- !app_assoc.
Qed.

Lemma validate_all_shape h :
  validate_all w h =
  with_okmods
    (with_rejected h
       (rejected_modules h
        ++ flat_map (rejection_of w (valid_dirs h)) (raw_modules h))%list)
    (okmods h ++ flat_map (accepted_of w (valid_dirs h)) (raw_modules h))%list.
Proof. apply validate_loop_shape. Qed.

Lemma accepted_of_spec dirs raw p :
  In p (accepted_of w dirs raw) <->
  p = resolve w raw /\ is_valid_path dirs p = true /\
  PyPath.stem p <> "toolset" /\ read_and_parse w p = SourceOk.
Proof.
  unfold accepted_of.
  destruct (is_valid_path dirs (resolve w raw)) eqn:Hv; simpl.
  - destruct (String.eqb_spec (PyPath.stem (resolve w raw)) "toolset") as [Hs|Hs].
    + split; [intros [] | intros (-> & _ & H & _); contradiction].
    + destruct (read_and_parse w (resolve w raw)) eqn:Hr; simpl.
      * split; [intros [<-|[]]; auto | intros (-> & _); auto].
      * split; [intros [] | intros (-> & _ & _ & H); congruence].
      * split; [intros [] | intros (-> & _ & _ & H); congruence].
  - split; [intros [] | intros (-> & H & _); congruence].
Qed.

Lemma rejection_of_spec dirs raw q reason :
  In (q, reason) (rejection_of w dirs raw) ->
  q = raw /\
  ((is_valid_path dirs (resolve w raw) = false /\ reason = "path_traversal_attempt")
   \/ (is_valid_path dirs (resolve w raw) = true /\
       PyPath.stem (resolve w raw) <> "toolset" /\
       ((read_and_parse w (resolve w raw) = SyntaxErrorRaised /\ reason = "syntax_error")
        \/ exists e, read_and_parse w (resolve w raw) = ReadFailed e /\
                     reason = "read_error: " ++ e))).
Proof.
  unfold rejection_of.
  destruct (is_valid_path dirs (resolve w raw)) eqn:Hv; simpl.
  - destruct (String.eqb_spec (PyPath.stem (resolve w raw)) "toolset") as [Hs|Hs];
      [intros []|].
    destruct (read_and_parse w (resolve w raw)) eqn:Hr; simpl.
    + intros [].
    + intros [[= <- <-]|[]]. split; [reflexivity|]. right. auto.
    + intros [[= <- <-]|[]]. split; [reflexivity|]. right.
      repeat split; auto. right. eauto.
  - intros [[= <- <-]|[]]. auto.
Qed.

End Validation.

(** ** The loading loops *)

Section LoadLoops.

Variable w : World.
Variable mods : list path.
Variable HInv : ProxyHandler -> Prop.

Hypothesis HInv_reject :
  forall h p e, In p mods -> HInv h ->
                HInv (reject h p ("import_error: " ++ py_str e)).
Hypothesis HInv_loaded :
  forall h p a, In p mods -> HInv h -> HInv (set_loaded h (PyPath.stem p) a).
Hypothesis HInv_register :
  forall names ns h p,
    In p mods -> (forall n, In n names -> eligible w n = true) ->
    HInv h -> HInv (register_module names (PyPath.stem p) ns h).

Lemma filter_eligible l n : In n (filter (eligible w) l) -> eligible w n = true.
Proof. intros H. now apply filter_In in H. Qed.

Lemma load_one_inv rt p :
  In p mods -> HInv (hdl rt) -> HInv (hdl (snd (load_one w rt p))).
Proof.
  intros Hp Hinv. unfold load_one.
  destruct (fresh_import w (PyPath.stem p) p (py rt)) as [[[a|]|e] i]; simpl.
  - apply HInv_register; [assumption | apply filter_eligible |].
    now apply HInv_loaded.
  - assumption.
  - destruct (exc_is_exception e); simpl;
      [now apply HInv_reject | assumption].
Qed.

Lemma load_loop_inv l rt :
  incl l mods -> HInv (hdl rt) -> HInv (hdl (snd (load_loop w l rt))).
Proof.
  revert rt. induction l as [|p l IH]; intros rt Hincl Hinv; simpl.
  - assumption.
  - pose proof (load_one_inv rt p (Hincl p (or_introl eq_refl)) Hinv) as H1.
    destruct (load_one w rt p) as [[u|e] rt']; simpl in *.
    + apply IH; [intros q Hq; apply Hincl; now right | assumption].
    + assumption.
Qed.

Lemma reload_one_inv rt p :
  In p mods -> HInv (hdl rt) -> HInv (hdl (snd (reload_one w rt p))).
Proof.
  intros Hp Hinv. unfold reload_one.
  destruct (load_for_reload w (PyPath.stem p) p (py rt)) as [[[a|]|e] i]; simpl.
  - apply HInv_register; [assumption | apply filter_eligible |].
    now apply HInv_loaded.
  - assumption.
  - assumption.
Qed.

Lemma reload_loop_inv l rt :
  incl l mods -> HInv (hdl rt) -> HInv (hdl (snd (reload_loop w l rt))).
Proof.
  revert rt. induction l as [|p l IH]; intros rt Hincl Hinv; simpl.
  - assumption.
  - pose proof (reload_one_inv rt p (Hincl p (or_introl eq_refl)) Hinv) as H1.
    destruct (reload_one w rt p) as [[u|e] rt']; simpl in *.
    + apply IH; [intros q Hq; apply Hincl; now right | assumption].
    + assumption.
Qed.

End LoadLoops.

(** ** Names with a double underscore *)

Section DoubleUnderscore.

Lemma eligible_no_dunder w x :
  eligible w x = true -> PyStr.contains "__" x = false.
Proof.
  unfold eligible. intros H. apply andb_prop in H. destruct H as [H _].
  apply andb_prop in H. destruct H as [H _]. now apply negb_true_iff in H.
Qed.

Lemma eligible_on_reload_no_dunder w x :
  eligible_on_reload w x = true -> PyStr.contains "__" x = false.
Proof.
  unfold eligible_on_reload. intros H. apply andb_prop in H.
  destruct H as [H _]. now apply negb_true_iff in H.
Qed.

Lemma dunder_free_register_module names M ns h :
  (forall n, In n names -> PyStr.contains "__" n = false) ->
  dunder_free h -> dunder_free (register_module names M ns h).
Proof.
  intros Hnames [Hr Ht]. split.
  - apply register_module_reg_all; auto.
  - apply register_module_tracked_all; auto.
Qed.

Lemma dunder_free_empty dirs : dunder_free (empty_handler dirs).
Proof. split; intros ? ; simpl; try intros ?; contradiction. Qed.

Lemma dunder_free_same h h' :
  registry h' = registry h -> _name_tracker h' = _name_tracker h ->
  dunder_free h -> dunder_free h'.
Proof.
  intros Hr Ht [H1 H2]. unfold dunder_free, reg_all, tracked_all.
  rewrite Hr, Ht. auto.
Qed.

Lemma validate_all_registry w h : registry (validate_all w h) = registry h.
Proof. now rewrite validate_all_shape. Qed.

Lemma validate_all_tracker w h : _name_tracker (validate_all w h) = _name_tracker h.
Proof. now rewrite validate_all_shape. Qed.

Lemma dunder_free_init w i : dunder_free (hdl (__init__ w i)).
Proof.
  unfold __init__, construct. set (h2 := validate_all w _).
  apply load_loop_inv with (mods := okmods h2) (HInv := dunder_free).
  - intros h p e _. now apply dunder_free_same.
  - intros h p a _. now apply dunder_free_same.
  - intros names ns h p _ Hn. apply dunder_free_register_module.
    intros n Hin. apply (eligible_no_dunder w). auto.
  - apply incl_refl.
  - simpl. unfold h2. eapply dunder_free_same;
      [apply validate_all_registry | apply validate_all_tracker |].
    apply dunder_free_empty.
Qed.

Lemma dunder_free_reload_all w rt :
  dunder_free (hdl (snd (reload_all_modules w rt))).
Proof.
  unfold reload_all_modules.
  set (h2 := validate_all w _).
  assert (H : dunder_free (hdl (snd (reload_loop w (okmods h2)
                                       {| hdl := h2; py := py rt |})))).
  { apply reload_loop_inv with (mods := okmods h2) (HInv := dunder_free).
    - intros h p a _. now apply dunder_free_same.
    - intros names ns h p _ Hn. apply dunder_free_register_module.
      intros n Hin. apply (eligible_no_dunder w). auto.
    - apply incl_refl.
    - simpl. unfold h2. eapply dunder_free_same;
        [apply validate_all_registry | apply validate_all_tracker |].
      split; intros ?; simpl; try intros ?; contradiction. }
  destruct (reload_loop w (okmods h2) {| hdl := h2; py := py rt |})
    as [[u|e] rt']; exact H.
Qed.

Lemma dunder_free_reload_module w m rt :
  dunder_free (hdl rt) -> dunder_free (hdl (snd (reload_module w m rt))).
Proof.
  intros Hinv. unfold reload_module.
  destruct (PyDict.get (loaded_mods (hdl rt)) m) as [tmod|]; [|exact Hinv].
  assert (H : dunder_free
                (hdl (snd (reload_attempt w m tmod
                             (tools_of m (registry (hdl rt))) rt)))).
  { unfold reload_attempt.
    destruct (find_module_file w (valid_dirs (hdl rt)) m) as [mod_path|];
      [|exact Hinv].
    destruct (negb (has_loader w mod_path)); [exact Hinv|].
    destruct (exec_module w mod_path tmod (py rt)) as [[u|e] i]; simpl;
      [|exact Hinv].
    apply dunder_free_register_module.
    - intros n Hin. apply (eligible_on_reload_no_dunder w).
      now apply filter_In in Hin.
    - destruct Hinv as [H1 H2]. split; [|exact H2].
      intros key e Hin. simpl in Hin. apply remove_tools_subset in Hin.
      eapply H1; eassumption. }
  destruct (reload_attempt w m tmod (tools_of m (registry (hdl rt))) rt)
    as [[[added removed]|e] rt']; [exact H|].
  destruct (exc_is_exception e); exact H.
Qed.

End DoubleUnderscore.

(** C10.  A top-level name with a double underscore anywhere in it fails
    both extraction filters, so no load path registers it: after startup
    and after a full reload no registry entry and no tracked name has one,
    and a single-module reload keeps it so. *)
Theorem double_underscore_never_registered :
  (forall w x, PyStr.contains "__" x = true ->
               eligible w x = false /\ eligible_on_reload w x = false) /\
  (forall w i, dunder_free (hdl (__init__ w i))) /\
  (forall w rt, dunder_free (hdl (snd (reload_all_modules w rt)))) /\
  (forall w m rt, dunder_free (hdl rt) ->
                  dunder_free (hdl (snd (reload_module w m rt)))).
Proof.
  split; [|split; [|split]].
  - intros w x Hx. unfold eligible, eligible_on_reload. now rewrite Hx.
  - apply dunder_free_init.
  - apply dunder_free_reload_all.
  - apply dunder_free_reload_module.
Qed.

(** The all-lowercase callable [my__tool] of [alpha.py] is in no registry
    entry after startup followed by a reload of [alpha]. *)
Lemma double_underscore_never_registered_witness :
  dunder_free (hdl (__init__ two_modules fresh_interp)) /\
  dunder_free (hdl (snd (reload_module two_modules "alpha"
                           (__init__ two_modules fresh_interp)))).
Proof.
  split.
  - apply (proj1 (proj2 double_underscore_never_registered)).
  - apply (proj2 (proj2 (proj2 double_underscore_never_registered))).
    apply (proj1 (proj2 double_underscore_never_registered)).
Defined.

(** C7 as the code has it.  When the tool id is not a key of the
    registry, [use_proxy_tool] raises its not-found error, a [KeyError]
    whose message lists the current registry keys; it does so whatever the
    callables of the world do, so nothing is called, and it leaves the
    handler and the interpreter as they were.  When the tool id is a key,
    [use_proxy_tool] is the call of the bound object with the keyword
    arguments and nothing else: what the call returns is returned, what it
    raises is raised unchanged, and the handler and the interpreter are as
    the call left them. *)
Theorem use_proxy_tool_dispatch (w : World) (tool_id : string) (kw : kwargs)
  (rt : Runtime) :
  match PyDict.get (registry (hdl rt)) tool_id with
  | None =>
      ~ In tool_id (PyDict.keys (registry (hdl rt))) /\
      use_proxy_tool w tool_id kw rt =
        (Raise (not_found_error tool_id (PyDict.keys (registry (hdl rt)))), rt) /\
      forall c,
        use_proxy_tool (with_call_function w c) tool_id kw rt =
        (Raise (not_found_error tool_id (PyDict.keys (registry (hdl rt)))), rt)
  | Some info =>
      In tool_id (PyDict.keys (registry (hdl rt))) /\
      use_proxy_tool w tool_id kw rt =
        call_function w (obj_id (function info)) kw rt
  end /\
  exc_type (not_found_error tool_id (PyDict.keys (registry (hdl rt)))) = "KeyError" /\
  exists prefix,
    exc_arg (not_found_error tool_id (PyDict.keys (registry (hdl rt)))) =
    prefix ++ PyStr.repr_list (PyDict.keys (registry (hdl rt))).
Proof.
  split; [|split; [reflexivity|]].
  - destruct (PyDict.get (registry (hdl rt)) tool_id) as [info|] eqn:E.
    + split; [apply in_keys_get; congruence|].
      unfold use_proxy_tool. now rewrite E.
    + split; [rewrite in_keys_get; tauto|].
      split; [|intros c]; unfold use_proxy_tool; now rewrite E.
  - exists ("Tool '" ++ tool_id ++ "' not found in registry. Available tools: ").
    unfold not_found_error. simpl. now rewrite !append_assoc.
Qed.

(** C7, counterexample.  A registered tool that relays to a tool id
    nobody has, and one that empties the registry: the first call raises
    the not-found error with the list of the current keys although its own
    id is a key, and the second leaves another registry. *)
Lemma registered_tool_raises_not_found :
  In "relay" (PyDict.keys (registry (hdl (__init__ relay_tools fresh_interp)))) /\
  fst (use_proxy_tool relay_tools "relay" [] (__init__ relay_tools fresh_interp)) =
    Raise (not_found_error "missing"
             (PyDict.keys (registry (hdl (__init__ relay_tools fresh_interp))))) /\
  In "reset" (PyDict.keys (registry (hdl (__init__ relay_tools fresh_interp)))) /\
  registry (hdl (snd (use_proxy_tool relay_tools "reset" []
                        (__init__ relay_tools fresh_interp)))) = [] /\
  registry (hdl (__init__ relay_tools fresh_interp)) <> [].
Proof.
  vm_compute. repeat split; auto; discriminate.
Qed.

(** ** Full reload *)

Section FullReload.

Lemma rename_first_frame n hist h : same_frame h (rename_first n hist h).
Proof.
  unfold rename_first. destruct (hist_first hist) as [fm ft].
  destruct ((ft =? n) && PyDict.mem (registry h) n);
    [|repeat split].
  destruct (PyDict.get (registry h) n); repeat split.
Qed.

Lemma register_frame n M f h : same_frame h (_register_tool n M f h).
Proof.
  unfold _register_tool.
  destruct (PyDict.get (_name_tracker h) n) as [hist|].
  - destruct (rename_first_frame n hist h) as (H1 & H2 & H3 & H4 & H5).
    repeat split; simpl; assumption.
  - repeat split.
Qed.

Lemma same_frame_trans h1 h2 h3 :
  same_frame h1 h2 -> same_frame h2 h3 -> same_frame h1 h3.
Proof.
  intros (A1 & A2 & A3 & A4 & A5) (B1 & B2 & B3 & B4 & B5).
  repeat split; congruence.
Qed.

Lemma register_module_frame names M ns h :
  same_frame h (register_module names M ns h).
Proof.
  unfold register_module. revert h.
  induction names as [|n names IH]; intros h; simpl; [repeat split|].
  eapply same_frame_trans; [|apply IH].
  destruct (PyDict.get ns n); [apply register_frame | repeat split].
Qed.

Variable w : World.

(** The loading loop of the full reload writes neither the rejection log
    nor the lists of candidates. *)
Lemma reload_loop_frame l rt :
  let h' := hdl (snd (reload_loop w l rt)) in
  valid_dirs h' = valid_dirs (hdl rt) /\
  rejected_modules h' = rejected_modules (hdl rt) /\
  raw_modules h' = raw_modules (hdl rt) /\
  okmods h' = okmods (hdl rt).
Proof.
  apply reload_loop_inv with (mods := l)
    (HInv := fun h => valid_dirs h = valid_dirs (hdl rt) /\
                      rejected_modules h = rejected_modules (hdl rt) /\
                      raw_modules h = raw_modules (hdl rt) /\
                      okmods h = okmods (hdl rt)).
  - intros h p a _ H. exact H.
  - intros names ns h p _ _ (H1 & H2 & H3 & H4).
    destruct (register_module_frame names (PyPath.stem p) ns h)
      as (F1 & F2 & F3 & F4 & _).
    repeat split; congruence.
  - apply incl_refl.
  - repeat split.
Qed.

Lemma from_modules_loop l rt :
  reg_all (from_modules l) (hdl rt) ->
  reg_all (from_modules l) (hdl (snd (reload_loop w l rt))).
Proof.
  apply reload_loop_inv with (mods := l) (HInv := reg_all (from_modules l)).
  - intros h p a _ H. exact H.
  - intros names ns h p Hp _ H. apply register_module_reg_all; [| |exact H].
    + intros e [q Hq]. exists q. exact Hq.
    + intros n f c _. exists p. split; [exact Hp | reflexivity].
  - apply incl_refl.
Qed.

Lemma loaded_from_modules_loop l rt :
  (forall name, In name (PyDict.keys (loaded_mods (hdl rt))) ->
                exists p, In p l /\ name = PyPath.stem p) ->
  forall name,
    In name (PyDict.keys (loaded_mods (hdl (snd (reload_loop w l rt))))) ->
    exists p, In p l /\ name = PyPath.stem p.
Proof.
  intros H0.
  apply reload_loop_inv with (mods := l)
    (HInv := fun h => forall name, In name (PyDict.keys (loaded_mods h)) ->
                                   exists p, In p l /\ name = PyPath.stem p).
  - intros h p a Hp H name Hin. simpl in Hin. apply keys_setitem in Hin.
    destruct Hin as [->|Hin]; eauto.
  - intros names ns h p _ _ H name Hin.
    destruct (register_module_frame names (PyPath.stem p) ns h)
      as (_ & _ & _ & _ & F). rewrite F in Hin. auto.
  - apply incl_refl.
  - exact H0.
Qed.

Lemma reload_all_snd rt :
  let h2 := validate_all w
              (with_okmods
                 (with_raw_modules (clear_all (hdl rt))
                    (discover w (valid_dirs (hdl rt)))) []) in
  snd (reload_all_modules w rt) =
  snd (reload_loop w (okmods h2) {| hdl := h2; py := py rt |}).
Proof.
  intros h2. unfold reload_all_modules. cbn [valid_dirs clear_all]. fold h2.
  destruct (reload_loop w (okmods h2) {| hdl := h2; py := py rt |})
    as [[u|e] r]; reflexivity.
Qed.

End FullReload.

(** The lists of the handler after a full reload. *)
Lemma reload_all_lists (w : World) (rt : Runtime) :
  let dirs := valid_dirs (hdl rt) in
  let raws := discover w dirs in
  let rt' := snd (reload_all_modules w rt) in
  valid_dirs (hdl rt') = dirs /\
  raw_modules (hdl rt') = raws /\
  okmods (hdl rt') = flat_map (accepted_of w dirs) raws /\
  rejected_modules (hdl rt') = flat_map (rejection_of w dirs) raws.
Proof.
  intros dirs raws rt'. unfold rt'. rewrite reload_all_snd.
  set (h2 := validate_all w _).
  destruct (reload_loop_frame w (okmods h2) {| hdl := h2; py := py rt |})
    as (F1 & F2 & F3 & F4).
  cbv zeta in F1, F2, F3, F4. cbn [hdl] in F1, F2, F3, F4.
  rewrite F1, F2, F3, F4. unfold h2. rewrite validate_all_shape.
  repeat split.
Qed.

(** After a full reload every tool belongs to an accepted module file. *)
Lemma reload_all_from_modules (w : World) (rt : Runtime) :
  reg_all (from_modules (okmods (hdl (snd (reload_all_modules w rt)))))
    (hdl (snd (reload_all_modules w rt))).
Proof.
  rewrite reload_all_snd. set (h2 := validate_all w _).
  destruct (reload_loop_frame w (okmods h2) {| hdl := h2; py := py rt |})
    as (_ & _ & _ & F4).
  cbv zeta in F4. cbn [hdl] in F4. rewrite F4.
  apply from_modules_loop. cbn [hdl].
  intros key e Hin. unfold h2 in Hin. rewrite validate_all_shape in Hin.
  contradiction.
Qed.

(** After a full reload every loaded module is an accepted module file. *)
Lemma reload_all_loaded_keys (w : World) (rt : Runtime) name :
  In name (PyDict.keys (loaded_mods (hdl (snd (reload_all_modules w rt))))) ->
  exists p, In p (okmods (hdl (snd (reload_all_modules w rt)))) /\
            name = PyPath.stem p.
Proof.
  rewrite reload_all_snd. set (h2 := validate_all w _).
  destruct (reload_loop_frame w (okmods h2) {| hdl := h2; py := py rt |})
    as (_ & _ & _ & F4).
  cbv zeta in F4. cbn [hdl] in F4. rewrite F4.
  apply loaded_from_modules_loop. cbn [hdl].
  intros n Hin. unfold h2 in Hin. rewrite validate_all_shape in Hin.
  contradiction.
Qed.

(** C8.  [reload_all_modules] reloads a module that is already in
    [sys.modules] by name, in the module object it finds there.  With
    [modules/json.py] loaded at startup with the tool [pretty], then edited
    to define [compact] instead, and the name [json] found in the standard
    library, the full reload accepts [modules/json.py] alone, yet the
    registry afterwards holds [pretty], bound to the object of the startup,
    and the library's [dumps] and [loads], and does not hold [compact],
    the one name the present file defines. *)
Theorem reload_all_keeps_stale_tools :
  PyDict.keys (registry (hdl (__init__ shadowed_json fresh_interp))) = ["pretty"] /\
  fst (reload_all_modules json_edited (__init__ shadowed_json fresh_interp)) =
    Ret "Loaded 3 tools from 1 modules" /\
  okmods (hdl (snd (reload_all_modules json_edited
                      (__init__ shadowed_json fresh_interp)))) =
    [PyPath.joinpath modules_dir "json.py"] /\
  run_code json_edited (PyPath.joinpath modules_dir "json.py") [] =
    ([("compact", fn 2 "compact printer")], None) /\
  PyDict.keys
    (registry (hdl (snd (reload_all_modules json_edited
                           (__init__ shadowed_json fresh_interp))))) =
    ["dumps"; "loads"; "pretty"] /\
  PyDict.get
    (registry (hdl (snd (reload_all_modules json_edited
                           (__init__ shadowed_json fresh_interp))))) "pretty" =
    PyDict.get (registry (hdl (__init__ shadowed_json fresh_interp))) "pretty" /\
  PyDict.get
    (registry (hdl (snd (reload_all_modules json_edited
                           (__init__ shadowed_json fresh_interp))))) "compact" = None /\
  mod_file
    (heap (py (snd (reload_all_modules json_edited
                      (__init__ shadowed_json fresh_interp)))) 0) = stdlib_json.
Proof. vm_compute. repeat split. Qed.

(** ** Startup: what the loading loop keeps *)

Section Startup.

Variable w : World.

(** The import of a file as a new module writes one new cell of the store
    and no other. *)
Lemma fresh_import_spec name p i :
  has_loader w p = true ->
  exists r i',
    fresh_import w name p i = (r, i') /\
    (r = Ret (Some (next_addr i)) \/ exists e, r = Raise e) /\
    next_addr i' = S (next_addr i) /\
    (forall a, a <> next_addr i -> heap i' a = heap i a) /\
    mod_file (heap i' (next_addr i)) = p /\
    mod_name (heap i' (next_addr i)) = name.
Proof.
  intros Hl. unfold fresh_import. rewrite Hl. simpl.
  unfold exec_module. simpl. rewrite Nat.eqb_refl. simpl.
  destruct (run_code w p _) as [ns' [e|]]; simpl;
    eexists; eexists; (split; [reflexivity|]); simpl;
    rewrite ?Nat.eqb_refl; repeat split; eauto.
  - intros a Ha. apply Nat.eqb_neq in Ha. now rewrite Ha.
  - intros a Ha. apply Nat.eqb_neq in Ha. now rewrite Ha.
Qed.

Lemma fresh_import_no_loader name p i :
  has_loader w p = false -> fresh_import w name p i = (Ret None, i).
Proof. intros Hl. unfold fresh_import. now rewrite Hl. Qed.

Lemma load_one_loaded_from mods rt p :
  In p mods -> loaded_from mods rt -> loaded_from mods (snd (load_one w rt p)).
Proof.
  intros Hp Hinv. unfold load_one.
  destruct (has_loader w p) eqn:Hl.
  - destruct (fresh_import_spec (PyPath.stem p) p (py rt) Hl)
      as (r & i' & Heq & Hr & Hnext & Hother & Hfile & _).
    rewrite Heq. destruct Hr as [->|[e ->]].
    + intros name a Hin. simpl in *.
      destruct (register_module_frame
                  (filter (eligible w) (dir (mod_ns (heap i' (next_addr (py rt))))))
                  (PyPath.stem p) (mod_ns (heap i' (next_addr (py rt))))
                  (set_loaded (hdl rt) (PyPath.stem p) (next_addr (py rt))))
        as (_ & _ & _ & _ & F).
      rewrite F in Hin. simpl in Hin. apply in_setitem in Hin.
      destruct Hin as [[= -> ->]|Hin].
      * rewrite Hnext, Hfile. split; [lia | exact Hp].
      * destruct (Hinv name a Hin) as [Hlt Hm]. rewrite Hnext. split; [lia|].
        rewrite Hother by lia. exact Hm.
    + destruct (exc_is_exception e); intros name a Hin; simpl in *;
        destruct (Hinv name a Hin) as [Hlt Hm]; rewrite Hnext;
        (split; [lia|]); rewrite Hother by lia; exact Hm.
  - rewrite (fresh_import_no_loader _ _ _ Hl). intros name a Hin. simpl in *.
    exact (Hinv name a Hin).
Qed.

Lemma load_loop_loaded_from mods l rt :
  incl l mods -> loaded_from mods rt ->
  loaded_from mods (snd (load_loop w l rt)).
Proof.
  revert rt. induction l as [|p l IH]; intros rt Hincl Hinv; simpl.
  - assumption.
  - pose proof (load_one_loaded_from mods rt p (Hincl p (or_introl eq_refl)) Hinv)
      as H1.
    destruct (load_one w rt p) as [[u|e] rt']; simpl in *.
    + apply IH; [intros q Hq; apply Hincl; now right | assumption].
    + assumption.
Qed.

(** The loading loop of [__init__] writes neither the roots nor the lists
    of candidates. *)
Lemma load_loop_frame l rt :
  let h' := hdl (snd (load_loop w l rt)) in
  valid_dirs h' = valid_dirs (hdl rt) /\
  raw_modules h' = raw_modules (hdl rt) /\
  okmods h' = okmods (hdl rt).
Proof.
  apply load_loop_inv with (mods := l)
    (HInv := fun h => valid_dirs h = valid_dirs (hdl rt) /\
                      raw_modules h = raw_modules (hdl rt) /\
                      okmods h = okmods (hdl rt)).
  - intros h p e _ H. exact H.
  - intros h p a _ H. exact H.
  - intros names ns h p _ _ (H1 & H2 & H3).
    destruct (register_module_frame names (PyPath.stem p) ns h)
      as (F1 & F2 & F3 & F4 & _).
    repeat split; congruence.
  - apply incl_refl.
  - repeat split.
Qed.

(** X1.  At startup every loaded module has been executed from a validated
    path: the file of each module object in the loaded-module table lies
    under one of the configured roots. *)
Theorem startup_loads_only_under_roots i name a :
  In (name, a) (loaded_mods (hdl (__init__ w i))) ->
  is_valid_path (valid_dirs (hdl (__init__ w i)))
    (mod_file (heap (py (__init__ w i)) a)) = true.
Proof.
  intros Hin. unfold __init__, construct in *.
  set (h2 := validate_all w _) in *.
  assert (Hok : okmods h2 = flat_map (accepted_of w (startup_dirs w))
                              (discover w (startup_dirs w)))
    by (unfold h2; now rewrite validate_all_shape).
  assert (Hvd : valid_dirs h2 = startup_dirs w)
    by (unfold h2; now rewrite validate_all_shape).
  assert (Hlm : loaded_mods h2 = [])
    by (unfold h2; now rewrite validate_all_shape).
  destruct (load_loop_frame (okmods h2) {| hdl := h2; py := i |}) as (F1 & _ & _).
  rewrite F1. cbn [hdl]. rewrite Hvd.
  assert (Hfrom : loaded_from (okmods h2)
                    (snd (load_loop w (okmods h2) {| hdl := h2; py := i |}))).
  { apply load_loop_loaded_from; [apply incl_refl|].
    intros n b Hb. cbn [hdl] in Hb. rewrite Hlm in Hb. contradiction. }
  destruct (Hfrom name a Hin) as [_ Hm].
  rewrite Hok in Hm at 2.
  apply in_flat_map in Hm. destruct Hm as (raw & _ & Hacc).
  apply accepted_of_spec in Hacc. destruct Hacc as (_ & Hv & _).
  exact Hv.
Qed.

(** A module that fails at startup with an exception of the class
    [Exception] is logged and the loop goes on. *)
Lemma load_one_logs_failure rt p e i :
  fresh_import w (PyPath.stem p) p (py rt) = (Raise e, i) ->
  exc_is_exception e = true ->
  load_one w rt p =
  (Ret tt, {| hdl := reject (hdl rt) p ("import_error: " ++ py_str e); py := i |}).
Proof. intros H He. unfold load_one. now rewrite H, He. Qed.

End Startup.

(** C3.  The loading loop of [reload_all_modules] has no [try] around the
    execution of a module.  With [modules/bad.py] raising and
    [modules/good.py] sound, startup logs the failure and loads [good];
    the full reload of the same directory lets the exception out, logs
    nothing and loads nothing. *)
Theorem reload_all_lets_exception_escape :
  rejected_modules (hdl (__init__ one_bad_module fresh_interp)) =
    [(PyPath.joinpath modules_dir "bad.py", "import_error: boom")] /\
  PyDict.keys (loaded_mods (hdl (__init__ one_bad_module fresh_interp))) = ["good"] /\
  PyDict.keys (registry (hdl (__init__ one_bad_module fresh_interp))) = ["hello"] /\
  fst (reload_all_modules one_bad_module (__init__ one_bad_module fresh_interp)) =
    Raise (Exn "RuntimeError" "boom") /\
  rejected_modules
    (hdl (snd (reload_all_modules one_bad_module
                 (__init__ one_bad_module fresh_interp)))) = [] /\
  loaded_mods
    (hdl (snd (reload_all_modules one_bad_module
                 (__init__ one_bad_module fresh_interp)))) = [] /\
  registry
    (hdl (snd (reload_all_modules one_bad_module
                 (__init__ one_bad_module fresh_interp)))) = [].
Proof. vm_compute. repeat split. Qed.

(** C6.  A module already in [sys.modules] is reloaded by name: with
    [modules/json.py] accepted and the name [json] found in the standard
    library, the full reload executes the library file in the module
    object; the loaded module's file is then outside every root and its
    functions are registered as tools. *)
Theorem reload_all_loads_outside_roots :
  okmods (hdl (snd (reload_all_modules shadowed_json
                      (__init__ shadowed_json fresh_interp)))) =
    [PyPath.joinpath modules_dir "json.py"] /\
  rejected_modules (hdl (snd (reload_all_modules shadowed_json
                                (__init__ shadowed_json fresh_interp)))) = [] /\
  PyDict.get (loaded_mods (hdl (__init__ shadowed_json fresh_interp))) "json" = Some 0 /\
  mod_file (heap (py (__init__ shadowed_json fresh_interp)) 0) =
    PyPath.joinpath modules_dir "json.py" /\
  PyDict.get
    (loaded_mods (hdl (snd (reload_all_modules shadowed_json
                              (__init__ shadowed_json fresh_interp))))) "json" = Some 0 /\
  mod_file
    (heap (py (snd (reload_all_modules shadowed_json
                      (__init__ shadowed_json fresh_interp)))) 0) = stdlib_json /\
  is_valid_path
    (valid_dirs (hdl (snd (reload_all_modules shadowed_json
                             (__init__ shadowed_json fresh_interp)))))
    stdlib_json = false /\
  PyDict.keys
    (registry (hdl (snd (reload_all_modules shadowed_json
                           (__init__ shadowed_json fresh_interp))))) =
    ["dumps"; "loads"; "pretty"].
Proof. vm_compute. repeat split. Qed.

(** ** The shape of the handler after startup *)

Section StartupShape.

Variable w : World.
Variable i : Interp.

Let dirs := startup_dirs w.
Let raws := discover w dirs.

Lemma init_lists :
  valid_dirs (hdl (__init__ w i)) = dirs /\
  raw_modules (hdl (__init__ w i)) = raws /\
  okmods (hdl (__init__ w i)) = flat_map (accepted_of w dirs) raws.
Proof.
  unfold __init__, construct. set (h2 := validate_all w _).
  destruct (load_loop_frame w (okmods h2) {| hdl := h2; py := i |}) as (F1 & F2 & F3).
  rewrite F1, F2, F3. unfold h2. rewrite validate_all_shape.
  repeat split.
Qed.

Lemma init_loaded_keys name :
  In name (PyDict.keys (loaded_mods (hdl (__init__ w i)))) ->
  exists p, In p (okmods (hdl (__init__ w i))) /\ name = PyPath.stem p.
Proof.
  destruct init_lists as (_ & _ & Hok). rewrite Hok.
  unfold __init__, construct. set (h2 := validate_all w _).
  assert (Hok2 : okmods h2 = flat_map (accepted_of w dirs) raws)
    by (unfold h2; now rewrite validate_all_shape).
  rewrite <- Hok2. revert name.
  apply load_loop_inv with (mods := okmods h2)
    (HInv := fun h => forall name, In name (PyDict.keys (loaded_mods h)) ->
                        exists p, In p (okmods h2) /\ name = PyPath.stem p).
  - intros h p e _ H. exact H.
  - intros h p a Hp H name Hin. simpl in Hin. apply keys_setitem in Hin.
    destruct Hin as [->|Hin]; eauto.
  - intros names ns h p _ _ H name Hin.
    destruct (register_module_frame names (PyPath.stem p) ns h)
      as (_ & _ & _ & _ & F). rewrite F in Hin. auto.
  - apply incl_refl.
  - intros name Hin. cbn [hdl] in Hin. unfold h2 in Hin.
    rewrite validate_all_shape in Hin. simpl in Hin. contradiction.
Qed.

Lemma init_rejections q reason :
  In (q, reason) (rejected_modules (hdl (__init__ w i))) ->
  In (q, reason) (flat_map (rejection_of w dirs) raws) \/
  (In q (okmods (hdl (__init__ w i))) /\
   exists e, reason = "import_error: " ++ py_str e).
Proof.
  destruct init_lists as (_ & _ & Hok). rewrite Hok.
  unfold __init__, construct. set (h2 := validate_all w _).
  assert (Hok2 : okmods h2 = flat_map (accepted_of w dirs) raws)
    by (unfold h2; now rewrite validate_all_shape).
  assert (Hrej2 : rejected_modules h2 = flat_map (rejection_of w dirs) raws)
    by (unfold h2; now rewrite validate_all_shape).
  rewrite <- Hok2, <- Hrej2. revert q reason.
  apply load_loop_inv with (mods := okmods h2)
    (HInv := fun h => forall q reason, In (q, reason) (rejected_modules h) ->
                        In (q, reason) (rejected_modules h2) \/
                        (In q (okmods h2) /\
                         exists e, reason = "import_error: " ++ py_str e)).
  - intros h p e Hp H q reason Hin. simpl in Hin. apply in_app_or in Hin.
    destruct Hin as [Hin|[[= <- <-]|[]]]; [auto|]. right.
    split; [assumption | exists e; reflexivity].
  - intros h p a _ H. exact H.
  - intros names ns h p _ _ H q reason Hin.
    destruct (register_module_frame names (PyPath.stem p) ns h)
      as (_ & F & _). rewrite F in Hin. auto.
  - apply incl_refl.
  - intros q reason Hin. now left.
Qed.

End StartupShape.

(** ** The reserved name [toolset] *)

Lemma accepted_stem_not_toolset w dirs raws p :
  In p (flat_map (accepted_of w dirs) raws) -> PyPath.stem p <> "toolset".
Proof.
  intros H. apply in_flat_map in H. destruct H as (raw & _ & Hacc).
  apply accepted_of_spec in Hacc. tauto.
Qed.

Lemma rejection_of_toolset w dirs raw :
  is_valid_path dirs (resolve w raw) = true ->
  PyPath.stem (resolve w raw) = "toolset" ->
  rejection_of w dirs raw = [] /\ accepted_of w dirs raw = [].
Proof.
  intros Hv Hs. unfold rejection_of, accepted_of.
  now rewrite Hv, Hs.
Qed.

Lemma no_rejection_for_toolset w dirs raws raw reason :
  is_valid_path dirs (resolve w raw) = true ->
  PyPath.stem (resolve w raw) = "toolset" ->
  ~ In (raw, reason) (flat_map (rejection_of w dirs) raws).
Proof.
  intros Hv Hs Hin. apply in_flat_map in Hin.
  destruct Hin as (raw' & _ & Hin).
  destruct (rejection_of_spec w dirs raw' raw reason Hin) as [-> _].
  destruct (rejection_of_toolset w dirs raw' Hv Hs) as [Hnil _].
  rewrite Hnil in Hin. contradiction.
Qed.

(** C9 as the code has it.  A candidate whose resolved path lies under a
    module root and has the stem [toolset] is skipped by the validation
    loop: the turn leaves the handler as it was.  At startup and on full
    reload alike its path is not among the accepted modules, no module
    named [toolset] is loaded, and no rejection is recorded for it. *)
Theorem toolset_candidate_skipped (w : World) (raw : path) :
  PyPath.stem (resolve w raw) = "toolset" ->
  (forall h, is_valid_path (valid_dirs h) (resolve w raw) = true ->
             validate_one w h raw = h) /\
  (forall i,
     ~ In (resolve w raw) (okmods (hdl (__init__ w i))) /\
     PyDict.get (loaded_mods (hdl (__init__ w i))) "toolset" = None /\
     (is_valid_path (startup_dirs w) (resolve w raw) = true ->
      (forall p, resolve w (resolve w p) = resolve w p) ->
      forall reason, ~ In (raw, reason) (rejected_modules (hdl (__init__ w i))))) /\
  (forall rt,
     ~ In (resolve w raw) (okmods (hdl (snd (reload_all_modules w rt)))) /\
     PyDict.get (loaded_mods (hdl (snd (reload_all_modules w rt)))) "toolset" = None /\
     (is_valid_path (valid_dirs (hdl rt)) (resolve w raw) = true ->
      forall reason,
        ~ In (raw, reason)
            (rejected_modules (hdl (snd (reload_all_modules w rt)))))).
Proof.
  intros Hs. split; [|split].
  - intros h Hv. unfold validate_one. rewrite Hv, Hs. reflexivity.
  - intros i. destruct (init_lists w i) as (Hd & Hr & Hok).
    split; [|split].
    + rewrite Hok. intros Hin. now apply accepted_stem_not_toolset in Hin.
    + destruct (PyDict.get (loaded_mods (hdl (__init__ w i))) "toolset") eqn:E;
        [|reflexivity].
      assert (Hin : In "toolset" (PyDict.keys (loaded_mods (hdl (__init__ w i)))))
        by (apply in_keys_get; congruence).
      apply init_loaded_keys in Hin. destruct Hin as (p & Hp & Hst).
      rewrite Hok in Hp. apply accepted_stem_not_toolset in Hp. congruence.
    + intros Hv Hidem reason Hin. apply init_rejections in Hin.
      destruct Hin as [Hin|[Hin _]].
      * now apply no_rejection_for_toolset in Hin.
      * rewrite Hok in Hin. apply in_flat_map in Hin.
        destruct Hin as (raw0 & _ & Hacc). apply accepted_of_spec in Hacc.
        destruct Hacc as (Heq & _ & Hne & _). apply Hne.
        rewrite Heq, <- Hidem, <- Heq. exact Hs.
  - intros rt.
    destruct (reload_all_lists w rt) as (_ & _ & Hok & Hrej).
    cbv zeta in Hok, Hrej. split; [|split].
    + rewrite Hok. intros Hin. now apply accepted_stem_not_toolset in Hin.
    + destruct (PyDict.get (loaded_mods (hdl (snd (reload_all_modules w rt))))
                  "toolset") eqn:E; [|reflexivity].
      assert (Hin : In "toolset"
                      (PyDict.keys (loaded_mods (hdl (snd (reload_all_modules w rt))))))
        by (apply in_keys_get; congruence).
      apply reload_all_loaded_keys in Hin. destruct Hin as (p & Hp & Hst).
      rewrite Hok in Hp. apply accepted_stem_not_toolset in Hp. congruence.
    + intros Hv reason. rewrite Hrej. now apply no_rejection_for_toolset.
Qed.


(** C9, counterexample.  [modules/toolset.py] is a link to a file named
    [toolset.py] outside the roots: the candidate has the reserved stem,
    yet startup and full reload record it in the rejection log. *)
Lemma toolset_link_is_logged :
  In (PyPath.joinpath modules_dir "toolset.py")
     (raw_modules (hdl (__init__ toolset_link fresh_interp))) /\
  PyPath.stem (PyPath.joinpath modules_dir "toolset.py") = "toolset" /\
  PyPath.stem (resolve toolset_link (PyPath.joinpath modules_dir "toolset.py"))
    = "toolset" /\
  rejected_modules (hdl (__init__ toolset_link fresh_interp)) =
    [(PyPath.joinpath modules_dir "toolset.py", "path_traversal_attempt")] /\
  rejected_modules
    (hdl (snd (reload_all_modules toolset_link (__init__ toolset_link fresh_interp)))) =
    [(PyPath.joinpath modules_dir "toolset.py", "path_traversal_attempt")].
Proof. vm_compute. repeat split. now left. Qed.

(** A plain [modules/toolset.py] is skipped at startup. *)
Lemma toolset_candidate_skipped_witness :
  PyPath.stem (resolve toolset_plain (PyPath.joinpath modules_dir "toolset.py"))
    = "toolset" /\
  PyDict.get (loaded_mods (hdl (__init__ toolset_plain fresh_interp))) "toolset" = None /\
  ~ In (PyPath.joinpath modules_dir "toolset.py", "syntax_error")
      (rejected_modules (hdl (__init__ toolset_plain fresh_interp))).
Proof.
  split; [reflexivity|].
  destruct (toolset_candidate_skipped toolset_plain
              (PyPath.joinpath modules_dir "toolset.py") eq_refl)
    as (_ & Hinit & _).
  destruct (Hinit fresh_interp) as (_ & H2 & H3).
  split; [exact H2|].
  apply H3; [reflexivity | intros p; reflexivity].
Defined.

(** ** Single-module reload: failure *)



(** C1.  The re-execution of a loaded module runs in the loaded module
    object itself.  [alpha.py], loaded with [foo] and [bar], is edited so
    that it rebinds [foo] and then raises [RuntimeError]: the reload
    returns the failure with the note that the old version of the module is
    still loaded, and the registry is as before, its [foo] bound to the
    old function; but the loaded module is not the old version: its [foo]
    is the new function, which the registry does not hold. *)
Theorem failed_reload_changes_module :
  PyDict.get (loaded_mods (hdl (__init__ alpha_v1 fresh_interp))) "alpha" = Some 0 /\
  fst (reload_module alpha_broken "alpha" (__init__ alpha_v1 fresh_interp)) =
    ReloadFailed "Failed to reload 'alpha'"
      (format_exception alpha_broken (Exn "RuntimeError" "boom"))
      "Old version of module is still loaded" /\
  registry (hdl (snd (reload_module alpha_broken "alpha"
                        (__init__ alpha_v1 fresh_interp)))) =
    registry (hdl (__init__ alpha_v1 fresh_interp)) /\
  option_map function
    (PyDict.get (registry (hdl (snd (reload_module alpha_broken "alpha"
                                       (__init__ alpha_v1 fresh_interp))))) "foo") =
    Some (fn 3 "old foo") /\
  PyDict.get (mod_ns (heap (py (__init__ alpha_v1 fresh_interp)) 0)) "foo" =
    Some (fn 3 "old foo") /\
  PyDict.get (loaded_mods (hdl (snd (reload_module alpha_broken "alpha"
                                       (__init__ alpha_v1 fresh_interp))))) "alpha" =
    Some 0 /\
  PyDict.get
    (mod_ns (heap (py (snd (reload_module alpha_broken "alpha"
                              (__init__ alpha_v1 fresh_interp)))) 0)) "foo" =
    Some (fn 30 "new foo") /\
  heap (py (snd (reload_module alpha_broken "alpha" (__init__ alpha_v1 fresh_interp)))) 0
    <> heap (py (__init__ alpha_v1 fresh_interp)) 0.
Proof.
  repeat split; try (vm_compute; reflexivity).
  intros H. apply (f_equal (fun m => PyDict.get (mod_ns m) "foo")) in H.
  vm_compute in H. discriminate.
Qed.

(** ** Which names are registered *)

Section Extraction.







End Extraction.


(** ** Single-module reload: success *)

Section DictUniqueKeys.

Context {V : Type}.
Implicit Types d : PyDict.t V.

Lemma keys_setitem_eq d k v :
  PyDict.keys (PyDict.setitem d k v) =
  if PyDict.mem d k then PyDict.keys d else (PyDict.keys d ++ [k])%list.
Proof.
  unfold PyDict.mem. induction d as [|[k0 v0] d IH]; simpl; [reflexivity|].
  destruct (String.eqb_spec k0 k) as [->|Hne]; simpl; [reflexivity|].
  rewrite IH. destruct (PyDict.get d k); reflexivity.
Qed.

Lemma nodup_keys_setitem d k v :
  NoDup (PyDict.keys d) -> NoDup (PyDict.keys (PyDict.setitem d k v)).
Proof.
  intros Hnd. rewrite keys_setitem_eq.
  destruct (PyDict.mem d k) eqn:E; [assumption|].
  apply NoDup_app; [assumption | repeat constructor; intros [] |].
  intros x Hx [<-|[]]. apply mem_in_keys in Hx. congruence.
Qed.

Lemma keys_delitem_eq d k :
  PyDict.keys (PyDict.delitem d k) =
  filter (fun x => negb (x =? k)) (PyDict.keys d).
Proof.
  induction d as [|[k0 v0] d IH]; simpl; [reflexivity|].
  destruct (k0 =? k); simpl; now rewrite IH.
Qed.

Lemma nodup_keys_delitem d k :
  NoDup (PyDict.keys d) -> NoDup (PyDict.keys (PyDict.delitem d k)).
Proof. intros Hnd. rewrite keys_delitem_eq. now apply NoDup_filter. Qed.



End DictUniqueKeys.

Section ReloadSuccess.

Lemma in_tools_of m (reg : PyDict.t ToolEntry) k :
  In k (tools_of m reg) <-> exists e, In (k, e) reg /\ source_module e = m.
Proof.
  unfold tools_of, PyDict.keys. rewrite in_map_iff. split.
  - intros ([k0 e] & <- & Hin). apply filter_In in Hin. simpl in *.
    exists e. split; [tauto|]. now apply String.eqb_eq.
  - intros (e & Hin & Hm). exists (k, e). split; [reflexivity|].
    apply filter_In. split; [exact Hin|]. simpl. now apply String.eqb_eq.
Qed.

Lemma in_remove_tools old (reg : PyDict.t ToolEntry) p :
  In p (remove_tools old reg) <-> In p reg /\ ~ In (fst p) old.
Proof.
  unfold remove_tools. revert reg.
  induction old as [|k old IH]; intros reg; simpl; [tauto|].
  rewrite IH, in_delitem. split.
  - intros [[H1 H2] H3]. split; [exact H1|]. intros [H|H]; [congruence | auto].
  - intros [H1 H2]. repeat split; auto.
Qed.

Lemma nodup_remove_tools old (reg : PyDict.t ToolEntry) :
  NoDup (PyDict.keys reg) -> NoDup (PyDict.keys (remove_tools old reg)).
Proof.
  unfold remove_tools. revert reg.
  induction old as [|k old IH]; intros reg Hnd; simpl; [assumption|].
  apply IH. now apply nodup_keys_delitem.
Qed.








(** What a reload does when the module's code runs to its end. *)
Lemma reload_module_success w m rt tmod p ns' :
  PyDict.get (loaded_mods (hdl rt)) m = Some tmod ->
  find_module_file w (valid_dirs (hdl rt)) m = Some p ->
  has_loader w p = true ->
  run_code w p (mod_ns (heap (py rt) tmod)) = (ns', None) ->
  let old := tools_of m (registry (hdl rt)) in
  let h2 := register_module (filter (eligible_on_reload w) (dir ns')) m ns'
              (with_registry (hdl rt) (remove_tools old (registry (hdl rt)))) in
  let new := tools_of m (registry h2) in
  hdl (snd (reload_module w m rt)) = h2 /\
  fst (reload_module w m rt) =
    Reloaded m (set_minus new old) (set_minus old new)
      (match set_minus new old, set_minus old new with
       | [], [] => None
       | _, _ => Some "Consider reload_all() to rebuild collision detection"
       end).
Proof.
  intros Hl Hf Hs Hr old h2 new.
  unfold reload_module, reload_attempt, exec_module.
  rewrite Hl, Hf, Hs, Hr. simpl. rewrite Nat.eqb_refl. simpl.
  split; reflexivity.
Qed.

End ReloadSuccess.

Section DroppedTool.

Variables (w : World) (m : string) (rt : Runtime) (tmod : addr) (p : path).
Variables (ns' : PyDict.t pyobj) (d : string).

Let reg := registry (hdl rt).
Let names' := filter (eligible_on_reload w) (dir ns').
Let old := tools_of m reg.
Let reg1 := remove_tools old reg.
Let reg2 := fresh_entries names' m ns' reg1.

Hypothesis unique_keys : NoDup (PyDict.keys reg).
Hypothesis own_suffixed :
  forall key e, In (key, e) reg -> source_module e = m ->
                key = suffixed (original_name e) m.
Hypothesis one_fewer :
  forall x, (exists key e, In (key, e) reg /\ source_module e = m /\
                           original_name e = x) <->
            (x = d \/ In x names').
Hypothesis dropped : ~ In d names'.
Hypothesis tracked : forall x, In x names' -> In x (PyDict.keys (_name_tracker (hdl rt))).
Hypothesis bare_free : forall x, In x names' -> ~ In x (PyDict.keys reg).













End DroppedTool.



(** ** What a registration pass writes *)

Section RegistrationPass.




End RegistrationPass.



(** ** Further properties of startup and of failed reloads *)

Lemma init_keeps_validation_rejections w i x :
  In x (flat_map (rejection_of w (startup_dirs w)) (discover w (startup_dirs w))) ->
  In x (rejected_modules (hdl (__init__ w i))).
Proof.
  unfold __init__, construct. set (h2 := validate_all w _).
  assert (Hrej2 : rejected_modules h2 =
                  flat_map (rejection_of w (startup_dirs w))
                    (discover w (startup_dirs w)))
    by (unfold h2; now rewrite validate_all_shape).
  rewrite <- Hrej2. revert x.
  apply load_loop_inv with (mods := okmods h2)
    (HInv := fun h => forall x, In x (rejected_modules h2) ->
                                In x (rejected_modules h)).
  - intros h p e _ H x Hx. unfold reject. cbn [rejected_modules with_rejected].
    apply in_or_app. left. auto.
  - intros h p a _ H. exact H.
  - intros names ns h p _ _ H x Hx.
    destruct (register_module_frame names (PyPath.stem p) ns h)
      as (_ & F & _). rewrite F. auto.
  - apply incl_refl.
  - intros x Hx. exact Hx.
Qed.

(** [alpha] of the two-module run is loaded from [modules/alpha.py]. *)
Lemma startup_loads_only_under_roots_witness :
  In ("alpha", 0) (loaded_mods (hdl (__init__ two_modules fresh_interp))) /\
  is_valid_path (valid_dirs (hdl (__init__ two_modules fresh_interp)))
    (mod_file (heap (py (__init__ two_modules fresh_interp)) 0)) = true.
Proof.
  assert (H : In ("alpha", 0) (loaded_mods (hdl (__init__ two_modules fresh_interp))))
    by (vm_compute; left; reflexivity).
  split; [exact H|].
  exact (startup_loads_only_under_roots two_modules fresh_interp "alpha" 0 H).
Defined.


(** X3.  A candidate under a root whose source does not parse is recorded
    at startup with the reason [syntax_error] and is not among the accepted
    modules, so nothing of it is executed or registered. *)
Theorem syntax_error_is_rejected (w : World) (i : Interp) (raw : path) :
  In raw (discover w (startup_dirs w)) ->
  is_valid_path (startup_dirs w) (resolve w raw) = true ->
  PyPath.stem (resolve w raw) <> "toolset" ->
  read_and_parse w (resolve w raw) = SyntaxErrorRaised ->
  In (raw, "syntax_error") (rejected_modules (hdl (__init__ w i))) /\
  ~ In (resolve w raw) (okmods (hdl (__init__ w i))).
Proof.
  intros Hraw Hv Hs Hp. split.
  - apply init_keeps_validation_rejections. apply in_flat_map.
    exists raw. split; [exact Hraw|].
    unfold rejection_of. rewrite Hv. simpl.
    destruct (String.eqb_spec (PyPath.stem (resolve w raw)) "toolset");
      [contradiction|].
    rewrite Hp. now left.
  - destruct (init_lists w i) as (_ & _ & Hok). rewrite Hok.
    intros Hin. apply in_flat_map in Hin. destruct Hin as (raw' & _ & Hacc).
    apply accepted_of_spec in Hacc. destruct Hacc as (_ & _ & _ & Hsrc).
    congruence.
Qed.

Lemma syntax_error_is_rejected_witness :
  read_and_parse one_syntax_error (PyPath.joinpath modules_dir "broken.py")
    = SyntaxErrorRaised /\
  In (PyPath.joinpath modules_dir "broken.py", "syntax_error")
     (rejected_modules (hdl (__init__ one_syntax_error fresh_interp))).
Proof.
  split; [reflexivity|].
  refine (proj1 (syntax_error_is_rejected one_syntax_error fresh_interp
                   (PyPath.joinpath modules_dir "broken.py") _ _ _ _)).
  - vm_compute. left. reflexivity.
  - reflexivity.
  - vm_compute. discriminate.
  - reflexivity.
Defined.

(** * Further properties of the handler *)

(** ** Invariants kept by every load path *)

Section ReloadModuleInvariant.

Variable w : World.
Variable m : string.
Variable HInv : ProxyHandler -> Prop.

Hypothesis HInv_step :
  forall h names ns tmod,
    PyDict.get (loaded_mods h) m = Some tmod ->
    (forall n, In n names -> eligible_on_reload w n = true) ->
    HInv h ->
    HInv (register_module names m ns
            (with_registry h (remove_tools (tools_of m (registry h)) (registry h)))).

Lemma reload_module_inv rt :
  HInv (hdl rt) -> HInv (hdl (snd (reload_module w m rt))).
Proof.
  intros Hinv. unfold reload_module.
  destruct (PyDict.get (loaded_mods (hdl rt)) m) as [tmod|] eqn:Hl; [|exact Hinv].
  assert (H : HInv (hdl (snd (reload_attempt w m tmod
                                (tools_of m (registry (hdl rt))) rt)))).
  { unfold reload_attempt.
    destruct (find_module_file w (valid_dirs (hdl rt)) m) as [mod_path|];
      [|exact Hinv].
    destruct (negb (has_loader w mod_path)); [exact Hinv|].
    destruct (exec_module w mod_path tmod (py rt)) as [[u|e] i]; simpl;
      [|exact Hinv].
    apply HInv_step with tmod; [exact Hl | | exact Hinv].
    intros n Hn. now apply filter_In in Hn. }
  destruct (reload_attempt w m tmod (tools_of m (registry (hdl rt))) rt)
    as [[[added removed]|e] rt']; [exact H|].
  destruct (exc_is_exception e); exact H.
Qed.

End ReloadModuleInvariant.

Section StartInvariant.

Variable HInv : ProxyHandler -> Prop.

Hypothesis HInv_reject : forall h p r, HInv h -> HInv (reject h p r).
Hypothesis HInv_loaded_register :
  forall h names ns M a,
    HInv h -> HInv (register_module names M ns (set_loaded h M a)).
Hypothesis HInv_start :
  forall h, registry h = [] -> _name_tracker h = [] -> loaded_mods h = [] -> HInv h.

Lemma start_state_blank w h :
  registry h = [] -> _name_tracker h = [] -> loaded_mods h = [] ->
  registry (validate_all w h) = [] /\ _name_tracker (validate_all w h) = [] /\
  loaded_mods (validate_all w h) = [].
Proof. intros H1 H2 H3. rewrite validate_all_shape. simpl. auto. Qed.

Lemma load_one_start_inv w rt p :
  HInv (hdl rt) -> HInv (hdl (snd (load_one w rt p))).
Proof.
  intros Hinv. unfold load_one.
  destruct (fresh_import w (PyPath.stem p) p (py rt)) as [[[a|]|e] i]; simpl.
  - now apply HInv_loaded_register.
  - exact Hinv.
  - destruct (exc_is_exception e); simpl; [now apply HInv_reject | exact Hinv].
Qed.

Lemma init_start_inv w i : HInv (hdl (__init__ w i)).
Proof.
  unfold __init__, construct. set (h2 := validate_all w _).
  assert (H2 : HInv h2).
  { unfold h2. apply HInv_start; now rewrite validate_all_shape. }
  generalize (okmods h2). intros l.
  assert (Hgen : forall rt, HInv (hdl rt) -> HInv (hdl (snd (load_loop w l rt)))).
  { induction l as [|p l IH]; intros rt Hrt; simpl; [exact Hrt|].
    pose proof (load_one_start_inv w rt p Hrt) as H1.
    destruct (load_one w rt p) as [[u|e] rt1]; simpl in *;
      [now apply IH | exact H1]. }
  now apply Hgen.
Qed.

Lemma reload_one_start_inv w rt p :
  HInv (hdl rt) -> HInv (hdl (snd (reload_one w rt p))).
Proof.
  intros Hinv. unfold reload_one.
  destruct (load_for_reload w (PyPath.stem p) p (py rt)) as [[[a|]|e] i]; simpl.
  - now apply HInv_loaded_register.
  - exact Hinv.
  - exact Hinv.
Qed.

Lemma reload_all_start_inv w rt : HInv (hdl (snd (reload_all_modules w rt))).
Proof.
  rewrite reload_all_snd. set (h2 := validate_all w _).
  assert (H2 : HInv h2).
  { unfold h2. apply HInv_start; now rewrite validate_all_shape. }
  generalize (okmods h2). intros l.
  assert (Hgen : forall rt0, HInv (hdl rt0) -> HInv (hdl (snd (reload_loop w l rt0)))).
  { induction l as [|p l IH]; intros rt0 Hrt; simpl; [exact Hrt|].
    pose proof (reload_one_start_inv w rt0 p Hrt) as H1.
    destruct (reload_one w rt0 p) as [[u|e] rt1]; simpl in *; [now apply IH | exact H1]. }
  now apply Hgen.
Qed.

End StartInvariant.

Section RegistryConsistency.

Lemma get_remove_tools_some old (reg : PyDict.t ToolEntry) key e :
  PyDict.get (remove_tools old reg) key = Some e -> PyDict.get reg key = Some e.
Proof.
  unfold remove_tools. revert reg.
  induction old as [|k old IH]; intros reg; simpl; [auto|].
  intros H. apply IH in H. rewrite get_delitem in H.
  destruct (k =? key); [discriminate | exact H].
Qed.

Lemma rename_first_bare n hist h :
  bare_unless_flagged h -> bare_unless_flagged (rename_first n hist h).
Proof.
  intros Hinv. unfold rename_first. destruct (hist_first hist) as [fm ft].
  destruct ((ft =? n) && PyDict.mem (registry h) n); [|assumption].
  destruct (PyDict.get (registry h) n) as [popped|] eqn:E; [|assumption].
  intros key e. simpl.
  rewrite get_modify, !get_setitem, String.eqb_refl, get_delitem. simpl.
  destruct (suffixed n fm =? key).
  - intros [= <-] Hf. discriminate.
  - destruct (n =? key); [discriminate|]. apply Hinv.
Qed.

Lemma register_bare n M fn h :
  bare_unless_flagged h -> bare_unless_flagged (_register_tool n M fn h).
Proof.
  intros Hinv. unfold _register_tool.
  destruct (PyDict.get (_name_tracker h) n) as [hist|].
  - intros key e. simpl. rewrite get_setitem.
    destruct (suffixed n M =? key).
    + intros [= <-] Hf. discriminate.
    + now apply rename_first_bare.
  - intros key e. simpl. rewrite get_setitem.
    destruct (String.eqb_spec n key) as [<-|Hne].
    + intros [= <-] _. reflexivity.
    + apply Hinv.
Qed.

Lemma register_module_bare names M ns h :
  bare_unless_flagged h -> bare_unless_flagged (register_module names M ns h).
Proof.
  unfold register_module. revert h.
  induction names as [|n names IH]; intros h Hinv; simpl; [assumption|].
  apply IH. destruct (PyDict.get ns n); [now apply register_bare | assumption].
Qed.

Lemma register_tracker_keys_iff n M fn h x :
  In x (PyDict.keys (_name_tracker (_register_tool n M fn h))) <->
  x = n \/ In x (PyDict.keys (_name_tracker h)).
Proof.
  split; [apply register_tracker_keys|].
  unfold _register_tool.
  destruct (PyDict.get (_name_tracker h) n) as [hist|] eqn:E; simpl.
  - intros Hx. apply keys_modify.
    assert (Hn : In n (PyDict.keys (_name_tracker h)))
      by (apply in_keys_get; congruence).
    assert (Hx' : In x (PyDict.keys (_name_tracker h)))
      by (destruct Hx as [->|Hx]; assumption).
    unfold rename_first. destruct (hist_first hist) as [fm ft].
    destruct ((ft =? n) && PyDict.mem (registry h) n); [|assumption].
    destruct (PyDict.get (registry h) n); [|assumption].
    simpl. apply keys_setitem. now right.
  - intros [->|Hx]; apply keys_setitem; auto.
Qed.

Lemma register_names_tracked n M fn h :
  names_tracked h -> names_tracked (_register_tool n M fn h).
Proof.
  intros Hinv.
  apply (register_reg_all
           (fun e => In (original_name e)
                       (PyDict.keys (_name_tracker (_register_tool n M fn h))))).
  - intros e He. exact He.
  - intros c. simpl. apply register_tracker_keys_iff. now left.
  - intros key e Hin. apply register_tracker_keys_iff. right.
    eapply Hinv; eassumption.
Qed.

Lemma register_module_names_tracked names M ns h :
  names_tracked h -> names_tracked (register_module names M ns h).
Proof.
  unfold register_module. revert h.
  induction names as [|n names IH]; intros h Hinv; simpl; [assumption|].
  apply IH. destruct (PyDict.get ns n); [now apply register_names_tracked | assumption].
Qed.

Lemma register_sources_loaded n M fn h :
  In M (PyDict.keys (loaded_mods h)) ->
  sources_loaded h -> sources_loaded (_register_tool n M fn h).
Proof.
  intros HM Hinv.
  destruct (register_frame n M fn h) as (_ & _ & _ & _ & F).
  unfold sources_loaded. rewrite F.
  apply (register_reg_all
           (fun e => In (source_module e) (PyDict.keys (loaded_mods h)))).
  - intros e He. exact He.
  - intros c. exact HM.
  - exact Hinv.
Qed.

Lemma register_module_sources_loaded names M ns h :
  In M (PyDict.keys (loaded_mods h)) ->
  sources_loaded h -> sources_loaded (register_module names M ns h).
Proof.
  unfold register_module. revert h.
  induction names as [|n names IH]; intros h HM Hinv; simpl; [assumption|].
  assert (Hstep : In M (PyDict.keys (loaded_mods
                    (match PyDict.get ns n with
                     | Some fn => _register_tool n M fn h
                     | None => h
                     end))) /\
                  sources_loaded (match PyDict.get ns n with
                                  | Some fn => _register_tool n M fn h
                                  | None => h
                                  end)).
  { destruct (PyDict.get ns n) as [fn|]; [|auto]. split.
    - destruct (register_frame n M fn h) as (_ & _ & _ & _ & F). now rewrite F.
    - now apply register_sources_loaded. }
  destruct Hstep. now apply IH.
Qed.

End RegistryConsistency.

(** X4.  On every load path a tool whose collision flag is off sits under
    its bare original name: [_register_tool] keeps this, it holds after
    startup and after a full reload, and a single-module reload keeps
    it. *)
Theorem unflagged_tools_are_bare :
  (forall n M fn h,
     bare_unless_flagged h -> bare_unless_flagged (_register_tool n M fn h)) /\
  (forall w i, bare_unless_flagged (hdl (__init__ w i))) /\
  (forall w rt, bare_unless_flagged (hdl (snd (reload_all_modules w rt)))) /\
  (forall w m rt,
     bare_unless_flagged (hdl rt) ->
     bare_unless_flagged (hdl (snd (reload_module w m rt)))).
Proof.
  assert (Hstart : forall h, registry h = [] -> bare_unless_flagged h).
  { intros h Hr key e. rewrite Hr. discriminate. }
  split; [exact register_bare|]. split; [|split].
  - intros w i. apply init_start_inv; auto.
    intros h names ns M a Hinv. now apply register_module_bare.
  - intros w rt. apply reload_all_start_inv; auto.
    intros h names ns M a Hinv. now apply register_module_bare.
  - intros w m rt. apply reload_module_inv.
    intros h names ns tmod _ _ Hinv. apply register_module_bare.
    intros key e Hget. simpl in Hget. apply get_remove_tools_some in Hget.
    now apply Hinv.
Qed.

(** After startup on the two modules and a reload of [alpha]. *)
Lemma unflagged_tools_are_bare_witness :
  bare_unless_flagged (hdl (__init__ two_modules fresh_interp)) /\
  bare_unless_flagged
    (hdl (snd (reload_module two_modules "alpha" (__init__ two_modules fresh_interp)))).
Proof.
  split.
  - apply (proj1 (proj2 unflagged_tools_are_bare)).
  - apply (proj2 (proj2 (proj2 unflagged_tools_are_bare))).
    apply (proj1 (proj2 unflagged_tools_are_bare)).
Defined.

(** X5.  The name tracker knows the original name of every registered
    tool, and the loaded-module table holds the module of every registered
    tool: both hold after startup and after a full reload, a single-module
    reload keeps them, and [_register_tool] keeps the first for any call
    and the second for a call on behalf of a loaded module. *)
Theorem registry_refers_to_tracked_names_and_loaded_modules :
  (forall n M fn h, names_tracked h -> names_tracked (_register_tool n M fn h)) /\
  (forall n M fn h,
     In M (PyDict.keys (loaded_mods h)) ->
     sources_loaded h -> sources_loaded (_register_tool n M fn h)) /\
  (forall w i, names_tracked (hdl (__init__ w i)) /\
               sources_loaded (hdl (__init__ w i))) /\
  (forall w rt, names_tracked (hdl (snd (reload_all_modules w rt))) /\
                sources_loaded (hdl (snd (reload_all_modules w rt)))) /\
  (forall w m rt,
     names_tracked (hdl rt) /\ sources_loaded (hdl rt) ->
     names_tracked (hdl (snd (reload_module w m rt))) /\
     sources_loaded (hdl (snd (reload_module w m rt)))).
Proof.
  assert (Hstep : forall h names ns M a,
            names_tracked h /\ sources_loaded h ->
            names_tracked (register_module names M ns (set_loaded h M a)) /\
            sources_loaded (register_module names M ns (set_loaded h M a))).
  { intros h names ns M a [Ht Hs]. split.
    - apply register_module_names_tracked. exact Ht.
    - apply register_module_sources_loaded.
      + simpl. apply keys_setitem. now left.
      + intros key e Hin. simpl. apply keys_setitem. right.
        eapply Hs; eassumption. }
  assert (Hstart : forall h, registry h = [] ->
                             names_tracked h /\ sources_loaded h).
  { intros h Hr. split; intros key e Hin; rewrite Hr in Hin; contradiction. }
  split; [exact register_names_tracked|].
  split; [exact register_sources_loaded|]. split; [|split].
  - intros w i.
    apply (init_start_inv (fun h => names_tracked h /\ sources_loaded h)); auto.
  - intros w rt.
    apply (reload_all_start_inv (fun h => names_tracked h /\ sources_loaded h)); auto.
  - intros w m rt.
    apply (reload_module_inv w m (fun h => names_tracked h /\ sources_loaded h)).
    intros h names ns tmod Hl _ [Ht Hs]. split.
    + apply register_module_names_tracked.
      intros key e Hin. simpl in *. apply remove_tools_subset in Hin.
      eapply Ht; eassumption.
    + apply register_module_sources_loaded.
      * simpl. apply in_keys_get. congruence.
      * intros key e Hin. simpl in *. apply remove_tools_subset in Hin.
        eapply Hs; eassumption.
Qed.

(** After startup on the two modules and a reload of [alpha]. *)
Lemma registry_refers_to_tracked_names_and_loaded_modules_witness :
  names_tracked
    (hdl (snd (reload_module two_modules "alpha" (__init__ two_modules fresh_interp)))) /\
  sources_loaded
    (hdl (snd (reload_module two_modules "alpha" (__init__ two_modules fresh_interp)))).
Proof.
  apply (proj2 (proj2 (proj2 (proj2
           registry_refers_to_tracked_names_and_loaded_modules)))).
  apply (proj1 (proj2 (proj2 registry_refers_to_tracked_names_and_loaded_modules))).
Defined.

(** ** The history of a name never shrinks *)

Section HistoryPermanence.

Lemma history_continues_refl h x : history_continues h h x.
Proof.
  intros hist H. exists hist. repeat split; auto.
  exists []. now rewrite app_nil_r.
Qed.

Lemma history_continues_same h h' x :
  PyDict.get (_name_tracker h') x = PyDict.get (_name_tracker h) x ->
  history_continues h h' x.
Proof.
  intros Heq hist H. exists hist. rewrite Heq. repeat split; auto.
  exists []. now rewrite app_nil_r.
Qed.

Lemma history_continues_trans h1 h2 h3 x :
  history_continues h1 h2 x -> history_continues h2 h3 x ->
  history_continues h1 h3 x.
Proof.
  intros H12 H23 hist H1.
  destruct (H12 hist H1) as (hist2 & G2 & F2 & K2 & later2 & R2).
  destruct (H23 hist2 G2) as (hist3 & G3 & F3 & K3 & later3 & R3).
  exists hist3. split; [exact G3|]. split; [congruence|]. split.
  - intros Hne. rewrite K3; [now apply K2|]. rewrite K2; assumption.
  - exists (later2 ++ later3)%list. rewrite R3, R2. now rewrite app_assoc.
Qed.

Lemma register_history_continues n M fn h x :
  history_continues h (_register_tool n M fn h) x.
Proof.
  destruct (String.eqb_spec n x) as [->|Hne].
  - intros hist H. unfold _register_tool. rewrite H. simpl.
    rewrite get_modify, String.eqb_refl.
    unfold rename_first. destruct (hist_first hist) as [fm ft] eqn:Ef.
    destruct ((ft =? x) && PyDict.mem (registry h) x) eqn:Ec.
    + destruct (PyDict.get (registry h) x) as [popped|].
      * simpl. rewrite get_setitem, String.eqb_refl. simpl.
        eexists. split; [reflexivity|]. simpl.
        apply andb_prop in Ec. destruct Ec as [Ec _].
        apply String.eqb_eq in Ec. subst ft.
        repeat split; [intros Hc; now elim Hc | eauto].
      * rewrite H. simpl. eexists. split; [reflexivity|]. simpl.
        rewrite Ef. repeat split; eauto.
    + rewrite H. simpl. eexists. split; [reflexivity|]. simpl.
      rewrite Ef. repeat split; eauto.
  - apply history_continues_same. now apply register_tracker_other.
Qed.

Lemma register_module_history_continues names M ns h x :
  history_continues h (register_module names M ns h) x.
Proof.
  unfold register_module. revert h.
  induction names as [|n names IH]; intros h; simpl;
    [apply history_continues_refl|].
  eapply history_continues_trans; [|apply IH].
  destruct (PyDict.get ns n);
    [apply register_history_continues | apply history_continues_refl].
Qed.

Lemma register_tracked_suffixed n M fn h :
  In n (PyDict.keys (_name_tracker h)) ->
  PyDict.get (registry (_register_tool n M fn h)) (suffixed n M) =
  Some (new_entry fn M n true).
Proof.
  intros Hin. apply in_keys_get in Hin. unfold _register_tool.
  destruct (PyDict.get (_name_tracker h) n); [|congruence].
  simpl. now rewrite get_setitem, String.eqb_refl.
Qed.

End HistoryPermanence.

(** X6.  The history of a tracked name is permanent until a full reload:
    a registration and a single-module reload keep every tracked name,
    keep the module of its first pair, keep its first tool name once that
    is suffixed, and only append later pairs.  So a name that is tracked is
    never registered under its bare key again: the next registration lands
    on the suffixed key with the collision flag on. *)
Theorem tracked_history_is_permanent :
  (forall n M fn h x, history_continues h (_register_tool n M fn h) x) /\
  (forall w m rt x,
     history_continues (hdl rt) (hdl (snd (reload_module w m rt))) x) /\
  (forall w m rt x,
     In x (PyDict.keys (_name_tracker (hdl rt))) ->
     In x (PyDict.keys (_name_tracker (hdl (snd (reload_module w m rt)))))) /\
  (forall n M fn h,
     In n (PyDict.keys (_name_tracker h)) ->
     PyDict.get (registry (_register_tool n M fn h)) (suffixed n M) =
       Some (new_entry fn M n true)).
Proof.
  assert (Hreload : forall w m rt x,
            history_continues (hdl rt) (hdl (snd (reload_module w m rt))) x).
  { intros w m rt x.
    apply (reload_module_inv w m (fun h' => history_continues (hdl rt) h' x));
      [|apply history_continues_refl].
    intros h names ns tmod _ _ Hinv.
    eapply history_continues_trans; [exact Hinv|].
    eapply history_continues_trans;
      [|apply register_module_history_continues].
    now apply history_continues_same. }
  split; [exact register_history_continues|]. split; [exact Hreload|].
  split; [|exact register_tracked_suffixed].
  intros w m rt x Hin. apply in_keys_get in Hin.
  destruct (PyDict.get (_name_tracker (hdl rt)) x) as [hist|] eqn:E; [|congruence].
  destruct (Hreload w m rt x hist E) as (hist' & G & _).
  apply in_keys_get. congruence.
Qed.

(** The name [foo] stays tracked through a reload of [alpha]. *)
Lemma tracked_history_is_permanent_witness :
  In "foo" (PyDict.keys (_name_tracker (hdl (__init__ two_modules fresh_interp)))) /\
  In "foo"
     (PyDict.keys
        (_name_tracker
           (hdl (snd (reload_module two_modules "alpha"
                        (__init__ two_modules fresh_interp)))))).
Proof.
  assert (H : In "foo" (PyDict.keys (_name_tracker
                (hdl (__init__ two_modules fresh_interp)))))
    by (vm_compute; right; left; reflexivity).
  split; [exact H|].
  exact (proj1 (proj2 (proj2 tracked_history_is_permanent))
           two_modules "alpha" (__init__ two_modules fresh_interp) "foo" H).
Defined.

(** ** Registration, dispatch and the frame of a single-module reload *)

(** X7.  A tool is reachable as soon as it is registered: the registry
    holds the new entry under the bare name when the name was not tracked
    and under [name_module] with the collision flag on otherwise, the last
    pair of the name's history records that key for the module, and
    [use_proxy_tool] with that key is the call of the registered object
    with the given keyword arguments: its result or exception, and the
    state as the call leaves it. *)
Theorem registered_tool_is_dispatched (w : World) (n M : string) (fn : pyobj)
  (h : ProxyHandler) (i : Interp) (kw : kwargs) :
  let tracked := PyDict.mem (_name_tracker h) n in
  let key := if tracked then suffixed n M else n in
  let h' := _register_tool n M fn h in
  PyDict.get (registry h') key = Some (new_entry fn M n tracked) /\
  (exists hist, PyDict.get (_name_tracker h') n = Some hist /\
                last (hist_rest hist) (hist_first hist) = (M, key)) /\
  use_proxy_tool w key kw {| hdl := h'; py := i |} =
    call_function w (obj_id fn) kw {| hdl := h'; py := i |}.
Proof.
  intros tracked key h'.
  assert (Hget : PyDict.get (registry h') key = Some (new_entry fn M n tracked)).
  { unfold h', key, tracked, _register_tool, PyDict.mem.
    destruct (PyDict.get (_name_tracker h) n) as [hist|]; simpl;
      now rewrite get_setitem, String.eqb_refl. }
  split; [exact Hget|]. split.
  - unfold h', key, tracked, _register_tool, PyDict.mem.
    destruct (PyDict.get (_name_tracker h) n) as [hist|] eqn:E; simpl.
    + rewrite get_modify, String.eqb_refl.
      assert (Hsome : exists t, PyDict.get (_name_tracker (rename_first n hist h)) n
                                = Some t).
      { unfold rename_first. destruct (hist_first hist) as [fm ft].
        destruct ((ft =? n) && PyDict.mem (registry h) n); [|eauto].
        destruct (PyDict.get (registry h) n); [|eauto].
        simpl. rewrite get_setitem, String.eqb_refl. eauto. }
      destruct Hsome as [t Ht]. rewrite Ht. simpl.
      eexists. split; [reflexivity|]. simpl. apply last_last.
    + rewrite get_setitem, String.eqb_refl. eexists. split; reflexivity.
  - unfold use_proxy_tool. cbn [hdl]. rewrite Hget. reflexivity.
Qed.

(** X8.  [reload_module] reports that a module is not loaded exactly when
    its name is not in the loaded-module table, and then changes nothing.
    Whatever its outcome, it never writes the loaded-module table, the
    rejection log, the candidate lists, the roots or [sys.modules], it
    creates no module object and it touches no module object but the one it
    reloads (the code of a module acts on the module's own namespace). *)
Theorem reload_module_frame (w : World) (m : string) (rt : Runtime) :
  (PyDict.get (loaded_mods (hdl rt)) m = None ->
   reload_module w m rt =
     (NotLoaded ("Module '" ++ m ++ "' not currently loaded"), rt)) /\
  ((exists msg, fst (reload_module w m rt) = NotLoaded msg) <->
   PyDict.get (loaded_mods (hdl rt)) m = None) /\
  loaded_mods (hdl (snd (reload_module w m rt))) = loaded_mods (hdl rt) /\
  rejected_modules (hdl (snd (reload_module w m rt))) = rejected_modules (hdl rt) /\
  okmods (hdl (snd (reload_module w m rt))) = okmods (hdl rt) /\
  raw_modules (hdl (snd (reload_module w m rt))) = raw_modules (hdl rt) /\
  valid_dirs (hdl (snd (reload_module w m rt))) = valid_dirs (hdl rt) /\
  sys_modules (py (snd (reload_module w m rt))) = sys_modules (py rt) /\
  next_addr (py (snd (reload_module w m rt))) = next_addr (py rt) /\
  (forall tmod a, PyDict.get (loaded_mods (hdl rt)) m = Some tmod -> a <> tmod ->
                  heap (py (snd (reload_module w m rt))) a = heap (py rt) a).
Proof.
  unfold reload_module.
  destruct (PyDict.get (loaded_mods (hdl rt)) m) as [tmod|] eqn:Hl.
  - assert (H : let r := reload_attempt w m tmod (tools_of m (registry (hdl rt))) rt in
                same_frame (hdl rt) (hdl (snd r)) /\
                sys_modules (py (snd r)) = sys_modules (py rt) /\
                next_addr (py (snd r)) = next_addr (py rt) /\
                (forall a, a <> tmod -> heap (py (snd r)) a = heap (py rt) a)).
    { unfold reload_attempt.
      destruct (find_module_file w (valid_dirs (hdl rt)) m) as [mod_path|];
        [|simpl; repeat split].
      destruct (negb (has_loader w mod_path)); [simpl; repeat split|].
      unfold exec_module.
      destruct (run_code w mod_path (mod_ns (heap (py rt) tmod))) as [ns' [e|]];
        simpl.
      - repeat split. intros a Ha. apply Nat.eqb_neq in Ha. now rewrite Ha.
      - rewrite Nat.eqb_refl.
        split; [|repeat split;
                 intros a Ha; apply Nat.eqb_neq in Ha; now rewrite Ha].
        eapply same_frame_trans; [|apply register_module_frame].
        repeat split. }
    cbv zeta in H.
    destruct (reload_attempt w m tmod (tools_of m (registry (hdl rt))) rt)
      as [[[added removed]|e] rt'];
      [|destruct (exc_is_exception e)];
      cbn [fst snd] in *;
      destruct H as ((F1 & F2 & F3 & F4 & F5) & S1 & S2 & S3);
      (split; [discriminate|]);
      (split; [split; [intros [msg Hm]; discriminate | discriminate]|]);
      repeat split; auto;
      try (intros t a [= <-] Ha; now apply S3).
  - split; [reflexivity|]. split; [split; simpl; eauto|].
    simpl. repeat split.
Qed.

Section FreshTools.

Variable w : World.
Variable m : string.
Variable ns : PyDict.t pyobj.

Lemma register_module_bound names h :
  (forall n, In n names -> eligible_on_reload w n = true) ->
  reg_all (bound_in_namespace w m ns) h ->
  reg_all (bound_in_namespace w m ns) (register_module names m ns h).
Proof.
  unfold register_module. revert h.
  induction names as [|n names IH]; intros h Hel Hall; simpl; [assumption|].
  apply IH; [intros; apply Hel; now right|].
  destruct (PyDict.get ns n) as [fn|] eqn:E; [|assumption].
  apply register_reg_all.
  - intros e He Hm. exact (He Hm).
  - intros c _. simpl. repeat split; [exact E | apply Hel; now left].
  - exact Hall.
Qed.

Lemma removed_tools_bound (reg : PyDict.t ToolEntry) h :
  registry h = remove_tools (tools_of m reg) reg ->
  reg_all (bound_in_namespace w m ns) h.
Proof.
  intros Hr key e Hin Hm. rewrite Hr in Hin. apply in_remove_tools in Hin.
  destruct Hin as [Hin Hnot]. exfalso. apply Hnot. simpl.
  apply in_tools_of. eauto.
Qed.

End FreshTools.



(** ** What becomes of the discovered candidates *)

Lemma discover_under_root w dirs raw :
  (forall d, In d dirs -> has_magic d = false) ->
  In raw (discover w dirs) -> is_valid_path dirs raw = true.
Proof.
  unfold discover, is_valid_path. intros Hplain H.
  apply in_flat_map in H. destruct H as (d & Hd & Hraw).
  unfold glob_py in Hraw. rewrite (Hplain d Hd) in Hraw.
  apply in_map_iff in Hraw.
  destruct Hraw as (n & <- & _).
  apply existsb_exists. exists d. split; [exact Hd|].
  apply is_prefix_app.
Qed.

Lemma rejection_of_reason w dirs raw q r :
  In (q, r) (rejection_of w dirs raw) ->
  q = raw /\ validation_reason r /\ accepted_of w dirs raw = [].
Proof.
  intros H. pose proof (rejection_of_spec w dirs raw q r H) as [-> Hcase].
  split; [reflexivity|]. unfold validation_reason, accepted_of.
  destruct Hcase as [[Hv ->]|(Hv & Hs & [[Hr ->]|(e & Hr & ->)])].
  - rewrite Hv. simpl. auto.
  - rewrite Hv. apply String.eqb_neq in Hs. rewrite Hs, Hr. simpl. auto.
  - rewrite Hv. apply String.eqb_neq in Hs. rewrite Hs, Hr. simpl. eauto.
Qed.

Lemma candidate_fate w dirs raw :
  accepted_of w dirs raw = [resolve w raw] /\ rejection_of w dirs raw = [] \/
  (exists r, validation_reason r /\
             rejection_of w dirs raw = [(raw, r)] /\ accepted_of w dirs raw = []) \/
  (is_valid_path dirs (resolve w raw) = true /\
   PyPath.stem (resolve w raw) = "toolset" /\
   accepted_of w dirs raw = [] /\ rejection_of w dirs raw = []).
Proof.
  unfold accepted_of, rejection_of, validation_reason.
  destruct (is_valid_path dirs (resolve w raw)); simpl.
  - destruct (String.eqb_spec (PyPath.stem (resolve w raw)) "toolset") as [Hs|Hs].
    + right. right. auto.
    + destruct (read_and_parse w (resolve w raw)) as [| |detail].
      * left. auto.
      * right. left. eexists. split; [|split; reflexivity]. auto.
      * right. left. eexists. split; [|split; reflexivity]. eauto.
  - right. left. eexists. split; [|split; reflexivity]. auto.
Qed.

(** Two candidates with the same resolved path have the same fate. *)
Lemma accepted_of_same_target w dirs raw raw' :
  resolve w raw = resolve w raw' ->
  accepted_of w dirs raw = accepted_of w dirs raw'.
Proof. intros H. unfold accepted_of. now rewrite H. Qed.

Lemma rejected_not_accepted w dirs raws q r :
  In (q, r) (flat_map (rejection_of w dirs) raws) ->
  In q raws /\ validation_reason r /\
  ~ In (resolve w q) (flat_map (accepted_of w dirs) raws).
Proof.
  intros H. apply in_flat_map in H. destruct H as (raw & Hraw & Hin).
  apply rejection_of_reason in Hin. destruct Hin as (-> & Hr & Hnil).
  split; [exact Hraw|]. split; [exact Hr|].
  intros Hacc. apply in_flat_map in Hacc. destruct Hacc as (raw' & _ & Hacc).
  pose proof Hacc as Hacc'. apply accepted_of_spec in Hacc'.
  destruct Hacc' as (Heq & _).
  rewrite <- (accepted_of_same_target w dirs raw raw' Heq) in Hacc.
  rewrite Hnil in Hacc. contradiction.
Qed.

Lemma candidates_accounted w dirs raws raw :
  In raw raws ->
  In (resolve w raw) (flat_map (accepted_of w dirs) raws) \/
  (exists r, validation_reason r /\
             In (raw, r) (flat_map (rejection_of w dirs) raws)) \/
  (is_valid_path dirs (resolve w raw) = true /\
   PyPath.stem (resolve w raw) = "toolset").
Proof.
  intros Hraw.
  destruct (candidate_fate w dirs raw)
    as [[Ha _]|[(r & Hr & Hrej & _)|(Hv & Hs & _)]].
  - left. apply in_flat_map. exists raw. split; [exact Hraw|].
    rewrite Ha. now left.
  - right. left. exists r. split; [exact Hr|].
    apply in_flat_map. exists raw. split; [exact Hraw|].
    rewrite Hrej. now left.
  - right. right. auto.
Qed.

(** X10.  Every candidate that discovery finds is accounted for: its
    resolved path is among the accepted modules, or it is in the rejection
    log with one of the three validation reasons, or it is a [toolset] file
    under a root and is skipped.  Of what [list_rejected_modules] returns
    after startup, each entry is either such a validation entry, of a
    candidate that was not accepted, or an [import_error] entry of an
    accepted module; after [reload_all_modules] it returns validation
    entries only. *)
Theorem every_candidate_is_accounted_for (w : World) :
  (forall i raw,
     In raw (raw_modules (hdl (__init__ w i))) ->
     In (resolve w raw) (okmods (hdl (__init__ w i))) \/
     (exists r, validation_reason r /\
                In (raw, r) (rejected_modules (hdl (__init__ w i)))) \/
     (is_valid_path (startup_dirs w) (resolve w raw) = true /\
      PyPath.stem (resolve w raw) = "toolset")) /\
  (forall i q r,
     In (q, r) (list_rejected_modules (__init__ w i)) ->
     (In q (raw_modules (hdl (__init__ w i))) /\ validation_reason r /\
      ~ In (resolve w q) (okmods (hdl (__init__ w i)))) \/
     (In q (okmods (hdl (__init__ w i))) /\ import_reason r)) /\
  (forall rt raw,
     In raw (raw_modules (hdl (snd (reload_all_modules w rt)))) ->
     In (resolve w raw) (okmods (hdl (snd (reload_all_modules w rt)))) \/
     (exists r, validation_reason r /\
                In (raw, r) (rejected_modules (hdl (snd (reload_all_modules w rt))))) \/
     (is_valid_path (valid_dirs (hdl rt)) (resolve w raw) = true /\
      PyPath.stem (resolve w raw) = "toolset")) /\
  (forall rt q r,
     In (q, r) (list_rejected_modules (snd (reload_all_modules w rt))) ->
     In q (raw_modules (hdl (snd (reload_all_modules w rt)))) /\
     validation_reason r /\ ~ import_reason r /\
     ~ In (resolve w q) (okmods (hdl (snd (reload_all_modules w rt))))).
Proof.
  unfold list_rejected_modules. split; [|split; [|split]].
  - intros i raw. destruct (init_lists w i) as (_ & -> & ->). intros Hraw.
    destruct (candidates_accounted w (startup_dirs w) _ raw Hraw)
      as [H|[(r & Hr & H)|H]]; auto.
    right. left. exists r. split; [exact Hr|].
    now apply init_keeps_validation_rejections.
  - intros i q r Hin. apply init_rejections in Hin.
    destruct (init_lists w i) as (_ & -> & ->).
    destruct Hin as [Hin|[Hok Himp]].
    + left. now apply rejected_not_accepted.
    + right. split; [|exact Himp].
      destruct (init_lists w i) as (_ & _ & Hokeq). now rewrite <- Hokeq.
  - intros rt raw. destruct (reload_all_lists w rt) as (_ & -> & -> & ->).
    apply candidates_accounted.
  - intros rt q r. destruct (reload_all_lists w rt) as (_ & -> & -> & ->).
    intros Hin. apply rejected_not_accepted in Hin.
    destruct Hin as (Hq & Hr & Hno). repeat split; auto.
    intros (e & He). destruct Hr as [->|[->|(d & ->)]]; discriminate.
Qed.

(** X11.  When the path of no root holds a pattern character (a star, a
    question mark or an opening bracket), a match of [glob] lies under the
    root it was found in, so the path check can fail only where resolving
    the candidate leads elsewhere: a [path_traversal_attempt] entry of the
    log, at startup or after a full reload, names a discovered candidate
    that is not its own resolved path and whose resolved path is under no
    root. *)
Theorem path_check_fires_only_through_links (w : World) :
  (forall dirs raw,
     (forall d, In d dirs -> has_magic d = false) ->
     In raw (discover w dirs) -> is_valid_path dirs raw = true) /\
  (forall i q,
     (forall d, In d (startup_dirs w) -> has_magic d = false) ->
     In (q, "path_traversal_attempt") (rejected_modules (hdl (__init__ w i))) ->
     In q (discover w (startup_dirs w)) /\ resolve w q <> q /\
     is_valid_path (startup_dirs w) (resolve w q) = false) /\
  (forall rt q,
     (forall d, In d (valid_dirs (hdl rt)) -> has_magic d = false) ->
     In (q, "path_traversal_attempt")
        (rejected_modules (hdl (snd (reload_all_modules w rt)))) ->
     In q (discover w (valid_dirs (hdl rt))) /\ resolve w q <> q /\
     is_valid_path (valid_dirs (hdl rt)) (resolve w q) = false).
Proof.
  assert (Hcore : forall dirs q,
            (forall d, In d dirs -> has_magic d = false) ->
            In (q, "path_traversal_attempt")
               (flat_map (rejection_of w dirs) (discover w dirs)) ->
            In q (discover w dirs) /\ resolve w q <> q /\
            is_valid_path dirs (resolve w q) = false).
  { intros dirs q Hplain Hin. apply in_flat_map in Hin.
    destruct Hin as (raw & Hraw & Hin).
    apply rejection_of_spec in Hin.
    destruct Hin as [Hq [[Hv _]|(_ & _ & [[_ Hr]|(e & _ & Hr)])]];
      try discriminate. subst raw.
    split; [exact Hraw|]. split; [|exact Hv].
    intros Heq. rewrite Heq in Hv.
    rewrite (discover_under_root w dirs q Hplain Hraw) in Hv. discriminate. }
  split; [intros dirs raw; apply discover_under_root|]. split.
  - intros i q Hplain Hin. apply init_rejections in Hin.
    destruct Hin as [Hin|[_ (e & He)]]; [|discriminate].
    now apply Hcore.
  - intros rt q Hplain. destruct (reload_all_lists w rt) as (_ & _ & _ & ->).
    now apply Hcore.
Qed.

(** The link [modules/toolset.py] of a plain root is logged, and it is
    not its own resolved path. *)
Lemma path_check_fires_only_through_links_witness :
  (forall d, In d (startup_dirs toolset_link) -> has_magic d = false) /\
  In (PyPath.joinpath modules_dir "toolset.py", "path_traversal_attempt")
     (rejected_modules (hdl (__init__ toolset_link fresh_interp))) /\
  resolve toolset_link (PyPath.joinpath modules_dir "toolset.py") <>
    PyPath.joinpath modules_dir "toolset.py".
Proof.
  assert (Hplain : forall d, In d (startup_dirs toolset_link) -> has_magic d = false).
  { intros d Hd. vm_compute in Hd. destruct Hd as [<-|[]]. reflexivity. }
  assert (Hlog : In (PyPath.joinpath modules_dir "toolset.py", "path_traversal_attempt")
                    (rejected_modules (hdl (__init__ toolset_link fresh_interp)))).
  { vm_compute. left. reflexivity. }
  split; [exact Hplain|]. split; [exact Hlog|].
  exact (proj1 (proj2
           (proj1 (proj2 (path_check_fires_only_through_links toolset_link))
              fresh_interp (PyPath.joinpath modules_dir "toolset.py") Hplain Hlog))).
Defined.

(** ** A full reload against a restart *)

Section Restart.

Variable w : World.

Lemma fresh_import_result name p i :
  (has_loader w p = false /\ fresh_import w name p i = (Ret None, i)) \/
  (has_loader w p = true /\
   exists i',
     fresh_import w name p i =
       (match snd (import_namespace w name p) with
        | None => Ret (Some (next_addr i))
        | Some e => Raise e
        end, i') /\
     next_addr i' = S (next_addr i) /\
     sys_modules i' = PyDict.setitem (sys_modules i) name (next_addr i) /\
     (forall a, a <> next_addr i -> heap i' a = heap i a) /\
     mod_name (heap i' (next_addr i)) = name /\
     mod_ns (heap i' (next_addr i)) = fst (import_namespace w name p)).
Proof.
  unfold fresh_import, import_namespace.
  destruct (has_loader w p); simpl; [right|left; auto].
  split; [reflexivity|].
  unfold exec_module. simpl. rewrite Nat.eqb_refl. simpl.
  destruct (run_code w p _) as [ns' [e|]]; simpl;
    eexists; (split; [reflexivity|]); simpl;
    rewrite ?Nat.eqb_refl; repeat split;
    intros a Ha; apply Nat.eqb_neq in Ha; now rewrite Ha.
Qed.

Lemma fresh_import_named name p i :
  sys_modules_named i -> sys_modules_named (snd (fresh_import w name p i)).
Proof.
  intros Hn.
  destruct (fresh_import_result name p i)
    as [[_ ->]|(_ & i' & -> & Hnext & Hsys & Hheap & Hname & _)];
    [exact Hn|].
  simpl. unfold sys_modules_named in *. rewrite Hsys, Hnext.
  apply Forall_forall. intros [k a] Hin. simpl.
  apply in_setitem in Hin. destruct Hin as [[= -> ->]|Hin].
  - split; [lia | exact Hname].
  - rewrite Forall_forall in Hn. destruct (Hn _ Hin) as [Hlt Hnm].
    simpl in Hlt, Hnm. split; [lia|].
    rewrite Hheap by lia. exact Hnm.
Qed.

Lemma load_for_reload_no_spec name p i :
  sys_modules_named i -> find_spec w name = None ->
  load_for_reload w name p i = fresh_import w name p i.
Proof.
  intros Hn Hf. unfold load_for_reload.
  destruct (PyDict.get (sys_modules i) name) as [a|] eqn:Hg; [|reflexivity].
  unfold importlib_reload.
  pose proof (get_some_in _ _ _ Hg) as Hin.
  unfold sys_modules_named in Hn. rewrite Forall_forall in Hn.
  destruct (Hn _ Hin) as [_ Hnm]. simpl in Hnm.
  now rewrite Hnm, Hg, Nat.eqb_refl, Hf.
Qed.

End Restart.

Lemma mem_keys_cong {A B} (d1 : PyDict.t A) (d2 : PyDict.t B) k :
  PyDict.keys d1 = PyDict.keys d2 -> PyDict.mem d1 k = PyDict.mem d2 k.
Proof.
  unfold PyDict.mem. revert d2.
  induction d1 as [|[k1 v1] d1 IH]; intros [|[k2 v2] d2]; simpl;
    try discriminate; [reflexivity|].
  intros [= <- Hk]. destruct (k1 =? k); [reflexivity|]. now apply IH.
Qed.

Lemma keys_setitem_cong {A B} (d1 : PyDict.t A) (d2 : PyDict.t B) k v1 v2 :
  PyDict.keys d1 = PyDict.keys d2 ->
  PyDict.keys (PyDict.setitem d1 k v1) = PyDict.keys (PyDict.setitem d2 k v2).
Proof.
  intros H. rewrite !keys_setitem_eq, (mem_keys_cong d1 d2 k H), H. reflexivity.
Qed.

Lemma register_same_tools n M fn h1 h2 :
  registry h1 = registry h2 -> _name_tracker h1 = _name_tracker h2 ->
  registry (_register_tool n M fn h1) = registry (_register_tool n M fn h2) /\
  _name_tracker (_register_tool n M fn h1) = _name_tracker (_register_tool n M fn h2).
Proof.
  destruct h1, h2. simpl. intros -> ->.
  unfold _register_tool, rename_first. simpl.
  destruct (PyDict.get _ n) as [hist|]; simpl; [|auto].
  destruct (hist_first hist) as [fm ft].
  destruct ((ft =? n) && PyDict.mem _ n); simpl; [|auto].
  destruct (PyDict.get _ n); simpl; auto.
Qed.

Lemma register_module_same_tools names M ns h1 h2 :
  same_tools h1 h2 ->
  same_tools (register_module names M ns h1) (register_module names M ns h2).
Proof.
  unfold register_module. revert h1 h2.
  induction names as [|n names IH]; intros h1 h2 H; simpl; [exact H|].
  apply IH. destruct (PyDict.get ns n) as [fn|]; [|exact H].
  destruct H as (R & T & J & O & W & D & L).
  destruct (register_same_tools n M fn h1 h2 R T) as [R' T'].
  destruct (register_frame n M fn h1) as (A1 & A2 & A3 & A4 & A5).
  destruct (register_frame n M fn h2) as (B1 & B2 & B3 & B4 & B5).
  repeat split; congruence.
Qed.

Lemma reload_loop_as_startup w mods rt1 rt2 u rt1' :
  (forall p, In p mods -> find_spec w (PyPath.stem p) = None) ->
  sys_modules_named (py rt1) ->
  same_tools (hdl rt1) (hdl rt2) ->
  reload_loop w mods rt1 = (Ret u, rt1') ->
  same_tools (hdl rt1') (hdl (snd (load_loop w mods rt2))).
Proof.
  revert rt1 rt2.
  induction mods as [|p mods IH]; intros rt1 rt2 Hf Hn Hs Hrun; simpl in *.
  - injection Hrun as _ <-. exact Hs.
  - unfold reload_one in Hrun. unfold load_one.
    rewrite (load_for_reload_no_spec w (PyPath.stem p) p (py rt1) Hn
               (Hf p (or_introl eq_refl))) in Hrun.
    pose proof (fresh_import_named w (PyPath.stem p) p (py rt1) Hn) as Hn'.
    destruct (fresh_import_result w (PyPath.stem p) p (py rt1))
      as [[L1 E1]|(L1 & i1 & E1 & _ & _ & _ & _ & Hns1)];
    destruct (fresh_import_result w (PyPath.stem p) p (py rt2))
      as [[L2 E2]|(L2 & i2 & E2 & _ & _ & _ & _ & Hns2)];
      try congruence;
      rewrite E1 in Hrun, Hn'; rewrite E2; clear E1 E2.
    + refine (IH _ _ _ _ _ Hrun); [auto | exact Hn' | exact Hs].
    + destruct (snd (import_namespace w (PyPath.stem p) p)) as [e|];
        [discriminate|].
      cbn [snd py hdl] in *. rewrite Hns1 in Hrun. rewrite Hns2.
      refine (IH _ _ _ _ _ Hrun); [auto | exact Hn' |].
      cbn [hdl]. apply register_module_same_tools.
      destruct Hs as (R & T & J & O & W & D & L).
      unfold set_loaded. repeat split; simpl; auto.
      now apply keys_setitem_cong.
Qed.

Lemma reload_all_from_startup_roots w rt :
  valid_dirs (hdl rt) = startup_dirs w ->
  reload_all_modules w rt =
  let h2 := validate_all w
              (with_raw_modules (empty_handler (startup_dirs w))
                 (discover w (startup_dirs w))) in
  match reload_loop w (okmods h2) {| hdl := h2; py := py rt |} with
  | (Ret _, rt') =>
      (Ret ("Loaded " ++ str_of_nat (List.length (registry (hdl rt')))
              ++ " tools from "
              ++ str_of_nat (List.length (loaded_mods (hdl rt')))
              ++ " modules"), rt')
  | (Raise e, rt') => (Raise e, rt')
  end.
Proof.
  intros Hd. unfold reload_all_modules. cbv zeta.
  replace (with_okmods
             (with_raw_modules (clear_all (hdl rt))
                (discover w (valid_dirs (clear_all (hdl rt))))) [])
    with (with_raw_modules (empty_handler (startup_dirs w))
            (discover w (startup_dirs w))); [reflexivity|].
  unfold with_okmods, with_raw_modules, clear_all, empty_handler. simpl.
  now rewrite Hd.
Qed.

(** X12.  A full reload that returns leaves the handler a restart would
    build.  When the handler keeps the startup roots, [sys.modules] files
    every module under its own name and the import system finds none of the
    candidates by name, a [reload_all_modules] that returns its summary ends
    with the registry, the name tracker, the rejection log, the candidate
    lists and the loaded module names that [__init__] builds in the same
    world; the tool listing is the same and the summary counts are those of
    the restart.  Only the module objects are new. *)
Theorem full_reload_reproduces_startup (w : World) (rt : Runtime)
  (i0 : Interp) (s : string) :
  valid_dirs (hdl rt) = startup_dirs w ->
  sys_modules_named (py rt) ->
  (forall raw, In raw (discover w (startup_dirs w)) ->
               find_spec w (PyPath.stem (resolve w raw)) = None) ->
  fst (reload_all_modules w rt) = Ret s ->
  same_tools (hdl (snd (reload_all_modules w rt))) (hdl (__init__ w i0)) /\
  list_tools (hdl (snd (reload_all_modules w rt))) = list_tools (hdl (__init__ w i0)) /\
  s = "Loaded " ++ str_of_nat (List.length (registry (hdl (__init__ w i0))))
        ++ " tools from "
        ++ str_of_nat (List.length (loaded_mods (hdl (__init__ w i0))))
        ++ " modules".
Proof.
  intros Hd Hn Hf. rewrite (reload_all_from_startup_roots w rt Hd).
  unfold __init__, construct. cbv zeta. cbn [valid_dirs empty_handler].
  set (h2 := validate_all w _).
  destruct (reload_loop w (okmods h2) {| hdl := h2; py := py rt |})
    as [[u|e] rt1] eqn:Hloop; cbn [fst snd]; [|discriminate].
  intros [= <-].
  assert (Hcore : same_tools (hdl rt1)
                    (hdl (snd (load_loop w (okmods h2)
                                 {| hdl := h2; py := i0 |})))).
  { eapply (reload_loop_as_startup w (okmods h2)
              {| hdl := h2; py := py rt |} {| hdl := h2; py := i0 |}).
    - intros p Hp. unfold h2 in Hp. rewrite validate_all_shape in Hp.
      simpl in Hp. apply in_flat_map in Hp. destruct Hp as (raw & Hraw & Hacc).
      apply accepted_of_spec in Hacc. destruct Hacc as (-> & _).
      now apply Hf.
    - exact Hn.
    - repeat split.
    - exact Hloop. }
  split; [exact Hcore|].
  destruct Hcore as (R & T & J & O & W & D & L).
  split; [unfold list_tools; now rewrite R|].
  rewrite R. unfold PyDict.keys in L.
  rewrite <- (length_map fst (loaded_mods (hdl rt1))), L, length_map.
  reflexivity.
Qed.

(** The two-module run, reloaded in full right after startup. *)
Lemma full_reload_reproduces_startup_witness :
  fst (reload_all_modules two_modules (__init__ two_modules fresh_interp)) =
    Ret "Loaded 4 tools from 2 modules" /\
  same_tools
    (hdl (snd (reload_all_modules two_modules (__init__ two_modules fresh_interp))))
    (hdl (__init__ two_modules fresh_interp)).
Proof.
  assert (Hret : fst (reload_all_modules two_modules
                        (__init__ two_modules fresh_interp)) =
                 Ret "Loaded 4 tools from 2 modules")
    by (vm_compute; reflexivity).
  split; [exact Hret|].
  refine (proj1 (full_reload_reproduces_startup two_modules
                   (__init__ two_modules fresh_interp) fresh_interp
                   "Loaded 4 tools from 2 modules" _ _ _ Hret)).
  - vm_compute. reflexivity.
  - unfold sys_modules_named. vm_compute. repeat constructor.
  - intros raw _. reflexivity.
Defined.

(** ** Listing and searching the registry *)

Lemma nodup_keys_modify {V} (d : PyDict.t V) k f :
  NoDup (PyDict.keys d) -> NoDup (PyDict.keys (PyDict.modify d k f)).
Proof.
  unfold PyDict.modify. destruct (PyDict.get d k); [|auto].
  apply nodup_keys_setitem.
Qed.

Lemma register_nodup n M fn h :
  NoDup (PyDict.keys (registry h)) ->
  NoDup (PyDict.keys (registry (_register_tool n M fn h))).
Proof.
  intros Hnd. unfold _register_tool, rename_first.
  destruct (PyDict.get (_name_tracker h) n) as [hist|]; simpl;
    [|now apply nodup_keys_setitem].
  apply nodup_keys_setitem.
  destruct (hist_first hist) as [fm ft].
  destruct ((ft =? n) && PyDict.mem (registry h) n); [|exact Hnd].
  destruct (PyDict.get (registry h) n); [|exact Hnd].
  simpl. apply nodup_keys_modify, nodup_keys_setitem, nodup_keys_delitem, Hnd.
Qed.

Lemma register_module_nodup names M ns h :
  NoDup (PyDict.keys (registry h)) ->
  NoDup (PyDict.keys (registry (register_module names M ns h))).
Proof.
  unfold register_module. revert h.
  induction names as [|n names IH]; intros h Hnd; simpl; [exact Hnd|].
  apply IH. destruct (PyDict.get ns n); [now apply register_nodup | exact Hnd].
Qed.

(** The registry is a dictionary in every state the handler reaches. *)
Lemma registry_keys_unique :
  (forall w i, NoDup (PyDict.keys (registry (hdl (__init__ w i))))) /\
  (forall w rt, NoDup (PyDict.keys (registry (hdl (snd (reload_all_modules w rt)))))) /\
  (forall w m rt, NoDup (PyDict.keys (registry (hdl rt))) ->
                  NoDup (PyDict.keys (registry (hdl (snd (reload_module w m rt)))))).
Proof.
  split; [|split].
  - intros w i.
    apply (init_start_inv (fun h => NoDup (PyDict.keys (registry h)))).
    + intros h p r H. exact H.
    + intros h names ns M a H. now apply register_module_nodup.
    + intros h -> _ _. constructor.
  - intros w rt.
    apply (reload_all_start_inv (fun h => NoDup (PyDict.keys (registry h)))).
    + intros h names ns M a H. now apply register_module_nodup.
    + intros h -> _ _. constructor.
  - intros w m rt.
    apply (reload_module_inv w m (fun h => NoDup (PyDict.keys (registry h)))).
    intros h names ns tmod _ _ H.
    apply register_module_nodup. simpl. now apply nodup_remove_tools.
Qed.

Lemma setitem_fresh {V} (d : PyDict.t V) k v :
  ~ In k (PyDict.keys d) -> PyDict.setitem d k v = (d ++ [(k, v)])%list.
Proof.
  induction d as [|[k0 v0] d IH]; simpl; [reflexivity|].
  intros Hn. destruct (String.eqb_spec k0 k) as [->|Hne]; [tauto|].
  rewrite IH; [reflexivity | tauto].
Qed.

Lemma fold_setitem_filter {V} (P : string -> bool) (l acc : PyDict.t V) :
  NoDup (PyDict.keys acc ++ PyDict.keys l) ->
  fold_left (fun matches item =>
               let '(k, v) := item in
               if P k then PyDict.setitem matches k v else matches) l acc =
  (acc ++ filter (fun p => P (fst p)) l)%list.
Proof.
  revert acc. induction l as [|[k v] l IH]; intros acc Hnd; simpl.
  - now rewrite app_nil_r.
  - destruct (P k) eqn:HP.
    + rewrite IH.
      * rewrite setitem_fresh; [now rewrite <- app_assoc|].
        apply NoDup_remove_2 in Hnd. intros Hin. apply Hnd.
        apply in_or_app. now left.
      * rewrite setitem_fresh.
        -- unfold PyDict.keys. rewrite map_app. simpl.
           rewrite <- app_assoc. exact Hnd.
        -- apply NoDup_remove_2 in Hnd. intros Hin. apply Hnd.
           apply in_or_app. now left.
    + apply IH. apply NoDup_remove_1 in Hnd. exact Hnd.
Qed.

Lemma get_filter_key {V} (P : string -> bool) (l : PyDict.t V) k :
  PyDict.get (filter (fun p => P (fst p)) l) k =
  if P k then PyDict.get l k else None.
Proof.
  induction l as [|[k0 v0] l IH]; simpl; [now destruct (P k)|].
  destruct (P k0) eqn:HP0; simpl.
  - destruct (String.eqb_spec k0 k) as [->|Hne]; [now rewrite HP0 | exact IH].
  - destruct (String.eqb_spec k0 k) as [->|Hne]; [now rewrite IH, HP0 | exact IH].
Qed.

Lemma keys_list_tools h : PyDict.keys (list_tools h) = PyDict.keys (registry h).
Proof. unfold list_tools, PyDict.keys. rewrite map_map. reflexivity. Qed.

Lemma get_list_tools h k :
  PyDict.get (list_tools h) k = option_map docstring (PyDict.get (registry h) k).
Proof.
  unfold list_tools. induction (registry h) as [|[k0 e0] l IH]; simpl; [reflexivity|].
  destruct (k0 =? k); [reflexivity | exact IH].
Qed.

Lemma prefix_refl s : String.prefix s s = true.
Proof.
  induction s as [|c s IH]; simpl; [reflexivity|].
  destruct (ascii_dec c c); [exact IH | congruence].
Qed.

Lemma contains_refl s : PyStr.contains s s = true.
Proof.
  pose proof (prefix_refl s) as H.
  destruct s; cbn [PyStr.contains]; now rewrite H.
Qed.

Lemma contains_empty s : PyStr.contains "" s = true.
Proof. destruct s; reflexivity. Qed.

Lemma search_as_filter w t rt :
  NoDup (PyDict.keys (registry (hdl rt))) ->
  search_for_proxy_tool w t rt =
  filter (fun p => PyStr.contains (str_lower w t) (str_lower w (fst p)))
    (list_proxy_tools rt).
Proof.
  intros Hnd. unfold search_for_proxy_tool, list_proxy_tools.
  rewrite (fold_setitem_filter
             (fun k => PyStr.contains (str_lower w t) (str_lower w k))).
  - reflexivity.
  - simpl. now rewrite keys_list_tools.
Qed.

(** X13.  [search_for_proxy_tool] returns the part of the listing of
    [list_proxy_tools] in whose key, put in lower case by [str.lower], the
    term put in lower case occurs, in the order of the listing and with
    the same descriptions.  Two terms with the same lower-case form give
    the same result; the empty term, whose lower-case form is empty,
    returns the whole listing; every hit is a key of the registry, so
    [use_proxy_tool] finds it; and the search for a tool's own key finds
    that tool. *)
Theorem search_returns_matching_part_of_listing (w : World) (t : string)
  (rt : Runtime) :
  NoDup (PyDict.keys (registry (hdl rt))) ->
  search_for_proxy_tool w t rt =
    filter (fun p => PyStr.contains (str_lower w t) (str_lower w (fst p)))
      (list_proxy_tools rt) /\
  (forall t', str_lower w t' = str_lower w t ->
              search_for_proxy_tool w t' rt = search_for_proxy_tool w t rt) /\
  (str_lower w "" = "" -> search_for_proxy_tool w "" rt = list_proxy_tools rt) /\
  (forall k d, PyDict.get (search_for_proxy_tool w t rt) k = Some d ->
     PyStr.contains (str_lower w t) (str_lower w k) = true /\
     exists e, PyDict.get (registry (hdl rt)) k = Some e /\ docstring e = d) /\
  (forall k e, PyDict.get (registry (hdl rt)) k = Some e ->
     PyDict.get (search_for_proxy_tool w k rt) k = Some (docstring e)).
Proof.
  intros Hnd. split; [now apply search_as_filter|].
  split; [|split; [|split]].
  - intros t' Ht. rewrite !search_as_filter by exact Hnd. now rewrite Ht.
  - intros Hempty. rewrite search_as_filter by exact Hnd. rewrite Hempty.
    induction (list_proxy_tools rt) as [|p l IH]; simpl; [reflexivity|].
    now rewrite contains_empty, IH.
  - intros k d. rewrite search_as_filter by exact Hnd.
    rewrite (get_filter_key
               (fun k => PyStr.contains (str_lower w t) (str_lower w k))).
    destruct (PyStr.contains (str_lower w t) (str_lower w k)); [|discriminate].
    unfold list_proxy_tools. rewrite get_list_tools.
    destruct (PyDict.get (registry (hdl rt)) k) as [e|]; [|discriminate].
    simpl. intros [= <-]. eauto.
  - intros k e Hk. rewrite search_as_filter by exact Hnd.
    rewrite (get_filter_key
               (fun x => PyStr.contains (str_lower w k) (str_lower w x))).
    rewrite contains_refl.
    unfold list_proxy_tools. now rewrite get_list_tools, Hk.
Qed.

(** The search for [FOO] in the two-module run finds both renamed tools. *)
Lemma search_returns_matching_part_of_listing_witness :
  NoDup (PyDict.keys (registry (hdl (__init__ two_modules fresh_interp)))) /\
  search_for_proxy_tool two_modules "FOO" (__init__ two_modules fresh_interp) =
    filter (fun p => PyStr.contains (str_lower two_modules "FOO")
                       (str_lower two_modules (fst p)))
      (list_proxy_tools (__init__ two_modules fresh_interp)) /\
  PyDict.keys (search_for_proxy_tool two_modules "FOO"
                 (__init__ two_modules fresh_interp)) =
    ["foo_alpha"; "foo_beta"].
Proof.
  pose proof (proj1 registry_keys_unique two_modules fresh_interp) as Hnd.
  split; [exact Hnd|]. split.
  - exact (proj1 (search_returns_matching_part_of_listing two_modules "FOO"
                    (__init__ two_modules fresh_interp) Hnd)).
  - vm_compute. reflexivity.
Defined.

(** ** The file a single-module reload runs *)

(** X14.  [reload_module] takes the first [root/name.py] that exists and
    runs it without resolving it and without the path check: for a loaded
    module whose file is a candidate that resolves outside every root, a
    full reload in the same world records the candidate as
    [path_traversal_attempt] and does not accept it, while [reload_module]
    executes it in the module object, reports success and binds every tool
    of the module to what that run left. *)
Theorem reload_module_runs_what_validation_rejects (w : World) (m : string)
  (rt : Runtime) (tmod : addr) (p : path) (ns' : PyDict.t pyobj) :
  PyDict.get (loaded_mods (hdl rt)) m = Some tmod ->
  find_module_file w (valid_dirs (hdl rt)) m = Some p ->
  has_loader w p = true ->
  run_code w p (mod_ns (heap (py rt) tmod)) = (ns', None) ->
  In p (discover w (valid_dirs (hdl rt))) ->
  is_valid_path (valid_dirs (hdl rt)) (resolve w p) = false ->
  In (p, "path_traversal_attempt")
     (rejected_modules (hdl (snd (reload_all_modules w rt)))) /\
  ~ In (resolve w p) (okmods (hdl (snd (reload_all_modules w rt)))) /\
  (exists added removed suggestion,
     fst (reload_module w m rt) = Reloaded m added removed suggestion) /\
  mod_ns (heap (py (snd (reload_module w m rt))) tmod) = ns' /\
  (forall key e,
     In (key, e) (registry (hdl (snd (reload_module w m rt)))) ->
     source_module e = m ->
     PyDict.get ns' (original_name e) = Some (function e)).
Proof.
  intros Hl Hf Hs Hr Hcand Hout.
  destruct (reload_all_lists w rt) as (_ & _ & Hok & Hrej).
  cbv zeta in Hok, Hrej.
  assert (Hrejp : rejection_of w (valid_dirs (hdl rt)) p =
                  [(p, "path_traversal_attempt")])
    by (unfold rejection_of; now rewrite Hout).
  assert (Hin : In (p, "path_traversal_attempt")
                   (rejected_modules (hdl (snd (reload_all_modules w rt))))).
  { rewrite Hrej. apply in_flat_map. exists p. split; [exact Hcand|].
    rewrite Hrejp. now left. }
  split; [exact Hin|]. split.
  - rewrite Hrej in Hin. apply rejected_not_accepted in Hin.
    rewrite Hok. tauto.
  - destruct (reload_module_success w m rt tmod p ns' Hl Hf Hs Hr) as [Hh Hfst].
    cbv zeta in Hh, Hfst. split; [rewrite Hfst; eauto|]. split.
    + unfold reload_module, reload_attempt, exec_module.
      rewrite Hl, Hf, Hs, Hr. simpl. now rewrite Nat.eqb_refl.
    + rewrite Hh. intros key e Hk Hm.
      refine (proj1 (register_module_bound w m ns' _ _ _ _ key e Hk Hm)).
      * intros n Hn. now apply filter_In in Hn.
      * eapply removed_tools_bound. reflexivity.
Qed.

(** [alpha] was loaded from a plain file that has since become a link to a
    file outside the roots. *)
Lemma reload_module_runs_what_validation_rejects_witness :
  is_valid_path (valid_dirs (hdl (__init__ alpha_v1 fresh_interp)))
    (resolve alpha_linked_away (PyPath.joinpath modules_dir "alpha.py")) = false /\
  In (PyPath.joinpath modules_dir "alpha.py", "path_traversal_attempt")
     (rejected_modules
        (hdl (snd (reload_all_modules alpha_linked_away
                     (__init__ alpha_v1 fresh_interp))))) /\
  (exists added removed suggestion,
     fst (reload_module alpha_linked_away "alpha" (__init__ alpha_v1 fresh_interp)) =
     Reloaded "alpha" added removed suggestion).
Proof.
  assert (Hout : is_valid_path (valid_dirs (hdl (__init__ alpha_v1 fresh_interp)))
                   (resolve alpha_linked_away
                      (PyPath.joinpath modules_dir "alpha.py")) = false)
    by (vm_compute; reflexivity).
  split; [exact Hout|].
  assert (H := reload_module_runs_what_validation_rejects alpha_linked_away
                 "alpha" (__init__ alpha_v1 fresh_interp) 0
                 (PyPath.joinpath modules_dir "alpha.py")
                 (fst (run_code alpha_linked_away
                         (PyPath.joinpath modules_dir "alpha.py")
                         (mod_ns (heap (py (__init__ alpha_v1 fresh_interp)) 0))))).
  destruct H as (H1 & _ & H3 & _).
  - vm_compute. reflexivity.
  - vm_compute. reflexivity.
  - reflexivity.
  - vm_compute. reflexivity.
  - vm_compute. left. reflexivity.
  - exact Hout.
  - split; [exact H1 | exact H3].
Defined.

(** ** The time stamp *)

Lemma any_char_app p a b :
  PyStr.any_char p (a ++ b) = PyStr.any_char p a || PyStr.any_char p b.
Proof.
  induction a as [|c a IH]; simpl; [reflexivity|].
  now rewrite IH, orb_assoc.
Qed.

Lemma has_char_app c a b :
  PyText.has_char c (a ++ b) = PyText.has_char c a || PyText.has_char c b.
Proof. apply any_char_app. Qed.

Lemma digit_differs d c :
  PyText.is_digit d = true -> PyText.is_digit c = false -> (d =? c)%char = false.
Proof.
  intros Hd Hc. destruct (Ascii.eqb_spec d c) as [->|]; congruence.
Qed.

Lemma string_of_uint_digits c u :
  PyText.is_digit c = false ->
  PyText.has_char c (NilEmpty.string_of_uint u) = false.
Proof.
  intros Hc. unfold PyText.has_char.
  induction u; cbn [NilEmpty.string_of_uint PyStr.any_char]; try reflexivity;
    rewrite IHu, orb_false_r; apply digit_differs; auto.
Qed.

Lemma zeros_digits c k :
  PyText.is_digit c = false -> PyText.has_char c (zeros k) = false.
Proof.
  intros Hc. unfold PyText.has_char.
  induction k as [|k IH]; cbn [zeros PyStr.any_char]; [reflexivity|].
  rewrite IH, orb_false_r. apply digit_differs; auto.
Qed.

Lemma zero_pad_digits c width n :
  PyText.is_digit c = false -> PyText.has_char c (zero_pad width n) = false.
Proof.
  intros Hc. unfold zero_pad, str_of_nat.
  now rewrite has_char_app, zeros_digits, string_of_uint_digits.
Qed.

Lemma split_once_at sep a b :
  PyText.has_char sep a = false ->
  PyText.split_once sep (a ++ String sep b) = [a; b].
Proof.
  unfold PyText.has_char.
  induction a as [|c a IH];
    cbn [append PyText.split_once PyText.split PyStr.any_char].
  - now rewrite Ascii.eqb_refl.
  - intros H. apply orb_false_iff in H. destruct H as [Hc Ha].
    rewrite Hc, (IH Ha). reflexivity.
Qed.

Lemma split_once_none sep a :
  PyText.has_char sep a = false -> PyText.split_once sep a = [a].
Proof.
  unfold PyText.has_char.
  induction a as [|c a IH];
    cbn [PyText.split_once PyText.split PyStr.any_char]; [reflexivity|].
  intros H. apply orb_false_iff in H. destruct H as [Hc Ha].
  rewrite Hc, (IH Ha). reflexivity.
Qed.

Lemma split_none sep a :
  PyText.has_char sep a = false -> PyText.split sep a = [a].
Proof.
  unfold PyText.has_char.
  induction a as [|c a IH];
    cbn [PyText.split_once PyText.split PyStr.any_char]; [reflexivity|].
  intros H. apply orb_false_iff in H. destruct H as [Hc Ha].
  rewrite Hc, (IH Ha). reflexivity.
Qed.

Lemma split_at sep a b :
  PyText.has_char sep a = false ->
  PyText.split sep (a ++ String sep b) = a :: PyText.split sep b.
Proof.
  unfold PyText.has_char.
  induction a as [|c a IH];
    cbn [append PyText.split_once PyText.split PyStr.any_char].
  - now rewrite Ascii.eqb_refl.
  - intros H. apply orb_false_iff in H. destruct H as [Hc Ha].
    rewrite Hc, (IH Ha). reflexivity.
Qed.

Lemma replace_app x y a b :
  PyText.replace x y (a ++ b) = PyText.replace x y a ++ PyText.replace x y b.
Proof. induction a as [|c a IH]; simpl; [reflexivity|]. now rewrite IH. Qed.

Lemma replace_none x y a :
  PyText.has_char x a = false -> PyText.replace x y a = a.
Proof.
  unfold PyText.has_char.
  induction a as [|c a IH]; cbn [PyText.replace PyStr.any_char]; [reflexivity|].
  intros H. apply orb_false_iff in H. destruct H as [Hc Ha].
  now rewrite Hc, (IH Ha).
Qed.

Lemma date_part_chars c dt :
  PyText.is_digit c = false -> c <> "-"%char ->
  PyText.has_char c (date_part dt) = false.
Proof.
  intros Hd Hm. unfold date_part.
  assert (Hdash : PyText.has_char c "-" = false).
  { unfold PyText.has_char. cbn [PyStr.any_char]. rewrite orb_false_r.
    destruct (Ascii.eqb_spec "-" c); congruence. }
  rewrite !has_char_app, !zero_pad_digits, Hdash by exact Hd. reflexivity.
Qed.

Lemma time_part_chars c dt :
  PyText.is_digit c = false -> c <> ":"%char ->
  PyText.has_char c (time_part dt) = false.
Proof.
  intros Hd Hm. unfold time_part.
  assert (Hcolon : PyText.has_char c ":" = false).
  { unfold PyText.has_char. cbn [PyStr.any_char]. rewrite orb_false_r.
    destruct (Ascii.eqb_spec ":" c); congruence. }
  rewrite !has_char_app, !zero_pad_digits, Hcolon by exact Hd. reflexivity.
Qed.

Lemma append_empty_r (a : string) : a ++ "" = a.
Proof. induction a as [|c a IH]; simpl; [reflexivity | now rewrite IH]. Qed.

Lemma split_datetime_str dt :
  PyText.split_once "." (datetime_str dt) =
  (date_part dt ++ " " ++ time_part dt)
    :: (if (microsecond dt =? 0)%nat then []
        else [zero_pad 6 (microsecond dt)]).
Proof.
  assert (Hno : PyText.has_char "." (date_part dt ++ " " ++ time_part dt) = false).
  { rewrite !has_char_app, date_part_chars, time_part_chars;
      [reflexivity | reflexivity | discriminate | reflexivity | discriminate]. }
  unfold datetime_str. destruct (microsecond dt =? 0)%nat.
  - rewrite append_empty_r. now apply split_once_none.
  - change ("." ++ zero_pad 6 (microsecond dt))
      with (String "." (zero_pad 6 (microsecond dt))).
    rewrite <- (split_once_at "." _ (zero_pad 6 (microsecond dt)) Hno).
    now rewrite !append_assoc.
Qed.

Lemma length_zeros k : String.length (zeros k) = k.
Proof. induction k as [|k IH]; simpl; [reflexivity | now rewrite IH]. Qed.

Lemma length_zero_pad width n :
  String.length (str_of_nat n) <= width -> String.length (zero_pad width n) = width.
Proof.
  intros H. unfold zero_pad. rewrite length_append, length_zeros. lia.
Qed.

Lemma short_numerals (width bound : nat) :
  forallb (fun n => (String.length (str_of_nat n) <=? width)%nat) (seq 0 bound) = true ->
  forall n, n < bound -> String.length (str_of_nat n) <= width.
Proof.
  intros H n Hn. rewrite forallb_forall in H.
  apply Nat.leb_le, H, in_seq. lia.
Qed.

Lemma two_digits n : n < 100 -> String.length (zero_pad 2 n) = 2.
Proof.
  intros H. apply length_zero_pad. revert n H.
  apply short_numerals. vm_compute. reflexivity.
Qed.

Lemma four_digits n : n < 100 * 100 -> String.length (zero_pad 4 n) = 4.
Proof.
  intros H. apply length_zero_pad. revert n H.
  apply short_numerals. vm_compute. reflexivity.
Qed.

(** X15.  [check_time] never raises: for every reading of the clock, with
    or without a fraction of a second, it returns the date, an underscore
    and the time with its colons replaced by hyphens.  The stamp holds no
    space, colon or dot, and for a reading in the ranges of [datetime] it
    has nineteen characters. *)
Theorem check_time_stamp (now : datetime) :
  check_time now =
    Ret (date_part now ++ "_" ++ zero_pad 2 (hour now) ++ "-"
           ++ zero_pad 2 (minute now) ++ "-" ++ zero_pad 2 (second now)) /\
  (forall s, check_time now = Ret s ->
     PyText.has_char " " s = false /\ PyText.has_char ":" s = false /\
     PyText.has_char "." s = false) /\
  (forall s, check_time now = Ret s ->
     year now < 100 * 100 -> month now < 100 -> day now < 100 ->
     hour now < 100 -> minute now < 100 -> second now < 100 ->
     String.length s = 19).
Proof.
  assert (Hrun : check_time now =
                 Ret (date_part now ++ "_" ++ zero_pad 2 (hour now) ++ "-"
                        ++ zero_pad 2 (minute now) ++ "-"
                        ++ zero_pad 2 (second now))).
  { unfold check_time. rewrite split_datetime_str. cbn [index nth_error].
    change (date_part now ++ " " ++ time_part now)
      with (date_part now ++ String " " (time_part now)).
    rewrite split_at by (apply date_part_chars; [reflexivity | discriminate]).
    rewrite split_none by (apply time_part_chars; [reflexivity | discriminate]).
    cbn [index nth_error]. unfold time_part.
    rewrite !replace_app.
    rewrite (replace_none ":" "-" (zero_pad 2 (hour now))),
      (replace_none ":" "-" (zero_pad 2 (minute now))),
      (replace_none ":" "-" (zero_pad 2 (second now)))
      by (apply zero_pad_digits; reflexivity).
    reflexivity. }
  split; [exact Hrun|]. split.
  - intros s Hs. rewrite Hrun in Hs. injection Hs as <-.
    assert (Hfree : forall c, PyText.is_digit c = false ->
                      c <> "-"%char -> c <> "_"%char ->
                      PyText.has_char c
                        (date_part now ++ "_" ++ zero_pad 2 (hour now) ++ "-"
                           ++ zero_pad 2 (minute now) ++ "-"
                           ++ zero_pad 2 (second now)) = false).
    { intros c Hd Hm Hu.
      assert (Hdash : PyText.has_char c "-" = false).
      { unfold PyText.has_char. cbn [PyStr.any_char]. rewrite orb_false_r.
        destruct (Ascii.eqb_spec "-" c); congruence. }
      assert (Hund : PyText.has_char c "_" = false).
      { unfold PyText.has_char. cbn [PyStr.any_char]. rewrite orb_false_r.
        destruct (Ascii.eqb_spec "_" c); congruence. }
      rewrite !has_char_app, Hdash, Hund, (date_part_chars c now Hd Hm).
      rewrite !zero_pad_digits by exact Hd. reflexivity. }
    repeat split; apply Hfree; (reflexivity || discriminate).
  - intros s Hs Hy Hmo Hd Hh Hmi Hse. rewrite Hrun in Hs. injection Hs as <-.
    unfold date_part.
    repeat (rewrite length_append || cbn [String.length]).
    rewrite (four_digits _ Hy), (two_digits _ Hmo), (two_digits _ Hd),
      (two_digits _ Hh), (two_digits _ Hmi), (two_digits _ Hse).
    reflexivity.
Qed.

(** ** Nested configuration values *)

Lemma yget_yset d k v k' :
  yget (yset d k v) k' = if k =? k' then Some v else yget d k'.
Proof.
  induction d as [|[k0 v0] d IH]; simpl.
  - reflexivity.
  - destruct k0 as [s|n]; simpl.
    + destruct (String.eqb_spec s k) as [->|Hne]; simpl.
      * destruct (String.eqb_spec k k'); reflexivity.
      * rewrite IH. destruct (String.eqb_spec s k') as [->|Hne'].
        -- destruct (String.eqb_spec k k'); [congruence | reflexivity].
        -- reflexivity.
    + exact IH.
Qed.

Lemma yset_same d k v : yget d k = Some v -> yset d k v = d.
Proof.
  induction d as [|[k0 v0] d IH]; simpl; [discriminate|].
  destruct (ykey_is k0 k).
  - now intros [= ->].
  - intros H. now rewrite IH.
Qed.

Lemma split_not_nil sep s : PyText.split sep s <> [].
Proof.
  destruct s as [|c s]; simpl; [discriminate|].
  destruct (c =? sep)%char; [discriminate|].
  destruct (PyText.split sep s); discriminate.
Qed.

Lemma set_loop_blank key_path keys final value :
  fst (set_loop key_path [] keys final value) = Ret tt.
Proof.
  induction keys as [|key rest IH]; simpl; [reflexivity|].
  destruct (set_loop key_path [] rest final value) as [r sub]. exact IH.
Qed.

Lemma set_loop_atomic key_path keys final value :
  forall current e current',
    set_loop key_path current keys final value = (Raise e, current') ->
    current' = current /\
    exists key, In key keys /\
      e = Exn "ValueError"
            ("Cannot set '" ++ key_path ++ "' - '" ++ key
               ++ "' exists but is not a dict").
Proof.
  induction keys as [|key rest IH]; intros current e current'; simpl.
  - discriminate.
  - destruct (yget current key) as [v|] eqn:Hg.
    + destruct v as [| | | | |sub];
        try (intros [= <- <-]; split; [reflexivity | eauto]).
      destruct (set_loop key_path sub rest final value) as [r sub'] eqn:Hrec.
      intros [= -> <-].
      destruct (IH sub e sub' Hrec) as (-> & k & Hk & He).
      split; [now apply yset_same | eauto].
    + pose proof (set_loop_blank key_path rest final value) as Hb.
      destruct (set_loop key_path [] rest final value) as [r sub].
      simpl in Hb. intros [= -> _]. discriminate.
Qed.

Lemma set_then_get key_path keys final value :
  forall current current',
    set_loop key_path current keys final value = (Ret tt, current') ->
    get_loop key_path (YDict current') (keys ++ [final]) = Ret value.
Proof.
  induction keys as [|key rest IH]; intros current current'; simpl.
  - intros [= <-]. now rewrite yget_yset, String.eqb_refl.
  - destruct (yget current key) as [v|] eqn:Hg.
    + destruct v as [| | | | |sub]; try discriminate.
      destruct (set_loop key_path sub rest final value) as [r sub'] eqn:Hrec.
      intros [= -> <-]. rewrite yget_yset, String.eqb_refl.
      exact (IH sub sub' Hrec).
    + destruct (set_loop key_path [] rest final value) as [r sub] eqn:Hrec.
      intros [= -> <-]. rewrite yget_yset, String.eqb_refl.
      exact (IH [] sub Hrec).
Qed.

(** X16.  Setting a nested value is all or nothing, and what was set is
    read back.  When [_set_nested_value] raises, the error is the
    [ValueError] that names a key on the way which holds something that is
    not a dictionary, and the data is as before: nothing was created on the
    way.  When it returns, [_get_nested_value] on the same path returns the
    value that was set. *)
Theorem nested_set_is_atomic_and_read_back (data : ydict) (key_path : string)
  (value : yvalue) :
  (forall e data',
     _set_nested_value data key_path value = (Raise e, data') ->
     data' = data /\
     exists key, In key (removelast (PyText.split "." key_path)) /\
       e = Exn "ValueError"
             ("Cannot set '" ++ key_path ++ "' - '" ++ key
                ++ "' exists but is not a dict")) /\
  (forall data',
     _set_nested_value data key_path value = (Ret tt, data') ->
     _get_nested_value (YDict data') key_path = Ret value).
Proof.
  unfold _set_nested_value, _get_nested_value. split.
  - intros e data'. apply set_loop_atomic.
  - intros data' H.
    rewrite (app_removelast_last "" (split_not_nil "." key_path)).
    eapply set_then_get. exact H.
Qed.

Lemma get_loop_blank key_path key rest :
  get_loop key_path (YDict []) (key :: rest) =
  Raise (Exn "KeyError" ("Key '" ++ key_path ++ "' not found in config")).
Proof. reflexivity. Qed.

Lemma set_loop_frame key_path other keys final value :
  forall current current' qs,
    set_loop key_path current keys final value = (Ret tt, current') ->
    diverge (keys ++ [final]) qs ->
    get_loop other (YDict current') qs = get_loop other (YDict current) qs.
Proof.
  induction keys as [|key rest IH]; intros current current' qs; simpl.
  - intros [= <-] (common & a & b & p' & q' & Hab & Hp & ->).
    destruct common as [|c common]; simpl in Hp.
    + injection Hp as <- _. simpl. rewrite yget_yset.
      apply String.eqb_neq in Hab. now rewrite Hab.
    + injection Hp as _ Hp. destruct common; discriminate.
  - intros Hset (common & a & b & p' & q' & Hab & Hp & ->).
    destruct common as [|c common]; simpl in Hp; injection Hp as <- Hp.
    + assert (Hy : forall sub, yget (yset current key sub) b = yget current b).
      { intros sub. rewrite yget_yset. apply String.eqb_neq in Hab.
        now rewrite Hab. }
      destruct (yget current key) as [v|] eqn:Hg.
      * destruct v as [| | | | |sub]; try discriminate.
        destruct (set_loop key_path sub rest final value) as [r sub'].
        injection Hset as _ <-. simpl. now rewrite Hy.
      * destruct (set_loop key_path [] rest final value) as [r sub].
        injection Hset as _ <-. simpl. now rewrite Hy.
    + assert (Hdiv : diverge (rest ++ [final]) (common ++ b :: q')).
      { exists common, a, b, p', q'. auto. }
      destruct (yget current key) as [v|] eqn:Hg.
      * destruct v as [| | | | |sub]; try discriminate.
        destruct (set_loop key_path sub rest final value) as [r sub'] eqn:Hrec.
        injection Hset as -> <-. simpl.
        rewrite yget_yset, String.eqb_refl, Hg.
        exact (IH sub sub' _ Hrec Hdiv).
      * destruct (set_loop key_path [] rest final value) as [r sub] eqn:Hrec.
        injection Hset as -> <-. simpl.
        rewrite yget_yset, String.eqb_refl, Hg.
        rewrite (IH [] sub _ Hrec Hdiv).
        destruct common; reflexivity.
Qed.

(** X17.  On configuration data that is a tree, in which no dictionary
    is reachable by two paths (as loaded from YAML without aliases), a
    successful [_set_nested_value] changes nothing that
    [_get_nested_value] reports for a path that parts ways with the path
    set: such a path gives the same value, or raises the same error, before
    and after, also where the call created dictionaries on the way. *)
Theorem nested_set_leaves_other_paths (data data' : ydict)
  (key_path other : string) (value : yvalue) :
  _set_nested_value data key_path value = (Ret tt, data') ->
  diverge (PyText.split "." key_path) (PyText.split "." other) ->
  _get_nested_value (YDict data') other = _get_nested_value (YDict data) other.
Proof.
  unfold _set_nested_value, _get_nested_value. intros Hset Hdiv.
  rewrite (app_removelast_last "" (split_not_nil "." key_path)) in Hdiv.
  eapply set_loop_frame; eassumption.
Qed.

(** Setting [paths.story] beside [paths.ideas] and [logging.level]. *)
Lemma nested_set_leaves_other_paths_witness :
  _get_nested_value
    (YDict (snd (_set_nested_value
                   [(KStr "paths", YDict [(KStr "ideas", YStr "./ideas")])]
                   "paths.story" (YStr "./story"))))
    "paths.ideas" = Ret (YStr "./ideas") /\
  _get_nested_value
    (YDict (snd (_set_nested_value
                   [(KStr "paths", YDict [(KStr "ideas", YStr "./ideas")])]
                   "paths.story" (YStr "./story"))))
    "logging.level" =
  Raise (Exn "KeyError" "Key 'logging.level' not found in config").
Proof.
  split.
  - rewrite (nested_set_leaves_other_paths
               [(KStr "paths", YDict [(KStr "ideas", YStr "./ideas")])]
               _ "paths.story" "paths.ideas" (YStr "./story")).
    + reflexivity.
    + reflexivity.
    + exists ["paths"], "story", "ideas", [], []. repeat split. discriminate.
  - rewrite (nested_set_leaves_other_paths
               [(KStr "paths", YDict [(KStr "ideas", YStr "./ideas")])]
               _ "paths.story" "logging.level" (YStr "./story")).
    + reflexivity.
    + reflexivity.
    + exists [], "paths", "logging", ["story"], ["level"]. repeat split.
      discriminate.
Defined.

(** ** The overview's grouping of the tools *)

Section OverviewFacts.

Variable module_doc : module_obj -> option string.
Variable rt : Runtime.

Let step := collect_one module_doc rt.

Lemma collect_rows l acc :
  map row_name (tool_list (fold_left step l acc)) =
  (map row_name (tool_list acc) ++ PyDict.keys l)%list.
Proof.
  revert acc. induction l as [|[k e] l IH]; intros acc; simpl.
  - now rewrite app_nil_r.
  - rewrite IH. simpl. rewrite map_app. simpl. now rewrite <- app_assoc.
Qed.

Lemma collect_rows_sound l acc :
  (forall r, In r (tool_list acc) -> row_category r = category_of (row_name r)) ->
  forall r, In r (tool_list (fold_left step l acc)) ->
            row_category r = category_of (row_name r).
Proof.
  revert acc. induction l as [|[k e] l IH]; intros acc Hacc; simpl; [exact Hacc|].
  apply IH. simpl. intros r Hr. apply in_app_or in Hr.
  destruct Hr as [Hr|[<-|[]]]; [now apply Hacc | reflexivity].
Qed.

Lemma collect_categories l acc c :
  PyDict.get (tool_categories (fold_left step l acc)) c =
  option_map
    (fun tools => (tools ++ filter (fun k => category_of k =? c) (PyDict.keys l))%list)
    (PyDict.get (tool_categories acc) c).
Proof.
  revert acc. induction l as [|[k e] l IH]; intros acc; simpl.
  - destruct (PyDict.get (tool_categories acc) c); simpl;
      [now rewrite app_nil_r | reflexivity].
  - rewrite IH. simpl. rewrite get_modify.
    destruct (String.eqb_spec (category_of k) c) as [Hc|Hc].
    + destruct (PyDict.get (tool_categories acc) (category_of k)) eqn:E;
        rewrite <- Hc, E; simpl; [now rewrite <- app_assoc | reflexivity].
    + reflexivity.
Qed.

Lemma collect_modules l acc m :
  listed_under (module_info (fold_left step l acc)) m =
  match listed_under (module_info acc) m, tools_of m l with
  | Some tools, more => Some (tools ++ more)%list
  | None, [] => None
  | None, more => Some more
  end.
Proof.
  unfold listed_under.
  revert acc. induction l as [|[k e] l IH]; intros acc.
  - simpl. destruct (PyDict.get (module_info acc) m); simpl;
      [now rewrite app_nil_r | reflexivity].
  - cbn [fold_left]. rewrite IH. clear IH.
    unfold tools_of. cbn [filter snd].
    unfold step. cbn [collect_one module_info].
    rewrite get_modify. unfold PyDict.mem.
    set (T := PyDict.keys
                (filter (fun p : string * ToolEntry => source_module (snd p) =? m) l)).
    destruct (String.eqb_spec (source_module e) m) as [Hm|Hm].
    + subst m.
      destruct (PyDict.get (module_info acc) (source_module e)) as [r|] eqn:E.
      * rewrite E. cbn. now rewrite <- app_assoc.
      * rewrite get_setitem, String.eqb_refl. cbn. reflexivity.
    + destruct (PyDict.get (module_info acc) (source_module e)) eqn:E.
      * reflexivity.
      * rewrite get_setitem. apply String.eqb_neq in Hm. now rewrite Hm.
Qed.

Lemma collect_docstrings l acc :
  (forall m r, PyDict.get (module_info acc) m = Some r ->
               mi_docstring r = module_docstring module_doc rt m) ->
  forall m r, PyDict.get (module_info (fold_left step l acc)) m = Some r ->
              mi_docstring r = module_docstring module_doc rt m.
Proof.
  revert acc. induction l as [|[k e] l IH]; intros acc Hacc; [exact Hacc|].
  cbn [fold_left]. apply IH. clear IH.
  unfold step. cbn [collect_one module_info]. intros m r.
  rewrite get_modify. unfold PyDict.mem.
  destruct (String.eqb_spec (source_module e) m) as [Hm|Hm].
  - subst m.
    destruct (PyDict.get (module_info acc) (source_module e)) as [r0|] eqn:E.
    + rewrite E. cbn. intros [= <-]. cbn. now apply Hacc.
    + rewrite get_setitem, String.eqb_refl. cbn. now intros [= <-].
  - destruct (PyDict.get (module_info acc) (source_module e)) eqn:E.
    + apply Hacc.
    + rewrite get_setitem. apply String.eqb_neq in Hm. rewrite Hm. apply Hacc.
Qed.

End OverviewFacts.

Lemma category_of_known k :
  In (category_of k) (PyDict.keys (tool_categories overview_start)).
Proof.
  unfold category_of.
  repeat match goal with
         | |- context [if ?b then _ else _] => destruct b
         end; simpl; tauto.
Qed.

(** X18.  The overview lists every registered tool once, in the order of
    the registry, with the category its name gives it; each of the seven
    category lists holds exactly the tools of that category, so a tool is in
    one list only; and [module_info] has a module exactly when the registry
    holds a tool of it, with the module's docstring and with the very tools
    that [reload_module] would take as the module's old tools. *)
Theorem overview_groups_every_tool (module_doc : module_obj -> option string)
  (rt : Runtime) :
  let ov := explain_collect module_doc rt in
  let keys := PyDict.keys (registry (hdl rt)) in
  map row_name (tool_list ov) = keys /\
  (forall r, In r (tool_list ov) -> row_category r = category_of (row_name r)) /\
  (forall c, In c (PyDict.keys (tool_categories overview_start)) ->
     PyDict.get (tool_categories ov) c =
     Some (filter (fun k => category_of k =? c) keys)) /\
  (forall k, In k keys ->
     exists tools, PyDict.get (tool_categories ov) (category_of k) = Some tools /\
                   In k tools) /\
  (forall m, listed_under (module_info ov) m =
             match tools_of m (registry (hdl rt)) with
             | [] => None
             | tools => Some tools
             end) /\
  (forall m r, PyDict.get (module_info ov) m = Some r ->
               mi_docstring r = module_docstring module_doc rt m).
Proof.
  intros ov keys. unfold ov, explain_collect.
  assert (Hcat : forall c, In c (PyDict.keys (tool_categories overview_start)) ->
            PyDict.get (tool_categories
                          (fold_left (collect_one module_doc rt)
                             (registry (hdl rt)) overview_start)) c =
            Some (filter (fun k => category_of k =? c) keys)).
  { intros c Hc. rewrite collect_categories.
    simpl in Hc. destruct Hc as [<-|[<-|[<-|[<-|[<-|[<-|[<-|[]]]]]]]];
      reflexivity. }
  split; [apply collect_rows|]. split.
  - apply collect_rows_sound. intros r [].
  - split; [exact Hcat|]. split; [|split].
    + intros k Hk. eexists. split; [apply Hcat, category_of_known|].
      apply filter_In. split; [exact Hk | apply String.eqb_refl].
    + intros m. rewrite collect_modules. reflexivity.
    + apply collect_docstrings. intros m r. discriminate.
Qed.

(** ** The report of a single-module reload *)




(** ** One module registering a name twice *)

(** X20.  When the same module name registers a name twice in a row (two
    accepted files with the same stem register under one module name), the
    first tool is displaced: it is moved to [name_module] and at once
    overwritten there.
    Afterwards the bare key is gone, [name_module] holds the second object
    with the collision flag on, every other key is as it was before the two
    calls, and the history holds the same pair twice. *)
Theorem same_module_twice_displaces_first (n M : string) (f1 f2 : pyobj)
  (h : ProxyHandler) :
  PyDict.get (_name_tracker h) n = None ->
  let h2 := _register_tool n M f2 (_register_tool n M f1 h) in
  PyDict.get (registry h2) n = None /\
  PyDict.get (registry h2) (suffixed n M) = Some (new_entry f2 M n true) /\
  (forall k, k <> n -> k <> suffixed n M ->
             PyDict.get (registry h2) k = PyDict.get (registry h) k) /\
  PyDict.get (_name_tracker h2) n =
    Some {| hist_first := (M, suffixed n M);
            hist_rest := [(M, suffixed n M)] |}.
Proof.
  intros Hfresh h2.
  assert (Hne : suffixed n M <> n) by apply suffixed_neq.
  assert (H1 : _register_tool n M f1 h =
               with_tracker
                 (with_registry h
                    (PyDict.setitem (registry h) n (new_entry f1 M n false)))
                 (PyDict.setitem (_name_tracker h) n
                    {| hist_first := (M, n); hist_rest := [] |}))
    by (unfold _register_tool; now rewrite Hfresh).
  assert (H2 : h2 =
               let reg3 :=
                 PyDict.modify
                   (PyDict.setitem
                      (PyDict.delitem
                         (PyDict.setitem (registry h) n (new_entry f1 M n false)) n)
                      (suffixed n M) (new_entry f1 M n false))
                   (suffixed n M) mark_collision in
               let tr3 :=
                 PyDict.setitem
                   (PyDict.setitem (_name_tracker h) n
                      {| hist_first := (M, n); hist_rest := [] |})
                   n {| hist_first := (M, suffixed n M); hist_rest := [] |} in
               let h3 := with_tracker (with_registry (_register_tool n M f1 h) reg3) tr3 in
               let h4 := with_registry h3
                           (PyDict.setitem reg3 (suffixed n M)
                              (new_entry f2 M n true)) in
               with_tracker h4
                 (PyDict.modify tr3 n
                    (fun t => {| hist_first := hist_first t;
                                 hist_rest := (hist_rest t ++ [(M, suffixed n M)])%list |}))).
  { unfold h2. rewrite H1 at 1. unfold _register_tool at 1.
    cbn [_name_tracker with_tracker with_registry].
    rewrite get_setitem, String.eqb_refl.
    unfold rename_first.
    cbn [hist_first hist_rest registry with_registry with_tracker _name_tracker].
    rewrite String.eqb_refl. unfold PyDict.mem.
    rewrite get_setitem, String.eqb_refl. cbn [andb].
    rewrite <- H1. reflexivity. }
  rewrite H2. cbv zeta. cbn [registry _name_tracker with_registry with_tracker].
  assert (Hreg : forall k,
            PyDict.get
              (PyDict.setitem
                 (PyDict.modify
                    (PyDict.setitem
                       (PyDict.delitem
                          (PyDict.setitem (registry h) n (new_entry f1 M n false)) n)
                       (suffixed n M) (new_entry f1 M n false))
                    (suffixed n M) mark_collision)
                 (suffixed n M) (new_entry f2 M n true)) k =
            if suffixed n M =? k then Some (new_entry f2 M n true)
            else if n =? k then None
            else PyDict.get (registry h) k).
  { intros k. rewrite get_setitem.
    destruct (String.eqb_spec (suffixed n M) k) as [Hk|Hk]; [reflexivity|].
    rewrite get_modify.
    apply String.eqb_neq in Hk. rewrite Hk.
    rewrite get_setitem, Hk, get_delitem.
    destruct (String.eqb_spec n k) as [Hn|Hn]; [reflexivity|].
    rewrite get_setitem. apply String.eqb_neq in Hn. now rewrite Hn. }
  split; [|split; [|split]].
  - rewrite Hreg. apply String.eqb_neq in Hne. now rewrite Hne, String.eqb_refl.
  - rewrite Hreg. now rewrite String.eqb_refl.
  - intros k Hk1 Hk2. rewrite Hreg.
    apply not_eq_sym in Hk1, Hk2. apply String.eqb_neq in Hk1, Hk2.
    now rewrite Hk1, Hk2.
  - rewrite get_modify, String.eqb_refl, get_setitem, String.eqb_refl.
    reflexivity.
Qed.

(** Two files with the stem [tools] that both define [ping]. *)
Lemma same_module_twice_displaces_first_witness :
  PyDict.keys
    (registry (_register_tool "ping" "tools" (fn 2 "private ping")
                 (_register_tool "ping" "tools" (fn 1 "public ping")
                    (empty_handler [])))) = ["ping_tools"] /\
  PyDict.get
    (registry (_register_tool "ping" "tools" (fn 2 "private ping")
                 (_register_tool "ping" "tools" (fn 1 "public ping")
                    (empty_handler [])))) "ping_tools" =
  Some (new_entry (fn 2 "private ping") "tools" "ping" true).
Proof.
  split; [vm_compute; reflexivity|].
  refine (proj1 (proj2 (same_module_twice_displaces_first "ping" "tools"
                          (fn 1 "public ping") (fn 2 "private ping")
                          (empty_handler []) _))).
  reflexivity.
Defined.

(** ** The registry against the module objects at startup *)

Lemma register_module_reg_all_ns (Q : ToolEntry -> Prop) names M ns h :
  (forall e, Q e -> Q (mark_collision e)) ->
  (forall n fn c, In n names -> PyDict.get ns n = Some fn ->
                  Q (new_entry fn M n c)) ->
  reg_all Q h -> reg_all Q (register_module names M ns h).
Proof.
  intros Hmark. unfold register_module. revert h.
  induction names as [|n names IH]; intros h Hnew Hall; simpl; [assumption|].
  apply IH; [intros; eapply Hnew; eauto; now right|].
  destruct (PyDict.get ns n) as [fn|] eqn:E; [|assumption].
  apply register_reg_all; [exact Hmark | | exact Hall].
  intros c. apply Hnew; [now left | exact E].
Qed.

Lemma load_one_bound w rt p seen :
  ~ In (PyPath.stem p) seen ->
  bound_within seen rt ->
  bound_within (PyPath.stem p :: seen) (snd (load_one w rt p)).
Proof.
  intros Hnew Hinv. unfold load_one.
  destruct (fresh_import_result w (PyPath.stem p) p (py rt))
    as [[_ ->]|(_ & i' & -> & Hnext & _ & Hheap & Hname & Hns)].
  - intros key e Hin. cbn [hdl py] in *.
    destruct (Hinv key e Hin) as [Hb Hs]. split; [exact Hb | now right].
  - assert (Hold : forall key e, In (key, e) (registry (hdl rt)) ->
              source_module e <> PyPath.stem p /\
              exists a,
                PyDict.get (loaded_mods (hdl rt)) (source_module e) = Some a /\
                a < next_addr i' /\
                mod_name (heap i' a) = source_module e /\
                PyDict.get (mod_ns (heap i' a)) (original_name e) = Some (function e)).
    { intros key e Hin. destruct (Hinv key e Hin) as [(a & Hl & Hlt & Hn & Hg) Hs].
      split; [intros Heq; apply Hnew; now rewrite <- Heq|].
      exists a. rewrite Hnext, Hheap by lia. repeat split; auto. }
    destruct (snd (import_namespace w (PyPath.stem p) p)) as [exc|].
    + destruct (exc_is_exception exc);
        intros key e Hin; cbn [snd hdl py registry reject with_rejected] in *;
        destruct (Hold key e Hin) as [_ Hb];
        destruct (Hinv key e Hin) as [_ Hs]; (split; [exact Hb | now right]).
    + cbn [snd hdl py].
      set (M := PyPath.stem p) in *.
      set (ns := mod_ns (heap i' (next_addr (py rt)))).
      set (h1 := set_loaded (hdl rt) M (next_addr (py rt))).
      set (h' := register_module (filter (eligible w) (dir ns)) M ns h1).
      assert (Hloaded : loaded_mods h' =
                        PyDict.setitem (loaded_mods (hdl rt)) M (next_addr (py rt))).
      { destruct (register_module_frame (filter (eligible w) (dir ns)) M ns h1)
          as (_ & _ & _ & _ & F). exact F. }
      pose (Q := fun e : ToolEntry =>
                   (exists a,
                      PyDict.get (PyDict.setitem (loaded_mods (hdl rt)) M
                                    (next_addr (py rt))) (source_module e) = Some a /\
                      a < next_addr i' /\
                      mod_name (heap i' a) = source_module e /\
                      PyDict.get (mod_ns (heap i' a)) (original_name e) =
                        Some (function e)) /\
                   In (source_module e) (M :: seen)).
      assert (HQ : reg_all Q h').
      { apply register_module_reg_all_ns.
        - intros e He. exact He.
        - intros n fn c _ Hg. split; [|now left].
          exists (next_addr (py rt)). cbn [source_module original_name function new_entry].
          rewrite get_setitem, String.eqb_refl, Hnext.
          repeat split; [lia | exact Hname | exact Hg].
        - intros key e Hin. cbn [registry h1 set_loaded with_loaded_mods] in Hin.
          destruct (Hold key e Hin) as [Hne (a & Hl & Hlt & Hn & Hg)].
          destruct (Hinv key e Hin) as [_ Hs].
          split; [|now right]. exists a. rewrite get_setitem.
          apply not_eq_sym, String.eqb_neq in Hne. rewrite Hne. auto. }
      intros key e Hin. destruct (HQ key e Hin) as [(a & Hl & Hb) Hs].
      split; [|exact Hs]. exists a. cbn [hdl py]. rewrite Hloaded. auto.
Qed.

Lemma load_loop_bound w l :
  forall rt seen,
    NoDup (map PyPath.stem l) ->
    (forall p, In p l -> ~ In (PyPath.stem p) seen) ->
    bound_within seen rt ->
    bound_within (rev (map PyPath.stem l) ++ seen) (snd (load_loop w l rt)).
Proof.
  induction l as [|p l IH]; intros rt seen Hnd Hfresh Hinv; simpl; [exact Hinv|].
  inversion Hnd as [|? ? Hnotin Hnd']; subst.
  rewrite <- app_assoc. simpl.
  pose proof (load_one_bound w rt p seen (Hfresh p (or_introl eq_refl)) Hinv)
    as Hstep.
  destruct (load_one w rt p) as [[u|exc] rt']; cbn [snd] in *.
  - apply IH.
    + exact Hnd'.
    + intros q Hq [Heq|Hs].
      * apply Hnotin. rewrite Heq. now apply in_map.
      * apply (Hfresh q); [now right | exact Hs].
    + exact Hstep.
  - intros key e Hin. destruct (Hstep key e Hin) as [Hb Hs].
    split; [exact Hb|]. apply in_or_app. now right.
Qed.

(** X21.  When the accepted files have different stems, every tool that
    [__init__] registers dispatches to what its module defines: the source
    module of the entry is in the loaded-module table, the module object
    carries that name, and its namespace holds the entry's function under
    the entry's original name. *)
Theorem startup_tools_are_bound_to_their_modules (w : World) (i : Interp) :
  NoDup (map PyPath.stem (okmods (hdl (__init__ w i)))) ->
  forall key e,
    In (key, e) (registry (hdl (__init__ w i))) ->
    bound_to_module (__init__ w i) e /\
    exists p, In p (okmods (hdl (__init__ w i))) /\ source_module e = PyPath.stem p.
Proof.
  destruct (init_lists w i) as (_ & _ & Hok). rewrite Hok.
  unfold __init__, construct. cbv zeta. set (h2 := validate_all w _).
  assert (Hok2 : okmods h2 =
                 flat_map (accepted_of w (startup_dirs w)) (discover w (startup_dirs w)))
    by (unfold h2; now rewrite validate_all_shape).
  rewrite <- Hok2. intros Hnd key e Hin.
  assert (Hblank : registry h2 = [])
    by (unfold h2; now rewrite validate_all_shape).
  destruct (load_loop_bound w (okmods h2) {| hdl := h2; py := i |} [] Hnd
              (fun p _ H => H)
              (fun k e0 H => ltac:(cbn [hdl] in H; rewrite Hblank in H; destruct H))
              key e Hin) as [Hb Hs].
  split; [exact Hb|].
  rewrite app_nil_r in Hs. apply in_rev in Hs. apply in_map_iff in Hs.
  destruct Hs as (p & Hp & Hpin). eauto.
Qed.

(** Both modules of the two-module run have their tools bound. *)
Lemma startup_tools_are_bound_to_their_modules_witness :
  NoDup (map PyPath.stem (okmods (hdl (__init__ two_modules fresh_interp)))) /\
  bound_to_module (__init__ two_modules fresh_interp)
    (new_entry (fn 6 "beta foo") "beta" "foo" true).
Proof.
  assert (Hnd : NoDup (map PyPath.stem
                         (okmods (hdl (__init__ two_modules fresh_interp))))).
  { vm_compute. repeat constructor; simpl; intuition discriminate. }
  split; [exact Hnd|].
  refine (proj1 (startup_tools_are_bound_to_their_modules two_modules fresh_interp
                   Hnd "foo_beta" _ _)).
  vm_compute. tauto.
Defined.

(** ** A reload that loses a tool *)




Section Shadowed.

Variables (n m : string) (f f' : pyobj) (h1 : ProxyHandler) (hn hn' : history).

Let k1 := suffixed n m.
Let k2 := suffixed k1 m.

Hypothesis Htn : PyDict.get (_name_tracker h1) n = Some hn.
Hypothesis Hfn : hist_first hn = (m, n).
Hypothesis Htk : PyDict.get (_name_tracker h1) k1 = Some hn'.
Hypothesis Hfk : hist_first hn' = (m, k1).
Hypothesis Hrn : PyDict.get (registry h1) n = None.


End Shadowed.


